(** * pippy: the environment-resolution and command-execution layer

    A shallow embedding of [src/pippy/helpers.py] (with the constants of
    [src/pippy/config.py]) and the properties its specification states.

    The helpers are effectful Python: they consult the file system, log,
    print, spawn processes and unwind with exceptions.  The embedding keeps
    that shape.  What the operating system and the Python libraries decide
    (platform, path joining, [shutil.which], [subprocess.run], the [json]
    codec) is a parameter; what the helpers change (files, the log, the
    terminal, the list of launched processes) is an explicit state threaded
    through a small state-and-exception monad. *)

From Stdlib Require Import ZArith Ascii String List Bool Lia.
From stdpp Require Import base option list strings gmap.

Local Open Scope Z_scope.

(** ** Strings as the Python code uses them *)

Module Py.

(** [str.isspace] on the ASCII range: TAB..CR, FS..US and the blank. *)
Definition isspace (c : ascii) : bool :=
  let n := nat_of_ascii c in
  ((9 <=? n)%nat && (n <=? 13)%nat) || ((28 <=? n)%nat && (n <=? 32)%nat).

Fixpoint lstrip (s : string) : string :=
  match s with
  | String c s' => if isspace c then lstrip s' else s
  | EmptyString => EmptyString
  end.

Definition rstrip (s : string) : string := String.rev (lstrip (String.rev s)).

(** [s.strip()] *)
Definition strip (s : string) : string := rstrip (lstrip s).

Fixpoint take_word (s : string) : string :=
  match s with
  | String c s' => if isspace c then EmptyString else String c (take_word s')
  | EmptyString => EmptyString
  end.

(** [s.split()[0]]: the first blank-separated word; [None] stands for the
    [IndexError] of indexing the empty list that [split] returns on a
    string with no word in it. *)
Definition first_word (s : string) : option string :=
  match lstrip s with
  | EmptyString => None
  | w => Some (take_word w)
  end.

(** Truthiness of a [str]. *)
Definition nonempty (s : string) : bool :=
  match s with EmptyString => false | _ => true end.

Definition squote : ascii := "039"%char.
Definition dquote : ascii := "034"%char.

(** The characters [shlex.quote] leaves alone: [[\w@%+=:,./-]] under
    [re.ASCII]. *)
Definition is_safe_char (c : ascii) : bool :=
  let n := nat_of_ascii c in
  ((48 <=? n)%nat && (n <=? 57)%nat)
  || ((65 <=? n)%nat && (n <=? 90)%nat)
  || ((97 <=? n)%nat && (n <=? 122)%nat)
  || existsb (Ascii.eqb c) (list_ascii_of_string "_@%+=:,./-").

Fixpoint all_safe (s : string) : bool :=
  match s with
  | String c s' => is_safe_char c && all_safe s'
  | EmptyString => true
  end.

(** [s.replace] of every single quote by the five characters: single quote,
    double quote, single quote, double quote, single quote. *)
Fixpoint escape_squotes (s : string) : string :=
  match s with
  | String c s' =>
      if Ascii.eqb c squote
      then String squote (String dquote (String squote (String dquote
             (String squote (escape_squotes s')))))
      else String c (escape_squotes s')
  | EmptyString => EmptyString
  end.

(** [shlex.quote] *)
Definition shlex_quote (s : string) : string :=
  if negb (nonempty s) then String squote (String squote EmptyString)
  else if all_safe s then s
  else String squote (escape_squotes s) +:+ String squote EmptyString.

End Py.

(** ** Exceptions

    Only the classes the helpers raise or catch.  Every one of them derives
    from [Exception]; in particular [typer.Exit] is [click.exceptions.Exit],
    a subclass of [RuntimeError], so an [except Exception] clause catches
    it. *)

Inductive exn :=
| Exit (exit_code : Z)
| FileNotFoundError
| IsADirectoryError
| IndexError
| TypeError
| JSONDecodeError
| OtherError (what : string).

Definition is_Exit (e : exn) : bool :=
  match e with Exit _ => true | _ => false end.

Definition is_FileNotFoundError (e : exn) : bool :=
  match e with FileNotFoundError => true | _ => false end.

Definition is_JSONDecodeError (e : exn) : bool :=
  match e with JSONDecodeError => true | _ => false end.

(** ** JSON documents *)

(** A Python object as [json.load] builds it.  A [dict] keeps its insertion
    order, so an object is an association list. *)
#[warnings="-register-all"]
Inductive json :=
| JNull
| JBool (b : bool)
| JInt (z : Z)
| JStr (s : string)
| JArr (items : list json)
| JObj (members : list (string * json)).

(** [d.get(k)] on the members of an object *)
Fixpoint dict_get (k : string) (members : list (string * json)) : option json :=
  match members with
  | [] => None
  | (k', v) :: rest => if String.eqb k k' then Some v else dict_get k rest
  end.

(** [d[k] = v]: an existing key keeps its place, a new one goes last. *)
Fixpoint dict_set (k : string) (v : json) (members : list (string * json))
  : list (string * json) :=
  match members with
  | [] => [(k, v)]
  | (k', v') :: rest =>
      if String.eqb k k' then (k', v) :: rest else (k', v') :: dict_set k v rest
  end.

Definition empty_document : json := JObj [].

(** The values that are Python objects: the keys of a [dict] are distinct,
    at every depth. *)
Fixpoint json_wf (v : json) : bool :=
  match v with
  | JArr items => forallb json_wf items
  | JObj members =>
      bool_decide (NoDup members.*1) && forallb (λ '(_, v'), json_wf v') members
  | _ => true
  end.

(** The [json] module, as far as the helpers use it: [json_dumps] is the
    text [json.dump(obj, f, indent=2)] writes, [json_loads] what
    [json.load] makes of a text ([None] for [JSONDecodeError]). *)
Class JsonCodec := {
  json_dumps : json → string;
  json_loads : string → option json
}.

(** What the helpers rely on: [json.load] builds Python objects, and a
    written object reads back. *)
Class JsonLaws (codec : JsonCodec) : Prop := {
  json_loads_wf : ∀ s v, json_loads s = Some v → json_wf v = true;
  json_loads_dumps : ∀ v, json_wf v = true → json_loads (json_dumps v) = Some v
}.

(** ** The file system *)

Abbreviation Path := string (only parsing).

Inductive node :=
| Dir
| File (content : string).

Abbreviation FS := (gmap string node) (only parsing).

Module Pathlib.

(** [Path.exists] *)
Definition exists_ (fs : FS) (p : Path) : bool :=
  match fs !! p with Some _ => true | None => false end.

(** [Path.is_dir] *)
Definition is_dir (fs : FS) (p : Path) : bool :=
  match fs !! p with Some Dir => true | _ => false end.

(** [Path.is_file] *)
Definition is_file (fs : FS) (p : Path) : bool :=
  match fs !! p with Some (File _) => true | _ => false end.

End Pathlib.

(** ** Processes *)

(** [cmd_list : List[str] | str] *)
Inductive command :=
| ArgList (args : list string)
| CmdLine (line : string).

Definition is_list (c : command) : bool :=
  match c with ArgList _ => true | CmdLine _ => false end.

(** What [subprocess.run] is called with. *)
Record request := Request {
  req_cmd : command;
  req_cwd : option Path;
  req_capture : bool;
  req_env : gmap string string;
  req_shell : bool
}.

(** What [subprocess.run] answers: a completed process (its streams are
    [None] when they were not captured) or an exception of the launcher. *)
Inductive completion :=
| Completed (returncode : Z) (stdout stderr : option string)
| SpawnError (e : exn).

(** ** The host: everything the helpers ask the platform *)

Record World := {
  win32 : bool;                                 (* sys.platform is win32 *)
  sys_executable : string;                      (* sys.executable *)
  os_environ : gmap string string;              (* os.environ *)
  getcwd : Path;                                (* Path.cwd() *)
  joinpath : Path → string → Path;              (* the / of pathlib *)
  shutil_which : FS → string → option string;   (* shutil.which *)
  subprocess_run : request → FS → completion * FS
}.

(** ** What the helpers leave behind *)

Inductive level := DEBUG | INFO | WARNING | ERROR.

(** One constructor per logging call of [helpers.py], carrying the values
    its f-string interpolates. *)
Inductive message :=
| Running_command (cmd : command) (cwd : Path)
| Shell_with_list
| Stdout_is (out : string)
| Stderr_is (err : string)
| Command_failed (rc : Z) (cmd : command)
| Command_not_found (name : string)
| Run_error (cmd : command) (e : exn)
| Venv_python_missing (venv : Path)
| Not_in_venv_or_path (name : string)
| Tool_missing (tool pkg : string)
| Tool_installed (tool : string)
| Tool_install_failed (tool pkg : string)
| Import_check_failed (module : string) (e : exn)
| Config_unparsable
| Config_unreadable (e : exn)
| Config_saved (path : Path)
| Config_write_failed (path : Path) (e : exn).

(** [echo(style(text, fg=colors.RED), err=True)] *)
Record echo_record := Echo { echo_text : string; echo_red : bool; echo_err : bool }.

Record State := {
  fs : FS;
  launched : list request;            (* the calls of subprocess.run, oldest first *)
  logs : list (level * message);      (* oldest first *)
  echoed : list echo_record           (* oldest first *)
}.

(** ** The monad: state that survives an exception *)

Inductive result (A : Type) :=
| Ok (a : A)
| Raise (e : exn).
Arguments Ok {A} a.
Arguments Raise {A} e.

Definition M (A : Type) : Type := State → result A * State.

Definition ret {A} (a : A) : M A := λ σ, (Ok a, σ).

Definition bind {A B} (c : M A) (k : A → M B) : M B :=
  λ σ, match c σ with
       | (Ok a, σ') => k a σ'
       | (Raise e, σ') => (Raise e, σ')
       end.

Definition raise {A} (e : exn) : M A := λ σ, (Raise e, σ).

(** [try: c  except <the classes h accepts>: ...]; a handler that returns
    [None] does not match, and the exception goes on. *)
Definition try_except {A} (c : M A) (h : exn → option (M A)) : M A :=
  λ σ, match c σ with
       | (Ok a, σ') => (Ok a, σ')
       | (Raise e, σ') =>
           match h e with
           | Some handler => handler σ'
           | None => (Raise e, σ')
           end
       end.

Declare Scope py_scope.
Delimit Scope py_scope with py.
Notation "x <- c ;; k" := (bind c (λ x, k))
  (at level 100, c at next level, right associativity) : py_scope.
Notation "c ;; k" := (bind c (λ _, k))
  (at level 100, right associativity) : py_scope.
Notation "'when' b 'then' c" := (if b then c else ret tt)
  (at level 99, b at level 98, c at level 98) : py_scope.
Local Open Scope py_scope.

Definition get_fs : M FS := λ σ, (Ok (fs σ), σ).

Definition log (l : level) (m : message) : M unit :=
  λ σ, (Ok tt, {| fs := fs σ; launched := launched σ;
                   logs := logs σ ++ [(l, m)]; echoed := echoed σ |}).

Definition echo (e : echo_record) : M unit :=
  λ σ, (Ok tt, {| fs := fs σ; launched := launched σ;
                   logs := logs σ; echoed := echoed σ ++ [e] |}).

(** ** The helpers of [helpers.py] *)

Definition VENV_DIR_NAME : string := ".venv".
Definition CONFIG_FILE_NAME : string := "pippy.json".

(** The tagged form of what [get_executable] returns: each of its [return]
    statements builds its string from a path or from an interpreter and a
    module name. *)
Inductive ExecutableReference :=
| DirectPath (path : Path)
| ModuleInvocation (interpreter : Path) (module : string).

(** [str(path)], and the f-string that puts the interpreter between double
    quotes, followed by [-m] and the module. *)
Definition render (r : ExecutableReference) : string :=
  match r with
  | DirectPath p => p
  | ModuleInvocation py m =>
      String Py.dquote py +:+ String Py.dquote " -m " +:+ m
  end.

Section Helpers.

Context (w : World) {codec : JsonCodec}.

Notation "p // s" := (joinpath w p s) (at level 40, left associativity).

(** *** Environment and path helpers *)

Definition find_venv (project_dir : Path) : M (option Path) :=
  fs0 <- get_fs ;;
  let venv_path := project_dir // VENV_DIR_NAME in
  if Pathlib.is_dir fs0 venv_path
     && Pathlib.exists_ fs0 (venv_path // "pyvenv.cfg")
  then ret (Some venv_path)
  else ret None.

Definition get_venv_python (venv_path : Path) : M (option Path) :=
  fs0 <- get_fs ;;
  let python_exe :=
    if win32 w then venv_path // "Scripts" // "python.exe"
    else venv_path // "bin" // "python" in
  ret (if Pathlib.exists_ fs0 python_exe then Some python_exe else None).

(** The part of [get_executable] under [if venv_path:]; [None] is falling
    out of it. *)
Definition resolve_in_venv (venv_path : Path) (command : string)
  : M (option ExecutableReference) :=
  fs0 <- get_fs ;;
  if win32 w then
    let exe_path := venv_path // "Scripts" // (command +:+ ".exe") in
    if Pathlib.exists_ fs0 exe_path then ret (Some (DirectPath exe_path))
    else
      let exe_path := venv_path // "Scripts" // command in
      if Pathlib.exists_ fs0 exe_path then ret (Some (DirectPath exe_path))
      else
        python_exe <- get_venv_python venv_path ;;
        match python_exe with
        | Some py => ret (Some (ModuleInvocation py command))
        | None => ret None
        end
  else
    let exe_path := venv_path // "bin" // command in
    if Pathlib.exists_ fs0 exe_path then ret (Some (DirectPath exe_path))
    else
      python_exe <- get_venv_python venv_path ;;
      match python_exe with
      | Some py => ret (Some (ModuleInvocation py command))
      | None => ret None
      end.

(** The part of [get_executable] after the [if venv_path:] block. *)
Definition resolve_on_host (command : string) : M ExecutableReference :=
  fs0 <- get_fs ;;
  match shutil_which w fs0 command with
  | Some found_path =>
      if Py.nonempty found_path then ret (DirectPath found_path)
      else
        log WARNING (Not_in_venv_or_path command) ;;
        ret (ModuleInvocation (sys_executable w) command)
  | None =>
      log WARNING (Not_in_venv_or_path command) ;;
      ret (ModuleInvocation (sys_executable w) command)
  end.

Definition resolve_executable (venv_path : option Path) (command : string)
  : M ExecutableReference :=
  match venv_path with
  | Some venv =>
      in_venv <- resolve_in_venv venv command ;;
      match in_venv with
      | Some r => ret r
      | None => resolve_on_host command
      end
  | None => resolve_on_host command
  end.

Definition get_executable (venv_path : option Path) (command : string)
  : M string :=
  r <- resolve_executable venv_path command ;;
  ret (render r).

(** *** Subprocess execution *)

(** [os.environ.copy()], updated with the overlay when there is one. *)
Definition effective_env (env : option (gmap string string))
  : gmap string string :=
  match env with
  | Some overlay => overlay ∪ os_environ w
  | None => os_environ w
  end.

(** The call of [subprocess.run]: it is recorded, the host answers, and an
    exception of the launcher is raised here. *)
Definition spawn (r : request) : M (Z * option string * option string) :=
  λ σ, let '(c, fs') := subprocess_run w r (fs σ) in
       let σ' := {| fs := fs'; launched := launched σ ++ [r];
                    logs := logs σ; echoed := echoed σ |} in
       match c with
       | Completed rc out err => (Ok (rc, out, err), σ')
       | SpawnError e => (Raise e, σ')
       end.

(** [process.stdout.strip()] if [process.stdout] is truthy, else the empty
    string. *)
Definition stripped (stream : option string) : string :=
  match stream with
  | Some s => if Py.nonempty s then Py.strip s else EmptyString
  | None => EmptyString
  end.

(** [cmd_list] as the [try] block leaves it: quoted when it is a list and
    the shell is not used. *)
Definition quoted (cmd_list : command) (shell : bool) : command :=
  match cmd_list with
  | ArgList args =>
      if negb shell then ArgList (map Py.shlex_quote args) else cmd_list
  | CmdLine _ => cmd_list
  end.

Definition newline : string := String "010"%char EmptyString.

Definition run_cmd (cmd_list : command) (cwd : option Path)
    (capture check : bool) (env : option (gmap string string))
    (shell : bool) : M (Z * string * string) :=
  let effective := effective_env env in
  log DEBUG (Running_command cmd_list (default (getcwd w) cwd)) ;;
  let cmd_list' := quoted cmd_list shell in
  try_except
    ((if shell && is_list cmd_list
      then log ERROR Shell_with_list ;; raise (Exit 1)
      else ret tt) ;;
     process <- spawn (Request cmd_list' cwd capture effective shell) ;;
     let '(returncode, out, err) := process in
     let stdout := stripped out in
     let stderr := stripped err in
     (when capture && Py.nonempty stdout then log DEBUG (Stdout_is stdout)) ;;
     (when Py.nonempty stderr then log DEBUG (Stderr_is stderr)) ;;
     if check && negb (returncode =? 0) then
       log ERROR (Command_failed returncode cmd_list') ;;
       (when Py.nonempty stderr
        then echo (Echo ("Error Output:" +:+ newline +:+ stderr) true true)) ;;
       raise (Exit returncode)
     else ret (returncode, stdout, stderr))
    (λ e,
       if is_FileNotFoundError e then
         (* except FileNotFoundError: *)
         Some (match cmd_list' with
               | ArgList (arg0 :: _) =>
                   log ERROR (Command_not_found arg0) ;; raise (Exit 127)
               | ArgList [] => raise IndexError
               | CmdLine line =>
                   match Py.first_word line with
                   | Some word0 =>
                       log ERROR (Command_not_found word0) ;; raise (Exit 127)
                   | None => raise IndexError
                   end
               end)
       else
         (* except Exception as e: *)
         Some (log ERROR (Run_error cmd_list' e) ;; raise (Exit 1))).

Definition run_python_cmd (args : list string) (venv_path : option Path)
    (cwd : option Path) (capture check : bool)
    (env : option (gmap string string)) : M (Z * string * string) :=
  python_exe <-
    match venv_path with
    | Some venv =>
        venv_python <- get_venv_python venv ;;
        match venv_python with
        | Some py => ret py
        | None => log WARNING (Venv_python_missing venv) ;; ret (sys_executable w)
        end
    | None => ret (sys_executable w)
    end ;;
  let cmd := python_exe :: args in
  run_cmd (ArgList cmd) cwd capture check env false.

Definition run_pip_cmd (args : list string) (venv_path : option Path)
    (cwd : option Path) (capture check : bool)
    (env : option (gmap string string)) : M (Z * string * string) :=
  run_python_cmd ("-m" :: "pip" :: args) venv_path cwd capture check env.

(** *** Tool installation and check helpers *)

(** The script of the importability probe. *)
Definition probe_script (module : string) : string :=
  "import importlib.util; import sys; sys.exit(0 if importlib.util.find_spec('"
  +:+ module +:+ "') else 1)".

(** [rc, _, _ = run_python_cmd(["-c", script], venv_path, project_dir,
    check=False)] followed by [installed = (rc == 0)]. *)
Definition probe (module : string) (venv_path : option Path)
    (project_dir : Path) : M bool :=
  res <- run_python_cmd ["-c"; probe_script module] venv_path
           (Some project_dir) false false None ;;
  let '(rc, _, _) := res in
  ret (rc =? 0).

(** The f-string [startswith] is given: the interpreter between double
    quotes, then [-m]; [python_exe] may be [None] there. *)
Definition module_prefix (python_exe : option Path) : string :=
  String Py.dquote (default "None" python_exe) +:+ String Py.dquote " -m".

(** Step 1 of [ensure_tool_installed]: the value of [installed]. *)
Definition verify_tool (venv_path : option Path) (project_dir : Path)
    (check_command : option (list string)) (check_import : option string)
  : M bool :=
  python_exe <-
    match venv_path with
    | Some venv => get_venv_python venv
    | None => ret (Some (sys_executable w))
    end ;;
  match check_command with
  | Some (command :: _) =>
      cmd_path <- get_executable venv_path command ;;
      fs0 <- get_fs ;;
      if Pathlib.is_file fs0 cmd_path then ret true
      else if String.prefix (module_prefix python_exe) cmd_path then
        try_except (probe command venv_path project_dir)
          (λ _, Some (ret false))
      else
        ret (match shutil_which w fs0 cmd_path with
             | Some found => Py.nonempty found
             | None => false
             end)
  | _ =>
      match check_import with
      | Some (String _ _ as module) =>
          try_except (probe module venv_path project_dir)
            (λ e, Some (log DEBUG (Import_check_failed module e) ;; ret false))
      | _ => ret false
      end
  end.

(** Step 2 of [ensure_tool_installed]. *)
Definition install_tool (tool_name pip_package : string)
    (venv_path : option Path) (project_dir : Path) : M unit :=
  log INFO (Tool_missing tool_name pip_package) ;;
  try_except
    (run_pip_cmd ["install"; pip_package] venv_path (Some project_dir)
       false true None ;;
     log INFO (Tool_installed tool_name))
    (λ e,
       if is_Exit e
       then Some (log ERROR (Tool_install_failed tool_name pip_package) ;;
                  raise e)
       else None).

Definition ensure_tool_installed (tool_name pip_package : string)
    (venv_path : option Path) (project_dir : Path)
    (check_command : option (list string)) (check_import : option string)
  : M unit :=
  installed <- verify_tool venv_path project_dir check_command check_import ;;
  if negb installed
  then install_tool tool_name pip_package venv_path project_dir
  else ret tt.

(** *** Configuration file helpers *)

(** [open(path, 'r')] and reading the whole text *)
Definition read_text (path : Path) : M string :=
  fs0 <- get_fs ;;
  match fs0 !! path with
  | Some (File content) => ret content
  | Some Dir => raise IsADirectoryError
  | None => raise FileNotFoundError
  end.

(** [open(path, 'w')] in the directory [parent], and writing [text]: a
    directory cannot be opened, and a new file needs its directory. *)
Definition write_text (parent path : Path) (text : string) : M unit :=
  λ σ,
    let written := (Ok tt, {| fs := <[path := File text]> (fs σ);
                              launched := launched σ; logs := logs σ;
                              echoed := echoed σ |}) in
    match fs σ !! path with
    | Some Dir => (Raise IsADirectoryError, σ)
    | Some (File _) => written
    | None =>
        match fs σ !! parent with
        | Some Dir => written
        | Some (File _) => (Raise (OtherError "NotADirectoryError"), σ)
        | None => (Raise FileNotFoundError, σ)
        end
    end.

Definition read_config (project_dir : Path) : M json :=
  let config_path := project_dir // CONFIG_FILE_NAME in
  fs0 <- get_fs ;;
  if Pathlib.exists_ fs0 config_path then
    try_except
      (text <- read_text config_path ;;
       match json_loads text with
       | Some document => ret document
       | None => raise JSONDecodeError
       end)
      (λ e,
         if is_JSONDecodeError e
         then Some (log WARNING Config_unparsable ;; ret empty_document)
         else Some (log WARNING (Config_unreadable e) ;; ret empty_document))
  else ret empty_document.

Definition write_config (project_dir : Path) (config_data : json) : M unit :=
  let config_path := project_dir // CONFIG_FILE_NAME in
  try_except
    (write_text project_dir config_path (json_dumps config_data) ;;
     log DEBUG (Config_saved config_path))
    (λ e, Some (log ERROR (Config_write_failed config_path e))).

(** [config[key] = value]: only a [dict] takes a string key. *)
Definition setitem (config : json) (key : string) (value : json) : M json :=
  match config with
  | JObj members => ret (JObj (dict_set key value members))
  | _ => raise TypeError
  end.

Definition update_config_value (project_dir : Path) (key : string)
    (value : json) : M unit :=
  config <- read_config project_dir ;;
  config' <- setitem config key value ;;
  write_config project_dir config'.

(** What the process exits with when a command handler ends in [r]: a
    normal return is 0, [Exit(code)] is [code], and any other exception
    leaves the interpreter with 1. *)
Definition process_exit_code {A} (r : result A) : Z :=
  match r with
  | Ok _ => 0
  | Raise (Exit code) => code
  | Raise _ => 1
  end.

End Helpers.

(** ** Vocabulary of the statements *)

Section Observations.

Context (w : World).

(** The state with one more record in the log. *)
Definition logged (σ : State) (l : level) (m : message) : State :=
  {| fs := fs σ; launched := launched σ;
     logs := logs σ ++ [(l, m)]; echoed := echoed σ |}.

(** The state after one call of [subprocess.run]. *)
Definition after_run (σ : State) (fs' : FS) (r : request)
    (new_logs : list (level * message)) (new_echo : list echo_record)
  : State :=
  {| fs := fs'; launched := launched σ ++ [r];
     logs := logs σ ++ new_logs; echoed := echoed σ ++ new_echo |}.

(** The request [run_cmd] hands to [subprocess.run]. *)
Definition request_of (cmd_list : command) (cwd : option Path)
    (capture : bool) (env : option (gmap string string)) (shell : bool)
  : request :=
  Request (quoted cmd_list shell) cwd capture (effective_env w env) shell.

(** [check and process.returncode != 0] *)
Definition failed (check : bool) (rc : Z) : bool := check && negb (rc =? 0).

(** The executable a command names: its first argument, or the first word
    of its command line. *)
Definition command_name (c : command) : option string :=
  match c with
  | ArgList (arg0 :: _) => Some arg0
  | ArgList [] => None
  | CmdLine line => Py.first_word line
  end.

(** A call of the package installer: [<python> -m pip install ...]. *)
Definition is_installer_call (r : request) : bool :=
  match req_cmd r with
  | ArgList (_ :: "-m" :: "pip" :: "install" :: _) => true
  | _ => false
  end.

Definition installer_calls (σ : State) : list request :=
  filter (λ r, is_installer_call r = true) (launched σ).

(** The interpreter [run_python_cmd] runs: the environment's when it is
    there, the current process's otherwise. *)
Definition venv_python (venv : Path) : Path :=
  if win32 w then joinpath w (joinpath w venv "Scripts") "python.exe"
  else joinpath w (joinpath w venv "bin") "python".

Definition python_for (files : FS) (venv_path : option Path) : string :=
  match venv_path with
  | Some venv =>
      if Pathlib.exists_ files (venv_python venv)
      then venv_python venv
      else sys_executable w
  | None => sys_executable w
  end.

(** Where a tool's own executable would be in an environment, in the
    order [get_executable] looks. *)
Definition direct_candidates (venv : Path) (command : string) : list Path :=
  if win32 w
  then [joinpath w (joinpath w venv "Scripts") (command +:+ ".exe");
        joinpath w (joinpath w venv "Scripts") command]
  else [joinpath w (joinpath w venv "bin") command].

Definition first_existing (files : FS) (paths : list Path) : option Path :=
  head (filter (λ p, Pathlib.exists_ files p = true) paths).

(** The four attempts of the resolution order, as the specification
    words them: the tool's executable in the environment, the module run
    by the environment's interpreter, the host search path, the module
    run by the current interpreter. *)
Definition resolution_attempts (files : FS) (venv_path : option Path)
    (command : string) : list (option ExecutableReference) :=
  [ venv ← venv_path;
    p ← first_existing files (direct_candidates venv command);
    Some (DirectPath p)
  ; venv ← venv_path;
    if Pathlib.exists_ files (venv_python venv)
    then Some (ModuleInvocation (venv_python venv) command) else None
  ; found ← shutil_which w files command;
    if Py.nonempty found then Some (DirectPath found) else None
  ; Some (ModuleInvocation (sys_executable w) command) ].

(** The first attempt that succeeds. *)
Definition first_success {A} (attempts : list (option A)) : option A :=
  head (omap id attempts).

(** The state once the resolver has answered: it warns when only the
    last attempt was left. *)
Definition resolved (venv_path : option Path) (command : string)
    (σ : State) : State :=
  match first_success (take 3 (resolution_attempts (fs σ) venv_path command)) with
  | Some _ => σ
  | None => {| fs := fs σ; launched := launched σ;
               logs := logs σ ++ [(WARNING, Not_in_venv_or_path command)];
               echoed := echoed σ |}
  end.

(** The state once [run_python_cmd] has chosen its interpreter: a warning
    is logged when the environment has none. *)
Definition python_chosen (venv_path : option Path) (σ : State) : State :=
  match venv_path with
  | Some venv =>
      if Pathlib.exists_ (fs σ) (venv_python venv) then σ
      else {| fs := fs σ; launched := launched σ;
              logs := logs σ ++ [(WARNING, Venv_python_missing venv)];
              echoed := echoed σ |}
  | None => σ
  end.

(** The request of [pip install pkg]. *)
Definition install_request (venv_path : option Path) (project_dir : Path)
    (pkg : string) (files : FS) : request :=
  request_of
    (ArgList (python_for files venv_path :: ["-m"; "pip"; "install"; pkg]))
    (Some project_dir) false None false.

(** The request of the importability probe. *)
Definition probe_request (venv_path : option Path) (project_dir : Path)
    (module : string) (files : FS) : request :=
  request_of
    (ArgList (python_for files venv_path :: ["-c"; probe_script module]))
    (Some project_dir) false None false.

End Observations.

(** ** A reference codec

    A compact prefix notation for [json] values, with its parser.  It
    inhabits the codec interface, and evaluates the helpers on concrete
    documents. *)

Module RefCodec.

Fixpoint put_pos (p : positive) : string :=
  match p with
  | xH => "."
  | xO p' => String "0" (put_pos p')
  | xI p' => String "1" (put_pos p')
  end.

Definition put_Z (z : Z) : string :=
  match z with
  | Z0 => "z"
  | Zpos p => String "+" (put_pos p)
  | Zneg p => String "-" (put_pos p)
  end.

(** Every character of the text follows a [c]; a dot ends it. *)
Fixpoint put_str (s : string) : string :=
  match s with
  | EmptyString => "."
  | String c s' => String "c" (String c (put_str s'))
  end.

Definition put_items_with (put : json → string) : list json → string :=
  fix go (l : list json) : string :=
    match l with
    | [] => "]"
    | v :: l' => String "," (put v +:+ go l')
    end.

Definition put_members_with (put : json → string)
  : list (string * json) → string :=
  fix go (l : list (string * json)) : string :=
    match l with
    | [] => "}"
    | (k, v) :: l' => String ":" (put_str k +:+ put v +:+ go l')
    end.

Fixpoint put (v : json) : string :=
  match v with
  | JNull => "n"
  | JBool true => "t"
  | JBool false => "f"
  | JInt z => String "i" (put_Z z)
  | JStr s => String "s" (put_str s)
  | JArr items => String "[" (put_items_with put items)
  | JObj members => String "{" (put_members_with put members)
  end.

Fixpoint get_pos (s : string) : option (positive * string) :=
  match s with
  | String "." rest => Some (xH, rest)
  | String "0" rest =>
      match get_pos rest with
      | Some (p, rest1) => Some (xO p, rest1)
      | None => None
      end
  | String "1" rest =>
      match get_pos rest with
      | Some (p, rest1) => Some (xI p, rest1)
      | None => None
      end
  | _ => None
  end.

Definition get_Z (s : string) : option (Z * string) :=
  match s with
  | String "z" rest => Some (Z0, rest)
  | String "+" rest =>
      match get_pos rest with
      | Some (p, rest1) => Some (Zpos p, rest1)
      | None => None
      end
  | String "-" rest =>
      match get_pos rest with
      | Some (p, rest1) => Some (Zneg p, rest1)
      | None => None
      end
  | _ => None
  end.

Fixpoint get_str (s : string) : option (string * string) :=
  match s with
  | String "." rest => Some (EmptyString, rest)
  | String "c" (String c rest) =>
      match get_str rest with
      | Some (t, rest1) => Some (String c t, rest1)
      | None => None
      end
  | _ => None
  end.

(** The parser, on a budget of nested calls. *)
Fixpoint get (fuel : nat) (s : string) : option (json * string) :=
  match fuel with
  | O => None
  | S fuel' =>
      match s with
      | String "n" rest => Some (JNull, rest)
      | String "t" rest => Some (JBool true, rest)
      | String "f" rest => Some (JBool false, rest)
      | String "i" rest =>
          match get_Z rest with
          | Some (z, rest1) => Some (JInt z, rest1)
          | None => None
          end
      | String "s" rest =>
          match get_str rest with
          | Some (t, rest1) => Some (JStr t, rest1)
          | None => None
          end
      | String "[" rest =>
          match get_items fuel' rest with
          | Some (items, rest1) => Some (JArr items, rest1)
          | None => None
          end
      | String "{" rest =>
          match get_members fuel' rest with
          | Some (members, rest1) => Some (JObj members, rest1)
          | None => None
          end
      | _ => None
      end
  end
with get_items (fuel : nat) (s : string) : option (list json * string) :=
  match fuel with
  | O => None
  | S fuel' =>
      match s with
      | String "]" rest => Some ([], rest)
      | String "," rest =>
          match get fuel' rest with
          | Some (v, rest1) =>
              match get_items fuel' rest1 with
              | Some (items, rest2) => Some (v :: items, rest2)
              | None => None
              end
          | None => None
          end
      | _ => None
      end
  end
with get_members (fuel : nat) (s : string)
  : option (list (string * json) * string) :=
  match fuel with
  | O => None
  | S fuel' =>
      match s with
      | String "}" rest => Some ([], rest)
      | String ":" rest =>
          match get_str rest with
          | Some (k, rest1) =>
              match get fuel' rest1 with
              | Some (v, rest2) =>
                  match get_members fuel' rest2 with
                  | Some (members, rest3) => Some ((k, v) :: members, rest3)
                  | None => None
                  end
              | None => None
              end
          | None => None
          end
      | _ => None
      end
  end.

Definition dumps (v : json) : string := put v.

(** The whole text must be one value, and a [dict] has no key twice. *)
Definition loads (s : string) : option json :=
  match get (S (String.length s)) s with
  | Some (v, EmptyString) => if json_wf v then Some v else None
  | _ => None
  end.

Definition codec : JsonCodec := {| json_dumps := dumps; json_loads := loads |}.

End RefCodec.

(** ** A concrete host

    A POSIX machine with a handful of programs, to run the helpers on. *)

Module Demo.

(** The [/] of [PurePosixPath]: an absolute name replaces the path. *)
Definition join (p : Path) (s : string) : Path :=
  match s with
  | String "/" _ => s
  | _ => p +:+ "/" +:+ s
  end.

(** The search path is [/usr/bin]. *)
Definition which (fs : FS) (name : string) : option string :=
  let candidate := "/usr/bin/" +:+ name in
  if Pathlib.is_file fs candidate then Some candidate else None.

Definition exited (r : request) (rc : Z) (out err : string) : completion :=
  if req_capture r then Completed rc (Some out) (Some err)
  else Completed rc None None.

(** [ls] finds nothing and exits with 2, [true] exits with 0, an
    interpreter running a script exits with [probe_rc], the package
    installer with [pip_rc]; no other program exists. *)
Definition run (probe_rc pip_rc : Z) (r : request) (fs : FS)
  : completion * FS :=
  match req_cmd r with
  | ArgList ("ls" :: _) =>
      (exited r 2 EmptyString ("ls: cannot access: No such file or directory"
                      +:+ newline), fs)
  | ArgList ("true" :: _) => (exited r 0 EmptyString EmptyString, fs)
  | ArgList (_ :: "-c" :: _) => (exited r probe_rc EmptyString EmptyString, fs)
  | ArgList (_ :: "-m" :: "pip" :: _) =>
      (exited r pip_rc EmptyString "ERROR: No matching distribution found", fs)
  | _ => (SpawnError FileNotFoundError, fs)
  end.

Definition host (probe_rc pip_rc : Z) : World :=
  {| win32 := false;
     sys_executable := "/usr/bin/python3";
     os_environ := {[ "PATH" := "/usr/bin" ]};
     getcwd := "/work";
     joinpath := join;
     shutil_which := which;
     subprocess_run := run probe_rc pip_rc |}.

Definition boot (files : FS) : State :=
  {| fs := files; launched := []; logs := []; echoed := [] |}.

(** A project with an environment that has its interpreter only. *)
Definition bare_venv : FS :=
  {[ "/work" := Dir;
     "/work/.venv" := Dir;
     "/work/.venv/pyvenv.cfg" := File "home = /usr/bin";
     "/work/.venv/bin/python" := File EmptyString ]}.

(** The same project once [black] is installed in the environment. *)
Definition venv_with_black : FS :=
  <[ "/work/.venv/bin/black" := File EmptyString ]> bare_venv.

(** A folder called [.venv] that no tool created. *)
Definition unmarked_venv : FS :=
  {[ "/work" := Dir; "/work/.venv" := Dir ]}.

Definition main_document : json := JObj [("main", JStr "app.py")].

(** A project whose configuration names its entry script. *)
Definition configured : FS :=
  {[ "/work" := Dir;
     "/work/pippy.json" := File (RefCodec.dumps main_document) ]}.

(** A project whose configuration is not a document. *)
Definition corrupted : FS :=
  {[ "/work" := Dir; "/work/pippy.json" := File "{main" ]}.

(** A project with a directory where the configuration should be. *)
Definition config_is_dir : FS :=
  {[ "/work" := Dir; "/work/pippy.json" := Dir ]}.

End Demo.

(** An argument [shlex.quote] returns as it is: not empty, and made of safe
    characters only. *)
Definition plain_argument (s : string) : bool := Py.nonempty s && Py.all_safe s.

(** ** The rest of [helpers.py], and the commands of [commands/core.py]
    that call the helpers

    These functions log messages of their own, read the terminal and ask
    [pathlib] for more than joining.  They run in a session: the state of
    the helpers, the records they log themselves, the lines waiting on the
    standard input and what the terminal has been shown.  The records of a
    command and those of the helpers it calls are kept in two lists, so how
    they interleave is not recorded. *)

Module PyText.

(** [str.lower] on the ASCII range *)
Definition lower_char (c : ascii) : ascii :=
  let n := nat_of_ascii c in
  if (65 <=? n)%nat && (n <=? 90)%nat then ascii_of_nat (n + 32) else c.

Fixpoint lower (s : string) : string :=
  match s with
  | String c s' => String (lower_char c) (lower s')
  | EmptyString => EmptyString
  end.

(** [needle in hay] *)
Fixpoint contains (needle hay : string) : bool :=
  String.prefix needle hay
  || match hay with
     | String _ rest => contains needle rest
     | EmptyString => false
     end.

(** The ASCII line boundaries of [str.splitlines], the carriage return
    apart. *)
Definition is_linebreak (c : ascii) : bool :=
  let n := nat_of_ascii c in
  (n =? 10)%nat || (n =? 11)%nat || (n =? 12)%nat
  || (n =? 28)%nat || (n =? 29)%nat || (n =? 30)%nat.

(** [len(s.splitlines())] *)
Fixpoint count_lines (s : string) : nat :=
  match s with
  | EmptyString => 0
  | String c rest =>
      if (nat_of_ascii c =? 13)%nat then
        match rest with
        | String c' rest' =>
            if (nat_of_ascii c' =? 10)%nat then S (count_lines rest')
            else S (count_lines rest)
        | EmptyString => 1
        end
      else if is_linebreak c then S (count_lines rest)
      else match rest with
           | EmptyString => 1
           | _ => count_lines rest
           end
  end.

(** The text before the first blank and the text after it. *)
Fixpoint cut_at_blank (s : string) : option (string * string) :=
  match s with
  | EmptyString => None
  | String c rest =>
      if Ascii.eqb c " " then Some (EmptyString, rest)
      else match cut_at_blank rest with
           | Some (before, after) => Some (String c before, after)
           | None => None
           end
  end.

(** [s.split(" ", maxsplit)] *)
Fixpoint split_blank (maxsplit : nat) (s : string) : list string :=
  match maxsplit with
  | O => [s]
  | S n =>
      match cut_at_blank s with
      | Some (before, after) => before :: split_blank n after
      | None => [s]
      end
  end.

Fixpoint lstrip_char (c : ascii) (s : string) : string :=
  match s with
  | String a rest => if Ascii.eqb a c then lstrip_char c rest else s
  | EmptyString => EmptyString
  end.

(** [s.strip(c)] for a one-character [c] *)
Definition strip_char (c : ascii) (s : string) : string :=
  String.rev (lstrip_char c (String.rev (lstrip_char c s))).

End PyText.

(** What the functions below ask [pathlib] beyond joining. *)
Record Paths := {
  path_resolve : FS → Path → Path;                     (* Path.resolve *)
  path_parts_from : Path → Path → option (list string);
    (* item.relative_to(base).parts; None is its ValueError *)
  path_rglob : FS → Path → string → list Path;         (* Path.rglob *)
  path_parent : Path → Path;                           (* Path.parent *)
  path_suffix : Path → string                          (* Path.suffix *)
}.

(** One constructor per logging call of the functions modelled below,
    carrying the values its f-string is computed from. *)
Inductive note :=
| Directory_not_found (dir_arg : Path)
| Main_block_unreadable (file_path : Path) (e : exn)
| Found_venv (venv : Path)
| No_venv (project_dir : Path)
| Run_init_hint
| Creating_venv (target : Path)
| Venv_create_failed
| Venv_created
| Venv_create_error (e : exn)
| Freezing (output_path : Path)
| Freeze_failed
| Wrote_pins (count : nat) (output_path : Path)
| Lock_failed (e : exn)
| Running_file (script : Path)
| No_main_configured (project_dir : Path)
| Run_install_hint
| Main_script_missing (script : Path)
| Running_main (relative : list string)
| Not_a_target (target : Path)
| No_dedicated_venv (script : Path)
| No_venv_system_python (project_dir : Path)
| Script_status (rc : Z)
| Script_not_executed
| Script_run_error (e : exn).

(** What the terminal shows outside the log: the prompt of an [input] call
    and a reminder in yellow. *)
Inductive terminal_event :=
| Prompted (text : string)
| Reminded (text : string).

Record Session := {
  core : State;
  notes : list (level * note);      (* oldest first *)
  stdin : list string;              (* the lines still to be read *)
  terminal : list terminal_event    (* oldest first *)
}.

Definition C (A : Type) : Type := Session → result A * Session.

Definition cret {A} (a : A) : C A := λ s, (Ok a, s).

Definition cbind {A B} (c : C A) (k : A → C B) : C B :=
  λ s, match c s with
       | (Ok a, s') => k a s'
       | (Raise e, s') => (Raise e, s')
       end.

Definition craise {A} (e : exn) : C A := λ s, (Raise e, s).

Definition ctry_except {A} (c : C A) (h : exn → option (C A)) : C A :=
  λ s, match c s with
       | (Ok a, s') => (Ok a, s')
       | (Raise e, s') =>
           match h e with
           | Some handler => handler s'
           | None => (Raise e, s')
           end
       end.

(** A helper, run on the helpers' part of the session. *)
Definition lift {A} (m : M A) : C A :=
  λ s, let '(r, σ') := m (core s) in
       (r, {| core := σ'; notes := notes s; stdin := stdin s;
              terminal := terminal s |}).

Definition cnote (l : level) (n : note) : C unit :=
  λ s, (Ok tt, {| core := core s; notes := notes s ++ [(l, n)];
                  stdin := stdin s; terminal := terminal s |}).

Declare Scope cmd_scope.
Delimit Scope cmd_scope with cmd.
Notation "x <- c ;; k" := (cbind c (λ x, k))
  (at level 100, c at next level, right associativity) : cmd_scope.
Notation "c ;; k" := (cbind c (λ _, k))
  (at level 100, right associativity) : cmd_scope.
Notation "'when' b 'then' c" := (if b then c else cret tt)
  (at level 99, b at level 98, c at level 98) : cmd_scope.

Definition LOCK_FILE_NAME : string := "requirements.lock".

(** [EXCLUDE_DIRS] of [config.py]; the loops over this set only ask whether
    some element matches, so the order chosen here is immaterial. *)
Definition EXCLUDE_DIRS : list string :=
  [".venv"; "venv"; "__pycache__"; ".git"; ".hg"; "dist"; "build"; "docs/_build"].

(** The two spellings [check_for_main_block] looks for: the test of
    [__name__] against [__main__] between double quotes, and between single
    quotes. *)
Definition main_block_double : string :=
  "if __name__ == " +:+ String Py.dquote ("__main__" +:+ String Py.dquote ":").
Definition main_block_single : string := "if __name__ == '__main__':".

(** The truth value of a Python object. *)
Definition truthy (v : json) : bool :=
  match v with
  | JNull => false
  | JBool b => b
  | JInt z => negb (z =? 0)
  | JStr s => Py.nonempty s
  | JArr items => match items with [] => false | _ => true end
  | JObj members => match members with [] => false | _ => true end
  end.

Section Commands.

Local Open Scope cmd_scope.

Context (w : World) (px : Paths) {codec : JsonCodec}.

(** *** [helpers.py] *)

Definition get_project_dir (dir_arg : option Path) : C Path :=
  files <- lift get_fs ;;
  match dir_arg with
  | Some dir =>
      let resolved_dir := path_resolve px files dir in
      if negb (Pathlib.is_dir files resolved_dir) then
        cnote ERROR (Directory_not_found dir) ;; craise (Exit 1)
      else cret resolved_dir
  | None => cret (path_resolve px files (getcwd w))
  end.

(** The inner loop of [find_python_files]: [is_excluded] after going through
    the excluded names, with its [break] and its two [except ... pass]. *)
Fixpoint is_excluded (exclude_dirs : list string) (item project_dir : Path)
  : bool :=
  match exclude_dirs with
  | [] => false
  | exclude_dir :: rest =>
      match path_parts_from px item project_dir with
      | Some (part0 :: _) =>
          if String.eqb part0 exclude_dir then true
          else is_excluded rest item project_dir
      | Some [] => is_excluded rest item project_dir      (* IndexError: pass *)
      | None => is_excluded rest item project_dir         (* ValueError: pass *)
      end
  end.

Definition find_python_files (project_dir : Path) : C (list Path) :=
  files <- lift get_fs ;;
  cret (filter (λ item, is_excluded EXCLUDE_DIRS item project_dir = false)
          (path_rglob px files project_dir "*.py")).

Definition check_for_main_block (file_path : Path) : C bool :=
  ctry_except
    (content <- lift (read_text file_path) ;;
     cret (PyText.contains main_block_double content
           || PyText.contains main_block_single content))
    (λ e, Some (cnote WARNING (Main_block_unreadable file_path e) ;; cret false)).

(** The loop of [prompt_yes_no] over the lines of the standard input; with
    none left, [input] raises [EOFError]. *)
Fixpoint prompt_loop (prompt : string) (default_yes : bool)
    (lines : list string) (shown : list terminal_event)
  : result bool * list string * list terminal_event :=
  match lines with
  | [] => (Raise (OtherError "EOFError"), [], shown ++ [Prompted prompt])
  | line :: rest =>
      let ans := PyText.lower (Py.strip line) in
      let shown' := shown ++ [Prompted prompt] in
      if negb (Py.nonempty ans) then (Ok default_yes, rest, shown')
      else if String.eqb ans "y" || String.eqb ans "yes" then (Ok true, rest, shown')
      else if String.eqb ans "n" || String.eqb ans "no" then (Ok false, rest, shown')
      else prompt_loop prompt default_yes rest
             (shown' ++ [Reminded "Please answer 'yes' or 'no'."])
  end.

Definition prompt_yes_no (question : string) (default_yes : bool) : C bool :=
  let suffix := if default_yes then "[Y/n]" else "[y/N]" in
  λ s, let '(r, rest, shown) :=
         prompt_loop (question +:+ " " +:+ suffix +:+ " ") default_yes
           (stdin s) (terminal s) in
       (r, {| core := core s; notes := notes s; stdin := rest;
              terminal := shown |}).

(** *** [commands/core.py] *)

Definition _ensure_venv (project_dir : Path) (create_if_missing : bool)
  : C Path :=
  venv_path <- lift (find_venv w project_dir) ;;
  match venv_path with
  | Some venv => cnote INFO (Found_venv venv) ;; cret venv
  | None =>
      if negb create_if_missing then
        cnote ERROR (No_venv project_dir) ;;
        cnote INFO Run_init_hint ;;
        craise (Exit 1)
      else
        let target_venv_path := joinpath w project_dir VENV_DIR_NAME in
        cnote INFO (Creating_venv target_venv_path) ;;
        ctry_except
          (res <- lift (run_cmd w
                          (ArgList [sys_executable w; "-m"; "venv"; target_venv_path])
                          (Some project_dir) false false None false) ;;
           let '(rc, _, err) := res in
           if negb (rc =? 0) then
             cnote ERROR Venv_create_failed ;;
             (when Py.nonempty err
              then lift (echo (Echo ("Error Output:" +:+ newline +:+ err) true true))) ;;
             craise (Exit 1)
           else
             cnote INFO Venv_created ;; cret target_venv_path)
          (λ e, Some (cnote ERROR (Venv_create_error e) ;; craise (Exit 1)))
  end.

Definition lock_deps (dir : option Path) (output_file : option string)
  : C unit :=
  project_dir <- get_project_dir dir ;;
  venv_path <- _ensure_venv project_dir false ;;
  let lock_file_name := default LOCK_FILE_NAME output_file in
  let output_path := joinpath w project_dir lock_file_name in
  cnote INFO (Freezing output_path) ;;
  ctry_except
    (res <- lift (run_pip_cmd w ["freeze"] (Some venv_path) (Some project_dir)
                    true false None) ;;
     let '(rc, output, err) := res in
     (if negb (rc =? 0) then
        cnote ERROR Freeze_failed ;;
        (when Py.nonempty err
         then lift (echo (Echo ("Error Output:" +:+ newline +:+ err) true true))) ;;
        craise (Exit 1)
      else cret tt) ;;
     lift (write_text (path_parent px output_path) output_path output) ;;
     cnote INFO (Wrote_pins (PyText.count_lines output) output_path))
    (λ e, Some (cnote ERROR (Lock_failed e) ;; craise (Exit 1))).

(** [config.get("main")]: only a [dict] has [get]. *)
Definition config_get (config : json) (key : string) : C (option json) :=
  match config with
  | JObj members => cret (dict_get key members)
  | _ => craise (OtherError "AttributeError")
  end.

(** [project_dir / main_script_rel]: a path is joined with a string only. *)
Definition join_value (project_dir : Path) (v : json) : C Path :=
  match v with
  | JStr s => cret (joinpath w project_dir s)
  | _ => craise TypeError
  end.

(** The first branch of [run_script]: which script, in which project. *)
Definition run_target (target : Path) : C (Path * Path) :=
  files <- lift get_fs ;;
  if Pathlib.is_file files target && String.eqb (path_suffix px target) ".py" then
    cnote INFO (Running_file target) ;;
    cret (path_parent px target, target)
  else if Pathlib.is_dir files target then
    let project_dir := target in
    config <- lift (read_config w project_dir) ;;
    main_script_rel <- config_get config "main" ;;
    match main_script_rel with
    | Some main =>
        if truthy main then
          joined <- join_value project_dir main ;;
          files' <- lift get_fs ;;
          let script_to_run := path_resolve px files' joined in
          if negb (Pathlib.exists_ files' script_to_run) then
            cnote ERROR (Main_script_missing script_to_run) ;; craise (Exit 1)
          else
            match path_parts_from px script_to_run project_dir with
            | Some relative =>
                cnote INFO (Running_main relative) ;;
                cret (project_dir, script_to_run)
            | None => craise (OtherError "ValueError")
            end
        else
          cnote ERROR (No_main_configured project_dir) ;;
          cnote INFO Run_install_hint ;;
          craise (Exit 1)
    | None =>
        cnote ERROR (No_main_configured project_dir) ;;
        cnote INFO Run_install_hint ;;
        craise (Exit 1)
    end
  else
    cnote ERROR (Not_a_target target) ;; craise (Exit 1).

Definition run_script (target : Path) (args : option (list string)) : C unit :=
  files <- lift get_fs ;;
  let target := path_resolve px files target in
  let run_args := default [] args in
  chosen <- run_target target ;;
  let '(project_dir, script_to_run) := chosen in
  venv_path <- lift (find_venv w project_dir) ;;
  (match venv_path with
   | Some _ => cret tt
   | None =>
       match os_environ w !! "VIRTUAL_ENV" with
       | Some (String _ _) => cnote WARNING (No_dedicated_venv script_to_run)
       | _ => cnote WARNING (No_venv_system_python project_dir)
       end
   end) ;;
  ctry_except
    (res <- lift (run_python_cmd w (script_to_run :: run_args) venv_path
                    (Some project_dir) false false None) ;;
     let '(rc, _, _) := res in
     when negb (rc =? 0) then cnote WARNING (Script_status rc))
    (λ e,
       if is_Exit e then Some (cnote ERROR Script_not_executed ;; craise e)
       else Some (cnote ERROR (Script_run_error e) ;; craise (Exit 1))).

(** The lines of [project_info] and [publish] that take a module invocation
    apart again: when the string of the tool has [" -m "] in it, it is split
    at its first two blanks, the quotes around its first piece are removed,
    and the pieces replace the first element of [cmd]. *)
Definition module_argv (tool_cmd : string) (cmd : list string) : list string :=
  if PyText.contains " -m " tool_cmd then
    match PyText.split_blank 2 tool_cmd with
    | python_exe :: module_args =>
        PyText.strip_char Py.dquote python_exe :: module_args ++ tail cmd
    | [] => cmd
    end
  else cmd.

End Commands.

(** A concrete [pathlib] for the concrete host: no symbolic links, and
    [/usr/bin/python3] as the interpreter of the environment examples. *)
Module DemoPaths.

(** The components of a relative POSIX path. *)
Fixpoint components (current : string) (s : string) : list string :=
  match s with
  | EmptyString => [String.rev current]
  | String c rest =>
      if Ascii.eqb c "/" then String.rev current :: components EmptyString rest
      else components (String c current) rest
  end.

Definition parts_from (item base : Path) : option (list string) :=
  let root := base +:+ "/" in
  if String.prefix root item
  then Some (components EmptyString
               (String.substring (String.length root)
                  (String.length item - String.length root) item))
  else None.

Definition ends_with (ending s : string) : bool :=
  String.prefix (String.rev ending) (String.rev s).

(** The regular files under [base] whose name ends as the pattern does
    after its star. *)
Definition rglob (files : FS) (base : Path) (pattern : string) : list Path :=
  filter (λ p, Pathlib.is_file files p
               && String.prefix (base +:+ "/") p
               && ends_with (String.substring 1 (String.length pattern - 1) pattern) p
               = true)
    (map_to_list files).*1.

Fixpoint drop_last_component (s : string) : string :=
  match s with
  | EmptyString => EmptyString
  | String c rest =>
      if PyText.contains "/" rest then String c (drop_last_component rest)
      else EmptyString
  end.

Definition suffix (p : Path) : string :=
  if ends_with ".py" p then ".py" else EmptyString.

Definition paths : Paths :=
  {| path_resolve := λ _ p, p;
     path_parts_from := parts_from;
     path_rglob := rglob;
     path_parent := drop_last_component;
     path_suffix := suffix |}.

Definition session (files : FS) (lines : list string) : Session :=
  {| core := Demo.boot files; notes := []; stdin := lines; terminal := [] |}.

(** A project with sources at the top, in a package, in a nested cache and
    in excluded folders. *)
Definition sources : FS :=
  {[ "/work" := Dir;
     "/work/app.py" := File main_block_double;
     "/work/pkg/util.py" := File "def helper(): pass";
     "/work/pkg/__pycache__/util.py" := File EmptyString;
     "/work/docs/_build/conf.py" := File EmptyString;
     "/work/.venv/lib/site.py" := File EmptyString;
     "/work/build/lib/app.py" := File EmptyString;
     "/work/README.md" := File "pippy" ]}.

End DemoPaths.

(** A host for the commands: when the interpreter is there, creating an
    environment leaves its directory and its marker, [pip freeze] prints two
    pins, and everything exits with [rc]; when it is not there, the launcher
    finds nothing. *)
Module DemoRuns.

Definition pins : string :=
  "requests==2.31.0" +:+ newline +:+ "urllib3==2.0.7" +:+ newline.

Definition run (python_there : bool) (rc : Z) (r : request) (files : FS)
  : completion * FS :=
  if negb python_there then (SpawnError FileNotFoundError, files)
  else
    match req_cmd r with
    | ArgList [_; "-m"; "venv"; target] =>
        (Demo.exited r rc EmptyString EmptyString,
         if rc =? 0
         then <[target +:+ "/pyvenv.cfg" := File "home = /usr/bin"]>
                (<[target := Dir]> files)
         else files)
    | ArgList [_; "-m"; "pip"; "freeze"] =>
        (Demo.exited r rc pins EmptyString, files)
    | ArgList (_ :: _) => (Demo.exited r rc EmptyString EmptyString, files)
    | _ => (SpawnError FileNotFoundError, files)
    end.

Definition host (python_there : bool) (rc : Z) : World :=
  {| win32 := false;
     sys_executable := "/usr/bin/python3";
     os_environ := {[ "PATH" := "/usr/bin" ]};
     getcwd := "/work";
     joinpath := Demo.join;
     shutil_which := Demo.which;
     subprocess_run := run python_there rc |}.

(** A project with its environment and one script. *)
Definition project : FS :=
  <[ "/work/app.py" := File main_block_double ]> Demo.bare_venv.

(** A configuration file that holds a list. *)
Definition list_document : FS :=
  {[ "/work" := Dir; "/work/pippy.json" := File (RefCodec.dumps (JArr [])) ]}.

End DemoRuns.

(** How [prompt_yes_no] reads one line: the answer it stands for, or [None]
    when the loop asks again. *)
Definition answer_of (default_yes : bool) (line : string) : option bool :=
  let ans := PyText.lower (Py.strip line) in
  if negb (Py.nonempty ans) then Some default_yes
  else if String.eqb ans "y" || String.eqb ans "yes" then Some true
  else if String.eqb ans "n" || String.eqb ans "no" then Some false
  else None.

(** The prompt [prompt_yes_no] shows. *)
Definition yes_no_prompt (question : string) (default_yes : bool) : string :=
  question +:+ " " +:+ (if default_yes then "[Y/n]" else "[y/N]") +:+ " ".

(** What the terminal shows for one line that is not an answer. *)
Definition asked_again (prompt : string) : list terminal_event :=
  [Prompted prompt; Reminded "Please answer 'yes' or 'no'."].

(** A path component has no separator in it. *)
Definition is_component (part : string) : bool := negb (PyText.contains "/" part).

(** The session with one more record of the commands. *)
Definition noted (s : Session) (l : level) (n : note) : Session :=
  {| core := core s; notes := notes s ++ [(l, n)]; stdin := stdin s;
     terminal := terminal s |}.

(** The request by which [_ensure_venv] creates the environment of a
    project. *)
Definition venv_request (w : World) (project_dir : Path) : request :=
  request_of w
    (ArgList [sys_executable w; "-m"; "venv"; joinpath w project_dir VENV_DIR_NAME])
    (Some project_dir) false None false.

(** The request by which [lock_deps] lists the installed packages. *)
Definition freeze_request (w : World) (files : FS) (venv project_dir : Path)
  : request :=
  request_of w (ArgList [python_for w files (Some venv); "-m"; "pip"; "freeze"])
    (Some project_dir) true None false.

(** The request by which [run_script] runs a script. *)
Definition script_request (w : World) (files : FS) (venv_path : option Path)
    (project_dir script : Path) (run_args : list string) : request :=
  request_of w (ArgList (python_for w files venv_path :: script :: run_args))
    (Some project_dir) false None false.

(** Whether [open(path, 'w')] succeeds: on a regular file that is there,
    or on a new name in a directory that is there. *)
Definition writable (files : FS) (parent path : Path) : bool :=
  match files !! path with
  | Some Dir => false
  | Some (File _) => true
  | None => Pathlib.is_dir files parent
  end.

(** Where [lock_deps] writes. *)
Definition lock_path (w : World) (project_dir : Path)
    (output_file : option string) : Path :=
  joinpath w project_dir (default LOCK_FILE_NAME output_file).

(** The path [run_script] works on, and the project of a script. *)
Definition script_target (px : Paths) (s : Session) (target : Path) : Path :=
  path_resolve px (fs (core s)) target.

(** * Properties *)

(** ** How [run_cmd] ends *)

Section Runner.

Context (w : World).

Lemma run_cmd_completed cmd_list cwd capture check env shell σ rc out err fs' :
  shell && is_list cmd_list = false →
  subprocess_run w (request_of w cmd_list cwd capture env shell) (fs σ)
    = (Completed rc out err, fs') →
  run_cmd w cmd_list cwd capture check env shell σ
  = (if failed check rc then Raise (Exit 1)
     else Ok (rc, stripped out, stripped err),
     after_run σ fs' (request_of w cmd_list cwd capture env shell)
       ([(DEBUG, Running_command cmd_list (default (getcwd w) cwd))]
        ++ (if capture && Py.nonempty (stripped out)
            then [(DEBUG, Stdout_is (stripped out))] else [])
        ++ (if Py.nonempty (stripped err)
            then [(DEBUG, Stderr_is (stripped err))] else [])
        ++ (if failed check rc
            then [(ERROR, Command_failed rc (quoted cmd_list shell));
                  (ERROR, Run_error (quoted cmd_list shell) (Exit rc))]
            else []))
       (if failed check rc && Py.nonempty (stripped err)
        then [Echo ("Error Output:" +:+ newline +:+ stripped err) true true]
        else [])).
Proof.
  intros Hmode Hrun.
  unfold run_cmd, try_except, bind, spawn, log, echo, raise, ret, failed,
    after_run, request_of in *.
  rewrite Hmode. simpl. rewrite Hrun. simpl.
  destruct (capture && Py.nonempty (stripped out)),
    (Py.nonempty (stripped err)), (check && negb (rc =? 0));
    simpl; rewrite <- ?app_assoc, ?app_nil_r; reflexivity.
Qed.

Lemma run_cmd_spawn_error cmd_list cwd capture check env shell σ e fs' :
  shell && is_list cmd_list = false →
  subprocess_run w (request_of w cmd_list cwd capture env shell) (fs σ)
    = (SpawnError e, fs') →
  run_cmd w cmd_list cwd capture check env shell σ
  = if is_FileNotFoundError e then
      match command_name (quoted cmd_list shell) with
      | Some name =>
          (Raise (Exit 127),
           after_run σ fs' (request_of w cmd_list cwd capture env shell)
             [(DEBUG, Running_command cmd_list (default (getcwd w) cwd));
              (ERROR, Command_not_found name)] [])
      | None =>
          (Raise IndexError,
           after_run σ fs' (request_of w cmd_list cwd capture env shell)
             [(DEBUG, Running_command cmd_list (default (getcwd w) cwd))] [])
      end
    else
      (Raise (Exit 1),
       after_run σ fs' (request_of w cmd_list cwd capture env shell)
         [(DEBUG, Running_command cmd_list (default (getcwd w) cwd));
          (ERROR, Run_error (quoted cmd_list shell) e)] []).
Proof.
  intros Hmode Hrun.
  unfold run_cmd, try_except, bind, spawn, log, echo, raise, ret,
    after_run, request_of, command_name in *.
  rewrite Hmode. simpl. rewrite Hrun. simpl.
  destruct (is_FileNotFoundError e); simpl.
  - destruct (quoted cmd_list shell) as [[|arg0 args]|line]; simpl;
      rewrite <- ?app_assoc, ?app_nil_r; try reflexivity.
    destruct (Py.first_word line); simpl;
      rewrite <- ?app_assoc, ?app_nil_r; reflexivity.
  - rewrite <- ?app_assoc, ?app_nil_r. reflexivity.
Qed.

Lemma run_cmd_shell_with_list args cwd capture check env σ :
  run_cmd w (ArgList args) cwd capture check env true σ
  = (Raise (Exit 1),
     {| fs := fs σ; launched := launched σ;
        logs := logs σ ++
          [(DEBUG, Running_command (ArgList args) (default (getcwd w) cwd));
           (ERROR, Shell_with_list);
           (ERROR, Run_error (ArgList args) (Exit 1))];
        echoed := echoed σ |}).
Proof.
  unfold run_cmd, try_except, bind, log, raise, ret. simpl.
  rewrite <- !app_assoc. reflexivity.
Qed.

End Runner.

(** ** The runner: quoting, the shell guard, exit codes *)

Section RunnerClaims.

Context (w : World).

Example shlex_quote_blank : Py.shlex_quote "a b" = "'a b'".
Proof. reflexivity. Qed.

Example shlex_quote_plain : Py.shlex_quote "/usr/bin/twine" = "/usr/bin/twine".
Proof. reflexivity. Qed.

Example shlex_quote_empty : Py.shlex_quote EmptyString = "''".
Proof. reflexivity. Qed.

Example shlex_quote_single_quote :
  Py.shlex_quote "it's"
  = "'it'" +:+ String Py.dquote "'" +:+ String Py.dquote "'s'".
Proof. reflexivity. Qed.

Example strip_both_ends :
  Py.strip ("  ls: cannot access " +:+ newline) = "ls: cannot access".
Proof. reflexivity. Qed.

Example first_word_of_line : Py.first_word "  twine upload dist/*" = Some "twine".
Proof. reflexivity. Qed.

Example first_word_of_blank : Py.first_word "   " = None.
Proof. reflexivity. Qed.

(** Whatever the host answers, a list command outside the shell reaches
    [subprocess.run] once, as [request_of] says. *)
Lemma run_cmd_launches_once cmd_list cwd capture check env shell σ :
  shell && is_list cmd_list = false →
  launched (snd (run_cmd w cmd_list cwd capture check env shell σ))
  = launched σ ++ [request_of w cmd_list cwd capture env shell].
Proof.
  intros Hmode.
  destruct (subprocess_run w (request_of w cmd_list cwd capture env shell)
              (fs σ)) as [[rc out err|e] fs'] eqn:Hrun.
  - rewrite (run_cmd_completed _ _ _ _ _ _ _ _ _ _ _ _ Hmode Hrun).
    reflexivity.
  - rewrite (run_cmd_spawn_error _ _ _ _ _ _ _ _ _ _ Hmode Hrun).
    destruct (is_FileNotFoundError e); [|reflexivity].
    destruct (command_name _); reflexivity.
Qed.

(** C9. Outside the shell, every element of an argument list goes through
    [shlex.quote] before [subprocess.run] receives the list: the one
    request [run_cmd] makes carries the quoted arguments, with the shell
    off. *)
Theorem run_cmd_quotes_every_argument args cwd capture check env σ :
  launched (snd (run_cmd w (ArgList args) cwd capture check env false σ))
  = launched σ ++
      [Request (ArgList (map Py.shlex_quote args)) cwd capture
         (effective_env w env) false].
Proof. apply (run_cmd_launches_once (ArgList args)). reflexivity. Qed.

(** C10. With the shell on and a list for a command, [run_cmd] raises
    [Exit(1)] and never calls [subprocess.run]. *)
Theorem run_cmd_shell_list_is_fatal args cwd capture check env σ :
  fst (run_cmd w (ArgList args) cwd capture check env true σ) = Raise (Exit 1)
  ∧ process_exit_code
      (fst (run_cmd w (ArgList args) cwd capture check env true σ)) = 1
  ∧ launched (snd (run_cmd w (ArgList args) cwd capture check env true σ))
    = launched σ
  ∧ fs (snd (run_cmd w (ArgList args) cwd capture check env true σ)) = fs σ.
Proof. rewrite run_cmd_shell_with_list. repeat split. Qed.

End RunnerClaims.

(** ** The interpreter and installer variants *)

Section Variants.

Context (w : World).

Lemma run_python_cmd_unfold args venv_path cwd capture check env σ :
  run_python_cmd w args venv_path cwd capture check env σ
  = run_cmd w (ArgList (python_for w (fs σ) venv_path :: args))
      cwd capture check env false (python_chosen w venv_path σ).
Proof.
  unfold run_python_cmd, python_for, python_chosen, venv_python,
    get_venv_python, bind, get_fs, ret, log.
  destruct venv_path as [venv|]; [|reflexivity]. simpl.
  destruct (win32 w); simpl;
    destruct (Pathlib.exists_ (fs σ) _); reflexivity.
Qed.

Lemma python_chosen_fs venv_path σ : fs (python_chosen w venv_path σ) = fs σ.
Proof.
  unfold python_chosen. destruct venv_path; [|reflexivity].
  destruct (Pathlib.exists_ _ _); reflexivity.
Qed.

Lemma python_chosen_launched venv_path σ :
  launched (python_chosen w venv_path σ) = launched σ.
Proof.
  unfold python_chosen. destruct venv_path; [|reflexivity].
  destruct (Pathlib.exists_ _ _); reflexivity.
Qed.

(** The interpreter variant calls [subprocess.run] once, with the
    interpreter first. *)
Lemma run_python_cmd_launches_once args venv_path cwd capture check env σ :
  launched (snd (run_python_cmd w args venv_path cwd capture check env σ))
  = launched σ ++
      [request_of w (ArgList (python_for w (fs σ) venv_path :: args))
         cwd capture env false].
Proof.
  rewrite run_python_cmd_unfold, run_cmd_launches_once by reflexivity.
  rewrite python_chosen_launched. reflexivity.
Qed.

(** What a failing installer makes of [install_tool]. *)
Lemma install_tool_failure tool pkg venv_path project_dir σ rc out err fs' :
  subprocess_run w (install_request w venv_path project_dir pkg (fs σ)) (fs σ)
    = (Completed rc out err, fs') →
  rc ≠ 0 →
  fst (install_tool w tool pkg venv_path project_dir σ) = Raise (Exit 1).
Proof.
  intros Hrun Hrc.
  unfold install_tool, run_pip_cmd, try_except, bind.
  unfold log at 1. cbv beta. fold (logged σ INFO (Tool_missing tool pkg)).
  rewrite run_python_cmd_unfold.
  assert (Hfs : fs (python_chosen w venv_path (logged σ INFO (Tool_missing tool pkg)))
                = fs σ) by (rewrite python_chosen_fs; reflexivity).
  change (fs (logged σ INFO (Tool_missing tool pkg))) with (fs σ).
  erewrite run_cmd_completed; [|reflexivity|rewrite Hfs; exact Hrun].
  unfold failed. simpl.
  destruct (Z.eqb_spec rc 0); [contradiction|]. reflexivity.
Qed.

End Variants.

(** ** Exit codes *)

Section ExitCodes.

Context (w : World) {codec : JsonCodec}.

(** With check disabled, a process that starts and exits gives back its
    triple, whatever its code. *)
Lemma run_cmd_unchecked_returns cmd_list cwd capture env shell σ rc out err fs' :
  shell && is_list cmd_list = false →
  subprocess_run w (request_of w cmd_list cwd capture env shell) (fs σ)
    = (Completed rc out err, fs') →
  fst (run_cmd w cmd_list cwd capture false env shell σ)
  = Ok (rc, stripped out, stripped err).
Proof.
  intros Hmode Hrun.
  rewrite (run_cmd_completed _ _ _ _ _ _ _ _ _ _ _ _ Hmode Hrun).
  reflexivity.
Qed.

(** With check enabled, a non-zero code ends in [Exit(1)], after the
    captured error output has been printed: the [Exit(returncode)] raised
    in the [try] block is caught by its own [except Exception]. *)
Lemma run_cmd_checked_failure cmd_list cwd capture env shell σ rc out err fs' :
  shell && is_list cmd_list = false →
  subprocess_run w (request_of w cmd_list cwd capture env shell) (fs σ)
    = (Completed rc out err, fs') →
  rc ≠ 0 →
  fst (run_cmd w cmd_list cwd capture true env shell σ) = Raise (Exit 1)
  ∧ echoed (snd (run_cmd w cmd_list cwd capture true env shell σ))
    = echoed σ ++
        (if Py.nonempty (stripped err)
         then [Echo ("Error Output:" +:+ newline +:+ stripped err) true true]
         else []).
Proof.
  intros Hmode Hrun Hrc.
  rewrite (run_cmd_completed _ _ _ _ _ _ _ _ _ _ _ _ Hmode Hrun).
  unfold failed. simpl.
  destruct (Z.eqb_spec rc 0); [contradiction|]. split; reflexivity.
Qed.

(** [write_config] returns normally whatever the file system does. *)
Lemma write_config_returns project_dir config_data σ :
  fst (write_config w project_dir config_data σ) = Ok tt.
Proof.
  unfold write_config, try_except, bind, write_text, log, ret.
  destruct (fs σ !! _) as [[|content]|]; try reflexivity.
  destruct (fs σ !! project_dir) as [[|content]|]; reflexivity.
Qed.

(** A write that cannot happen leaves the files alone and one record in
    the log, at the error level. *)
Lemma write_config_failure project_dir config_data σ :
  fs σ !! joinpath w project_dir CONFIG_FILE_NAME = Some Dir →
  write_config w project_dir config_data σ
  = (Ok tt,
     {| fs := fs σ; launched := launched σ;
        logs := logs σ ++
          [(ERROR, Config_write_failed
                     (joinpath w project_dir CONFIG_FILE_NAME)
                     IsADirectoryError)];
        echoed := echoed σ |}).
Proof.
  intros Hdir.
  unfold write_config, try_except, bind, write_text, log, ret.
  rewrite Hdir. reflexivity.
Qed.

(** X26. The exit-code mapping, where it holds.  For a command that names
    an executable (a list with a first element, or a command line with a
    word in it): a call of the runner that returns leaves 0, a non-zero
    code under check and every exception of the launcher other than
    [FileNotFoundError] leave 1, and [FileNotFoundError] leaves 127.  The
    shell guard leaves 1.  When verification finds the tool absent and the
    installer exits with a non-zero code, [ensure_tool_installed] leaves 1.
    A configuration write raises nothing, whatever the file system does;
    one that cannot happen leaves the files as they were and exactly one
    record in the log, at the error level, naming the path. *)
Theorem exit_code_mapping :
  (∀ cmd_list cwd capture check env shell σ c fs' name,
     shell && is_list cmd_list = false →
     command_name (quoted cmd_list shell) = Some name →
     subprocess_run w (request_of w cmd_list cwd capture env shell) (fs σ)
       = (c, fs') →
     process_exit_code (fst (run_cmd w cmd_list cwd capture check env shell σ))
     = match c with
       | Completed rc _ _ => if failed check rc then 1 else 0
       | SpawnError e => if is_FileNotFoundError e then 127 else 1
       end)
  ∧ (∀ args cwd capture check env σ,
       process_exit_code
         (fst (run_cmd w (ArgList args) cwd capture check env true σ)) = 1)
  ∧ (∀ tool pkg venv_path project_dir check_command check_import σ σ1
       rc out err fs',
       verify_tool w venv_path project_dir check_command check_import σ
         = (Ok false, σ1) →
       subprocess_run w (install_request w venv_path project_dir pkg (fs σ1))
         (fs σ1) = (Completed rc out err, fs') →
       rc ≠ 0 →
       process_exit_code
         (fst (ensure_tool_installed w tool pkg venv_path project_dir
                 check_command check_import σ)) = 1)
  ∧ (∀ project_dir config_data σ,
       let path := joinpath w project_dir CONFIG_FILE_NAME in
       let σ' := snd (write_config w project_dir config_data σ) in
       fst (write_config w project_dir config_data σ) = Ok tt
       ∧ (writable (fs σ) project_dir path = false →
          fs σ' = fs σ
          ∧ launched σ' = launched σ
          ∧ ∃ e, logs σ' = logs σ ++ [(ERROR, Config_write_failed path e)])).
Proof.
  split; [|split; [|split]].
  - intros cmd_list cwd capture check env shell σ c fs' name Hmode Hname Hrun.
    destruct c as [rc out err|e].
    + rewrite (run_cmd_completed _ _ _ _ _ _ _ _ _ _ _ _ Hmode Hrun).
      simpl. destruct (failed check rc); reflexivity.
    + rewrite (run_cmd_spawn_error _ _ _ _ _ _ _ _ _ _ Hmode Hrun).
      rewrite Hname. destruct (is_FileNotFoundError e); reflexivity.
  - intros. rewrite run_cmd_shell_with_list. reflexivity.
  - intros tool pkg venv_path project_dir check_command check_import σ σ1
      rc out err fs' Hverify Hrun Hrc.
    unfold ensure_tool_installed, bind. rewrite Hverify. cbn [negb].
    rewrite (install_tool_failure _ _ _ _ _ _ _ _ _ _ Hrun Hrc). reflexivity.
  - intros project_dir config_data σ path σ'.
    split; [apply write_config_returns|].
    subst σ' path.
    unfold writable, Pathlib.is_dir, write_config, try_except, bind,
      write_text, log, ret.
    destruct (fs σ !! joinpath w project_dir CONFIG_FILE_NAME)
      as [[|content]|]; [| discriminate |].
    + intros _. simpl. repeat split. eexists. reflexivity.
    + destruct (fs σ !! project_dir) as [[|content]|];
        [discriminate| |]; intros _; simpl; repeat split; eexists;
        reflexivity.
Qed.

End ExitCodes.

(** C1, at a failing input.  [ls /nonexistent] exits with 2 and writes to
    its standard error.  Run with check enabled, the runner prints that
    output and raises [Exit(1)]: the observed code 2 is lost. *)
Theorem run_cmd_check_loses_exit_code :
  let w0 := Demo.host 0 0 in
  let σ0 := Demo.boot Demo.bare_venv in
  let cmd := ArgList ["ls"; "/nonexistent"] in
  fst (subprocess_run w0 (request_of w0 cmd None true None false) (fs σ0))
  = Completed 2 (Some EmptyString)
      (Some ("ls: cannot access: No such file or directory" +:+ newline))
  ∧ fst (run_cmd w0 cmd None true true None false σ0) = Raise (Exit 1)
  ∧ echoed (snd (run_cmd w0 cmd None true true None false σ0))
    = [Echo ("Error Output:" +:+ newline
             +:+ "ls: cannot access: No such file or directory") true true].
Proof. vm_compute. repeat split. Qed.


(** ** The locator and the resolver *)

Section Resolution.

Context (w : World).

(** C4. [find_venv] returns the environment exactly when [.venv] is a
    directory that holds [pyvenv.cfg]; a [.venv] directory without the
    marker is reported absent; and the call always returns, leaving the
    state as it was. *)
Theorem find_venv_iff_marked project_dir σ :
  (∀ venv,
     fst (find_venv w project_dir σ) = Ok (Some venv)
     ↔ venv = joinpath w project_dir VENV_DIR_NAME
       ∧ Pathlib.is_dir (fs σ) venv = true
       ∧ Pathlib.exists_ (fs σ) (joinpath w venv "pyvenv.cfg") = true)
  ∧ (Pathlib.is_dir (fs σ) (joinpath w project_dir VENV_DIR_NAME) = true →
     Pathlib.exists_ (fs σ)
       (joinpath w (joinpath w project_dir VENV_DIR_NAME) "pyvenv.cfg") = false →
     find_venv w project_dir σ = (Ok None, σ))
  ∧ (∃ found, find_venv w project_dir σ = (Ok found, σ)).
Proof.
  unfold find_venv, bind, get_fs, ret. simpl.
  destruct (Pathlib.is_dir (fs σ) _) eqn:Hdir;
    destruct (Pathlib.exists_ (fs σ) _) eqn:Hcfg; simpl;
    (split; [|split]); eauto; try discriminate;
    intros venv; split;
    try (intros [= <-]; auto); try discriminate;
    intros (-> & Hd & Hc); congruence.
Qed.

Lemma resolve_executable_by_attempts venv_path command σ :
  resolve_executable w venv_path command σ
  = (Ok (default (ModuleInvocation (sys_executable w) command)
           (first_success (resolution_attempts w (fs σ) venv_path command))),
     resolved w venv_path command σ).
Proof.
  unfold resolve_executable, resolve_in_venv, resolve_on_host, resolved,
    resolution_attempts, first_success, first_existing, direct_candidates,
    get_venv_python, venv_python, bind, get_fs, ret, log.
  destruct venv_path as [venv|]; simpl;
    [destruct (win32 w); simpl; rewrite ?filter_cons, ?filter_nil|];
    repeat match goal with
      | |- context [Pathlib.exists_ ?f ?p] =>
          destruct (Pathlib.exists_ f p) eqn:?; simpl; try reflexivity
      end;
    (destruct (shutil_which w (fs σ) command) as [found|]; simpl;
     [destruct (Py.nonempty found)|]; reflexivity).
Qed.

End Resolution.

Section ResolutionClaims.

Context (w : World).

Lemma first_existing_some files paths p :
  p ∈ paths → Pathlib.exists_ files p = true →
  ∃ p', first_existing files paths = Some p'.
Proof.
  intros Hin Hex. unfold first_existing.
  destruct (filter _ paths) as [|p' l] eqn:Hf; [|eauto].
  assert (p ∈ filter (λ q, Pathlib.exists_ files q = true) paths) as Hkept
    by (apply list_elem_of_filter; auto).
  rewrite Hf in Hkept. inversion Hkept.
Qed.

Lemma first_existing_sound files paths p :
  first_existing files paths = Some p →
  p ∈ paths ∧ Pathlib.exists_ files p = true.
Proof.
  unfold first_existing. intros Hhead.
  assert (p ∈ filter (λ q, Pathlib.exists_ files q = true) paths) as Hin.
  { destruct (filter _ paths); simplify_eq/=. left. }
  apply list_elem_of_filter in Hin. tauto.
Qed.

(** C2. When the environment holds an executable file for the tool in its
    script directory, the resolver returns the direct path of that file
    and the state is untouched (no warning).  In general its answer is the
    first success among, in this order: the tool's executable in the
    environment, the module run by the environment's interpreter, the
    host search path, the module run by the current interpreter; it warns
    exactly when only the last is left. *)
Theorem resolver_prefers_direct_executable :
  (∀ venv command σ p,
     p ∈ direct_candidates w venv command →
     Pathlib.exists_ (fs σ) p = true →
     ∃ p',
       first_existing (fs σ) (direct_candidates w venv command) = Some p'
       ∧ (win32 w = false → p' = p)
       ∧ resolve_executable w (Some venv) command σ = (Ok (DirectPath p'), σ)
       ∧ get_executable w (Some venv) command σ = (Ok p', σ))
  ∧ (∀ venv_path command σ,
       ∃ r,
         first_success (resolution_attempts w (fs σ) venv_path command) = Some r
         ∧ resolve_executable w venv_path command σ
           = (Ok r, resolved w venv_path command σ)).
Proof.
  split.
  - intros venv command σ p Hin Hex.
    destruct (first_existing_some _ _ _ Hin Hex) as [p' Hp'].
    exists p'. split; [exact Hp'|]. split.
    + intros Hposix. apply first_existing_sound in Hp' as [Hin' _].
      unfold direct_candidates in *. rewrite Hposix in *.
      apply list_elem_of_singleton in Hin, Hin'. congruence.
    + assert (resolve_executable w (Some venv) command σ
              = (Ok (DirectPath p'), σ)) as Hres.
      { rewrite resolve_executable_by_attempts.
        unfold resolved, resolution_attempts, first_success.
        simpl. rewrite Hp'. reflexivity. }
      split; [exact Hres|].
      unfold get_executable, bind. rewrite Hres. reflexivity.
  - intros venv_path command σ.
    rewrite resolve_executable_by_attempts.
    destruct (first_success _) as [r|] eqn:Hfirst; [eauto|].
    exfalso. revert Hfirst.
    unfold resolution_attempts, first_success. simpl.
    repeat (match goal with |- context [match ?o with _ => _ end] =>
              destruct o end; simpl); discriminate.
Qed.

(** C8, as the code has it.  The answer of the resolver is fixed by the
    platform and the current interpreter (the host [w]), the tool name, the
    environment path, which of the tool's candidate files and of the
    environment's interpreter exist, and what the host search path finds:
    two states that agree on these give the same reference and the same
    string. *)
Theorem resolution_determined_by_observations venv_path command σ1 σ2 :
  (∀ venv p, venv_path = Some venv →
     p ∈ venv_python w venv :: direct_candidates w venv command →
     Pathlib.exists_ (fs σ1) p = Pathlib.exists_ (fs σ2) p) →
  shutil_which w (fs σ1) command = shutil_which w (fs σ2) command →
  fst (resolve_executable w venv_path command σ1)
  = fst (resolve_executable w venv_path command σ2)
  ∧ fst (get_executable w venv_path command σ1)
    = fst (get_executable w venv_path command σ2).
Proof.
  intros Hfiles Hwhich.
  assert (resolution_attempts w (fs σ1) venv_path command
          = resolution_attempts w (fs σ2) venv_path command) as Hsame.
  { unfold resolution_attempts, first_existing. rewrite Hwhich.
    destruct venv_path as [venv|]; [|reflexivity]. simpl.
    rewrite (Hfiles venv (venv_python w venv) eq_refl) by left.
    assert (filter (λ p, Pathlib.exists_ (fs σ1) p = true)
              (direct_candidates w venv command)
            = filter (λ p, Pathlib.exists_ (fs σ2) p = true)
                (direct_candidates w venv command)) as ->; [|reflexivity].
    specialize (Hfiles venv).
    unfold direct_candidates in *. destruct (win32 w).
    - rewrite !filter_cons, !filter_nil.
      rewrite !(Hfiles _ eq_refl) by (right; set_solver). reflexivity.
    - rewrite !filter_cons, !filter_nil.
      rewrite !(Hfiles _ eq_refl) by (right; set_solver). reflexivity. }
  assert (fst (resolve_executable w venv_path command σ1)
          = fst (resolve_executable w venv_path command σ2)) as Hres.
  { rewrite !resolve_executable_by_attempts. simpl. rewrite Hsame.
    reflexivity. }
  split; [exact Hres|].
  unfold get_executable, bind.
  rewrite !resolve_executable_by_attempts in *. simpl in *.
  congruence.
Qed.

End ResolutionClaims.

(** C8, as stated, fails.  The same tool name, the same environment and the
    same host search path: before [black] is installed in the environment
    the resolver answers with a module invocation, afterwards with a direct
    path. *)
Lemma resolution_not_determined_by_presence :
  let w0 := Demo.host 0 0 in
  let before := Demo.boot Demo.bare_venv in
  let after := Demo.boot Demo.venv_with_black in
  fst (find_venv w0 "/work" before) = Ok (Some "/work/.venv")
  ∧ fst (find_venv w0 "/work" after) = Ok (Some "/work/.venv")
  ∧ shutil_which w0 (fs before) "black" = shutil_which w0 (fs after) "black"
  ∧ fst (resolve_executable w0 (Some "/work/.venv") "black" before)
    = Ok (ModuleInvocation "/work/.venv/bin/python" "black")
  ∧ fst (resolve_executable w0 (Some "/work/.venv") "black" after)
    = Ok (DirectPath "/work/.venv/bin/black")
  ∧ fst (get_executable w0 (Some "/work/.venv") "black" before)
    = Ok (render (ModuleInvocation "/work/.venv/bin/python" "black"))
  ∧ fst (get_executable w0 (Some "/work/.venv") "black" after)
    = Ok "/work/.venv/bin/black".
Proof. vm_compute. repeat split. Qed.

(** ** The tool installer *)

Section Installer.

Context (w : World).

Lemma install_request_is_installer venv_path project_dir pkg files :
  is_installer_call (install_request w venv_path project_dir pkg files) = true.
Proof. reflexivity. Qed.

(** Step 2 does launch the installer, once. *)
Lemma install_tool_launches tool pkg venv_path project_dir σ :
  launched (snd (install_tool w tool pkg venv_path project_dir σ))
  = launched σ ++ [install_request w venv_path project_dir pkg (fs σ)].
Proof.
  unfold install_tool, run_pip_cmd, try_except, bind.
  unfold log at 1. cbv beta. fold (logged σ INFO (Tool_missing tool pkg)).
  pose proof (run_python_cmd_launches_once w ["-m"; "pip"; "install"; pkg]
                venv_path (Some project_dir) false true None
                (logged σ INFO (Tool_missing tool pkg))) as Hrun.
  destruct (run_python_cmd _ _ _ _ _ _ _ _) as [[res|e] σ']; [exact Hrun|].
  destruct (is_Exit e); exact Hrun.
Qed.

Lemma probe_request_not_installer venv_path project_dir module files :
  is_installer_call (probe_request w venv_path project_dir module files) = false.
Proof. reflexivity. Qed.

Lemma probe_launches_once module venv_path project_dir σ :
  launched (snd (probe w module venv_path project_dir σ))
  = launched σ ++ [probe_request w venv_path project_dir module (fs σ)].
Proof.
  unfold probe, bind.
  pose proof (run_python_cmd_launches_once w ["-c"; probe_script module]
                venv_path (Some project_dir) false false None σ) as Hrun.
  destruct (run_python_cmd _ _ _ _ _ _ _ σ) as [[[[rc out] err]|e] σ'];
    exact Hrun.
Qed.

(** With check disabled and a completed process, the probe says whether
    the exit code was 0. *)
Lemma probe_completed module venv_path project_dir σ rc out err fs' :
  subprocess_run w (probe_request w venv_path project_dir module (fs σ)) (fs σ)
    = (Completed rc out err, fs') →
  fst (probe w module venv_path project_dir σ) = Ok (rc =? 0).
Proof.
  intros Hrun. unfold probe, bind. rewrite run_python_cmd_unfold.
  erewrite run_cmd_completed;
    [|reflexivity|rewrite python_chosen_fs; exact Hrun].
  reflexivity.
Qed.

Lemma resolved_launched venv_path command σ :
  launched (resolved w venv_path command σ) = launched σ.
Proof. unfold resolved. destruct (first_success _); reflexivity. Qed.

Lemma resolved_fs venv_path command σ :
  fs (resolved w venv_path command σ) = fs σ.
Proof. unfold resolved. destruct (first_success _); reflexivity. Qed.

Lemma get_executable_by_attempts venv_path command σ :
  get_executable w venv_path command σ
  = (Ok (render (default (ModuleInvocation (sys_executable w) command)
                   (first_success
                      (resolution_attempts w (fs σ) venv_path command)))),
     resolved w venv_path command σ).
Proof.
  unfold get_executable, bind. rewrite resolve_executable_by_attempts.
  reflexivity.
Qed.

(** Looking up the interpreter of the environment changes nothing. *)
Lemma python_exe_lookup venv_path σ :
  ∃ py, (match venv_path with
         | Some venv => get_venv_python w venv
         | None => ret (Some (sys_executable w))
         end) σ = (Ok py, σ).
Proof.
  destruct venv_path; [|eexists; reflexivity].
  unfold get_venv_python, bind, get_fs, ret. eexists. reflexivity.
Qed.

(** Verification only ever runs probes: whatever it launches is not a call
    of the package installer. *)
Lemma verify_tool_launches venv_path project_dir check_command check_import σ :
  ∃ probes,
    launched (snd (verify_tool w venv_path project_dir check_command
                     check_import σ)) = launched σ ++ probes
    ∧ Forall (λ r, is_installer_call r = false) probes.
Proof.
  assert (∀ module (h : exn → option (M bool)) σ0,
            (∀ e, ∃ k, h e = Some k ∧ ∀ σ1, launched (snd (k σ1)) = launched σ1) →
            launched (snd (try_except (probe w module venv_path project_dir) h σ0))
            = launched σ0
              ++ [probe_request w venv_path project_dir module (fs σ0)])
    as Htry.
  { intros module h σ0 Hh. unfold try_except.
    pose proof (probe_launches_once module venv_path project_dir σ0) as Hp.
    destruct (probe _ _ _ _ σ0) as [[b|e] σ']; [exact Hp|].
    destruct (Hh e) as (k & -> & Hk). rewrite Hk. exact Hp. }
  unfold verify_tool, bind.
  destruct (python_exe_lookup venv_path σ) as [py ->].
  assert (∀ σ0, ∃ probes,
            launched (snd ((match check_import with
                            | Some (String _ _ as module) =>
                                try_except (probe w module venv_path project_dir)
                                  (λ e, Some (log DEBUG (Import_check_failed module e) ;;
                                              ret false))
                            | _ => ret false
                            end) σ0)) = launched σ0 ++ probes
            ∧ Forall (λ r, is_installer_call r = false) probes) as Himport.
  { intros σ0. destruct check_import as [[|c module]|].
    1, 3: exists []; rewrite app_nil_r; split; [reflexivity|constructor].
    eexists. split;
      [apply Htry; intros e; eexists; split; reflexivity
      |repeat constructor]. }
  destruct check_command as [[|command rest]|]; [apply Himport| |apply Himport].
  rewrite get_executable_by_attempts. unfold get_fs. cbv beta iota.
  destruct (Pathlib.is_file _ _).
  { exists []. rewrite app_nil_r. simpl. rewrite resolved_launched.
    split; [reflexivity|constructor]. }
  destruct (String.prefix _ _).
  - eexists. split.
    + rewrite Htry by (intros e; eexists; split; reflexivity).
      rewrite resolved_launched. reflexivity.
    + repeat constructor.
  - exists []. rewrite app_nil_r. simpl. rewrite resolved_launched.
    split; [reflexivity|constructor].
Qed.

Lemma installer_calls_app σ σ' probes :
  launched σ' = launched σ ++ probes →
  Forall (λ r, is_installer_call r = false) probes →
  installer_calls σ' = installer_calls σ.
Proof.
  intros Hl Hp. unfold installer_calls. rewrite Hl, filter_app.
  assert (filter (λ r, is_installer_call r = true) probes = []) as ->.
  { clear Hl. induction Hp as [|r l Hr _ IH]; [reflexivity|].
    rewrite filter_cons_False by (rewrite Hr; discriminate). exact IH. }
  apply app_nil_r.
Qed.

(** C3. Whenever the verification step of [ensure_tool_installed] answers
    that the tool is there, the call returns at once in the state the
    verification left, and the package installer has not been launched.
    In particular: when the executable resolved for the check command is
    a regular file, nothing at all is launched; and when only an import
    check is given and its probe exits with 0, the probe is the one
    process launched. *)
Theorem ensure_tool_installed_idempotent tool pkg venv_path project_dir σ :
  (∀ check_command check_import σ1,
     verify_tool w venv_path project_dir check_command check_import σ
       = (Ok true, σ1) →
     ensure_tool_installed w tool pkg venv_path project_dir check_command
       check_import σ = (Ok tt, σ1)
     ∧ installer_calls σ1 = installer_calls σ)
  ∧ (∀ command rest check_import path,
       fst (get_executable w venv_path command σ) = Ok path →
       Pathlib.is_file (fs σ) path = true →
       fst (ensure_tool_installed w tool pkg venv_path project_dir
              (Some (command :: rest)) check_import σ) = Ok tt
       ∧ launched (snd (ensure_tool_installed w tool pkg venv_path project_dir
                          (Some (command :: rest)) check_import σ))
         = launched σ)
  ∧ (∀ c module out err fs',
       subprocess_run w
         (probe_request w venv_path project_dir (String c module) (fs σ))
         (fs σ) = (Completed 0 out err, fs') →
       fst (ensure_tool_installed w tool pkg venv_path project_dir
              None (Some (String c module)) σ) = Ok tt
       ∧ launched (snd (ensure_tool_installed w tool pkg venv_path project_dir
                          None (Some (String c module)) σ))
         = launched σ
             ++ [probe_request w venv_path project_dir (String c module) (fs σ)]
       ∧ installer_calls
           (snd (ensure_tool_installed w tool pkg venv_path project_dir
                   None (Some (String c module)) σ))
         = installer_calls σ).
Proof.
  destruct (python_exe_lookup venv_path σ) as [py Hpy].
  split; [|split].
  - intros check_command check_import σ1 Hverify. split.
    + unfold ensure_tool_installed, bind. rewrite Hverify. reflexivity.
    + destruct (verify_tool_launches venv_path project_dir check_command
                  check_import σ) as (probes & Hl & Hp).
      rewrite Hverify in Hl. exact (installer_calls_app _ _ _ Hl Hp).
  - intros command rest check_import path Hpath Hfile.
    rewrite get_executable_by_attempts in Hpath. simpl in Hpath.
    injection Hpath as Hpath.
    unfold ensure_tool_installed, verify_tool, bind. rewrite Hpy.
    rewrite get_executable_by_attempts. unfold get_fs. cbv beta iota.
    rewrite resolved_fs, Hpath, Hfile. simpl.
    split; [reflexivity|apply resolved_launched].
  - intros c module out err fs' Hrun.
    pose proof (probe_completed _ _ _ _ _ _ _ _ Hrun) as Hok.
    pose proof (probe_launches_once (String c module) venv_path project_dir σ)
      as Hlaunch.
    unfold ensure_tool_installed, verify_tool, bind, try_except.
    rewrite Hpy.
    destruct (probe w (String c module) venv_path project_dir σ)
      as [[b|e] σ'] eqn:Hprobe; simpl in Hok; [|discriminate].
    injection Hok as ->. simpl in *.
    split; [reflexivity|]. split; [exact Hlaunch|].
    apply (installer_calls_app σ σ' _ Hlaunch). repeat constructor.
Qed.

End Installer.

(** ** The configuration store *)

Section Dict.

Lemma dict_get_set_eq k v members : dict_get k (dict_set k v members) = Some v.
Proof.
  induction members as [|[k' v'] rest IH]; simpl.
  - rewrite String.eqb_refl. reflexivity.
  - destruct (String.eqb_spec k k') as [->|Hne]; simpl.
    + rewrite String.eqb_refl. reflexivity.
    + destruct (String.eqb_spec k k'); [contradiction|exact IH].
Qed.

Lemma dict_get_set_ne k k' v members :
  k ≠ k' → dict_get k (dict_set k' v members) = dict_get k members.
Proof.
  intros Hne. induction members as [|[k0 v0] rest IH]; simpl.
  - destruct (String.eqb_spec k k'); [contradiction|reflexivity].
  - destruct (String.eqb_spec k' k0) as [->|Hne0]; simpl.
    + destruct (String.eqb_spec k k0); [contradiction|reflexivity].
    + rewrite IH. reflexivity.
Qed.

Lemma dict_set_keys_old k v members :
  k ∈ members.*1 → (dict_set k v members).*1 = members.*1.
Proof.
  induction members as [|[k' v'] rest IH]; intros Hin.
  - inversion Hin.
  - cbn [dict_set]. destruct (String.eqb_spec k k') as [->|Hne]; [reflexivity|].
    rewrite !fmap_cons. f_equal. apply IH.
    rewrite fmap_cons in Hin. apply elem_of_cons in Hin as [?|?];
      [contradiction|assumption].
Qed.

Lemma dict_set_keys_new k v members :
  k ∉ members.*1 → (dict_set k v members).*1 = members.*1 ++ [k].
Proof.
  induction members as [|[k' v'] rest IH]; intros Hout.
  - reflexivity.
  - rewrite fmap_cons in Hout. apply not_elem_of_cons in Hout as [Hne Hout].
    cbn [dict_set]. destruct (String.eqb_spec k k') as [->|_];
      [contradiction|].
    rewrite !fmap_cons, (IH Hout). reflexivity.
Qed.

(** Setting a key of a Python object to a Python object gives one. *)
Lemma dict_set_wf k v members :
  json_wf (JObj members) = true → json_wf v = true →
  json_wf (JObj (dict_set k v members)) = true.
Proof.
  simpl. intros [Hnodup Hall]%andb_prop Hv.
  apply bool_decide_eq_true in Hnodup.
  apply andb_true_intro. split.
  - apply bool_decide_eq_true.
    destruct (decide (k ∈ members.*1)) as [Hin|Hout];
      [rewrite dict_set_keys_old by exact Hin; exact Hnodup|].
    rewrite dict_set_keys_new by exact Hout.
    apply NoDup_app. split; [exact Hnodup|]. split.
    + intros x Hx Hk. apply list_elem_of_singleton in Hk as ->. contradiction.
    + apply NoDup_singleton.
  - clear Hnodup. induction members as [|[k' v'] rest IH]; simpl in *.
    + rewrite Hv. reflexivity.
    + apply andb_prop in Hall as [Hv' Hrest].
      destruct (String.eqb k k'); simpl.
      * rewrite Hv, Hrest. reflexivity.
      * rewrite Hv', (IH Hrest). reflexivity.
Qed.

End Dict.

Section Config.

Context (w : World) {codec : JsonCodec}.

Abbreviation config_path project_dir := (joinpath w project_dir CONFIG_FILE_NAME).

Lemma read_config_cases project_dir σ :
  read_config w project_dir σ
  = match fs σ !! config_path project_dir with
    | None => (Ok empty_document, σ)
    | Some Dir =>
        (Ok empty_document, logged σ WARNING (Config_unreadable IsADirectoryError))
    | Some (File text) =>
        match json_loads text with
        | Some document => (Ok document, σ)
        | None => (Ok empty_document, logged σ WARNING Config_unparsable)
        end
    end.
Proof.
  unfold read_config, read_text, try_except, bind, get_fs, log, raise, ret,
    Pathlib.exists_, logged.
  destruct (fs σ !! _) as [[|text]|] eqn:Hnode; simpl; rewrite ?Hnode;
    try reflexivity.
  destruct (json_loads text); reflexivity.
Qed.

(** C5, as the code has it.  [read_config] never raises.  A missing file
    gives the empty document and logs nothing; a file that does not parse,
    or that cannot be read, gives the empty document and one warning; a
    file that parses gives the parsed document. *)
Theorem read_config_tolerant project_dir σ :
  (fs σ !! config_path project_dir = None →
     read_config w project_dir σ = (Ok empty_document, σ))
  ∧ (∀ text,
       fs σ !! config_path project_dir = Some (File text) →
       json_loads text = None →
       fst (read_config w project_dir σ) = Ok empty_document
       ∧ logs (snd (read_config w project_dir σ))
         = logs σ ++ [(WARNING, Config_unparsable)])
  ∧ (fs σ !! config_path project_dir = Some Dir →
       fst (read_config w project_dir σ) = Ok empty_document
       ∧ logs (snd (read_config w project_dir σ))
         = logs σ ++ [(WARNING, Config_unreadable IsADirectoryError)])
  ∧ (∀ text document,
       fs σ !! config_path project_dir = Some (File text) →
       json_loads text = Some document →
       read_config w project_dir σ = (Ok document, σ))
  ∧ (∃ document, fst (read_config w project_dir σ) = Ok document).
Proof.
  rewrite read_config_cases.
  split; [|split; [|split; [|split]]].
  - intros ->. reflexivity.
  - intros text -> ->. split; reflexivity.
  - intros ->. split; reflexivity.
  - intros text document -> ->. reflexivity.
  - destruct (fs σ !! _) as [[|text]|]; [eauto| |eauto].
    destruct (json_loads text); eauto.
Qed.

Context {laws : JsonLaws codec}.

(** C6. When the stored document maps key [A] to [vA], updating another
    key [B] to a Python object [vB] succeeds, and the document read
    afterwards maps [A] to [vA] and [B] to [vB]. *)
Theorem update_config_value_keeps_other_keys project_dir A vA B vB σ members :
  A ≠ B →
  json_wf vB = true →
  fst (read_config w project_dir σ) = Ok (JObj members) →
  dict_get A members = Some vA →
  ∃ σ1 members',
    update_config_value w project_dir B vB σ = (Ok tt, σ1)
    ∧ fst (read_config w project_dir σ1) = Ok (JObj members')
    ∧ dict_get A members' = Some vA
    ∧ dict_get B members' = Some vB.
Proof.
  intros Hne HvB Hread HA.
  unfold update_config_value, bind.
  rewrite read_config_cases in Hread |- *.
  destruct (fs σ !! config_path project_dir) as [[|text]|] eqn:Hnode;
    simpl in Hread; try (injection Hread as <-; discriminate).
  destruct (json_loads text) as [document|] eqn:Hload;
    simpl in Hread; try (injection Hread as <-; discriminate).
  injection Hread as ->.
  pose proof (json_loads_wf _ _ Hload) as Hwf.
  pose proof (dict_set_wf B vB members Hwf HvB) as Hwf'.
  unfold setitem, ret, write_config, try_except, bind, write_text, log.
  rewrite Hnode.
  eexists _, (dict_set B vB members). split; [reflexivity|].
  rewrite read_config_cases. simpl.
  rewrite lookup_insert_eq, (json_loads_dumps _ Hwf').
  split; [reflexivity|]. split.
  - rewrite dict_get_set_ne by exact Hne. exact HA.
  - apply dict_get_set_eq.
Qed.

End Config.

(** C5, as stated, fails for a missing file.  In a project without
    [pippy.json], [read_config] returns the empty document and the log stays
    empty: no warning is logged. *)
Lemma read_config_missing_is_silent :
  let w0 := Demo.host 0 0 in
  let σ0 := Demo.boot Demo.unmarked_venv in
  fs σ0 !! joinpath w0 "/work" CONFIG_FILE_NAME = None
  ∧ fst (read_config w0 (codec := RefCodec.codec) "/work" σ0) = Ok empty_document
  ∧ logs (snd (read_config w0 (codec := RefCodec.codec) "/work" σ0)) = [].
Proof. vm_compute. repeat split. Qed.

(** ** The reference codec obeys the laws of the interface *)

Section JsonInduction.

Variable P : json → Prop.
Hypothesis HNull : P JNull.
Hypothesis HBool : ∀ b, P (JBool b).
Hypothesis HInt : ∀ z, P (JInt z).
Hypothesis HStr : ∀ s, P (JStr s).
Hypothesis HArr : ∀ items, Forall P items → P (JArr items).
Hypothesis HObj : ∀ members, Forall (λ kv, P kv.2) members → P (JObj members).

(** Induction on a document, with the hypothesis on every element of an
    array and every value of an object. *)
Lemma json_nested_ind : ∀ v, P v.
Proof.
  fix IH 1. intros [| b | z | s | items | members].
  - exact HNull.
  - apply HBool.
  - apply HInt.
  - apply HStr.
  - apply HArr.
    induction items as [|v items IHitems]; constructor; [apply IH|exact IHitems].
  - apply HObj.
    induction members as [|[k v] members IHmembers]; constructor;
      [apply IH|exact IHmembers].
Qed.

End JsonInduction.

Module RefCodecFacts.

Import RefCodec.

Lemma append_cons c s t : String c s +:+ t = String c (s +:+ t).
Proof. reflexivity. Qed.

Lemma append_nil_r s : s +:+ EmptyString = s.
Proof. induction s as [|c s IH]; [reflexivity|]. rewrite append_cons, IH. reflexivity. Qed.

Lemma append_assoc s t u : (s +:+ t) +:+ u = s +:+ (t +:+ u).
Proof.
  induction s as [|c s IH]; [reflexivity|].
  rewrite !append_cons, IH. reflexivity.
Qed.

Lemma length_append s t :
  String.length (s +:+ t) = (String.length s + String.length t)%nat.
Proof.
  induction s as [|c s IH]; [reflexivity|].
  rewrite append_cons. simpl. rewrite IH. reflexivity.
Qed.

Lemma get_pos_put p rest : get_pos (put_pos p +:+ rest) = Some (p, rest).
Proof.
  induction p as [p IH|p IH|]; simpl put_pos; rewrite ?append_cons;
    simpl; rewrite ?IH; reflexivity.
Qed.

Lemma get_Z_put z rest : get_Z (put_Z z +:+ rest) = Some (z, rest).
Proof.
  destruct z as [|p|p]; simpl put_Z; rewrite ?append_cons; simpl;
    rewrite ?get_pos_put; reflexivity.
Qed.

Lemma get_str_put s rest : get_str (put_str s +:+ rest) = Some (s, rest).
Proof.
  induction s as [|c s IH]; simpl put_str; rewrite ?append_cons; simpl;
    rewrite ?IH; reflexivity.
Qed.

Lemma length_put_str_pos s : (0 < String.length (put_str s))%nat.
Proof. destruct s; simpl; lia. Qed.

(** The parser undoes the printer, given a budget beyond the length of
    the printed text. *)
Lemma get_put v :
  ∀ fuel rest, (String.length (put v) < fuel)%nat →
               get fuel (put v +:+ rest) = Some (v, rest).
Proof.
  induction v as [| b | z | s | items IH | members IH] using json_nested_ind;
    intros [|fuel] rest Hfuel; try lia.
  - reflexivity.
  - destruct b; reflexivity.
  - simpl put. rewrite append_cons. simpl. rewrite get_Z_put. reflexivity.
  - simpl put. rewrite append_cons. simpl. rewrite get_str_put. reflexivity.
  - simpl put in *. rewrite append_cons. simpl in Hfuel.
    apply Nat.succ_lt_mono in Hfuel.
    cbn [get].
    assert (get_items fuel (put_items_with put items +:+ rest)
            = Some (items, rest)) as ->; [|reflexivity].
    revert fuel Hfuel.
    induction IH as [|v items Hv _ IHitems]; intros [|fuel] Hfuel;
      simpl in Hfuel; try lia.
    + reflexivity.
    + cbn [put_items_with] in *. rewrite append_cons, append_assoc.
      rewrite length_append in Hfuel. cbn [get_items].
      rewrite Hv by lia. rewrite IHitems by lia. reflexivity.
  - simpl put in *. rewrite append_cons. simpl in Hfuel.
    apply Nat.succ_lt_mono in Hfuel.
    cbn [get].
    assert (get_members fuel (put_members_with put members +:+ rest)
            = Some (members, rest)) as ->; [|reflexivity].
    revert fuel Hfuel.
    induction IH as [|[k v] members Hv _ IHmembers]; intros [|fuel] Hfuel;
      simpl in Hfuel; try lia.
    + reflexivity.
    + cbn [put_members_with] in *. rewrite append_cons, !append_assoc.
      rewrite !length_append in Hfuel. cbn [get_members].
      rewrite get_str_put. simpl in Hv.
      rewrite Hv by lia. rewrite IHmembers by lia. reflexivity.
Qed.

Lemma loads_dumps v : json_wf v = true → loads (dumps v) = Some v.
Proof.
  intros Hwf. unfold loads, dumps.
  rewrite <- (append_nil_r (put v)) at 2.
  rewrite get_put by lia. rewrite Hwf. reflexivity.
Qed.

Lemma loads_wf s v : loads s = Some v → json_wf v = true.
Proof.
  unfold loads. destruct (get _ s) as [[v' [|c rest]]|]; try discriminate.
  destruct (json_wf v') eqn:Hwf; [|discriminate].
  intros [= <-]. exact Hwf.
Qed.

#[export] Instance laws : JsonLaws codec.
Proof. split; [exact loads_wf|exact loads_dumps]. Qed.

End RefCodecFacts.

(** ** The statements at work on the concrete host *)

Module Witnesses.

Import Demo.

Lemma run_cmd_exit_codes_witness :
  let w0 := host 1 1 in
  let σ0 := boot bare_venv in
  process_exit_code
    (fst (run_cmd w0 (ArgList ["true"]) None false true None false σ0)) = 0
  ∧ process_exit_code
      (fst (run_cmd w0 (ArgList ["ls"; "/nonexistent"]) None true true None
              false σ0)) = 1
  ∧ process_exit_code
      (fst (run_cmd w0 (ArgList ["twine"; "upload"]) None false true None
              false σ0)) = 127
  ∧ (verify_tool w0 (Some "/work/.venv") "/work" (Some ["black"]) None σ0
     = (Ok false,
        snd (verify_tool w0 (Some "/work/.venv") "/work" (Some ["black"]) None σ0))
     ∧ process_exit_code
         (fst (ensure_tool_installed w0 "black" "black" (Some "/work/.venv")
                 "/work" (Some ["black"]) None σ0)) = 1)
  ∧ (writable (fs (boot config_is_dir)) "/work"
       (joinpath w0 "/work" CONFIG_FILE_NAME) = false
     ∧ fst (write_config w0 (codec := RefCodec.codec) "/work" main_document
              (boot config_is_dir)) = Ok tt
     ∧ fs (snd (write_config w0 (codec := RefCodec.codec) "/work" main_document
                  (boot config_is_dir))) = fs (boot config_is_dir)
     ∧ ∃ e, logs (snd (write_config w0 (codec := RefCodec.codec) "/work"
                         main_document (boot config_is_dir)))
            = logs (boot config_is_dir)
              ++ [(ERROR, Config_write_failed
                            (joinpath w0 "/work" CONFIG_FILE_NAME) e)]).
Proof.
  intros w0 σ0.
  pose proof (exit_code_mapping w0 (codec := RefCodec.codec))
    as (Hrun & _ & Hinstall & Hwrite).
  split; [|split; [|split; [|split]]].
  - exact (Hrun (ArgList ["true"]) None false true None false σ0
             (Completed 0 None None) (fs σ0) "true"
             eq_refl eq_refl eq_refl).
  - exact (Hrun (ArgList ["ls"; "/nonexistent"]) None true true None false σ0
             (Completed 2 (Some EmptyString)
                (Some ("ls: cannot access: No such file or directory"
                       +:+ newline)))
             (fs σ0) "ls" eq_refl eq_refl eq_refl).
  - exact (Hrun (ArgList ["twine"; "upload"]) None false true None false σ0
             (SpawnError FileNotFoundError) (fs σ0) "twine"
             eq_refl eq_refl eq_refl).
  - assert (verify_tool w0 (Some "/work/.venv") "/work" (Some ["black"]) None σ0
            = (Ok false,
               snd (verify_tool w0 (Some "/work/.venv") "/work" (Some ["black"])
                      None σ0))) as Hverify by (vm_compute; reflexivity).
    split; [exact Hverify|].
    refine (Hinstall "black" "black" (Some "/work/.venv") "/work"
              (Some ["black"]) None σ0 _ 1 None None (fs σ0) Hverify _ _);
      [vm_compute; reflexivity|discriminate].
  - destruct (Hwrite "/work" main_document (boot config_is_dir))
      as [Hreturns Hfailed].
    assert (writable (fs (boot config_is_dir)) "/work"
              (joinpath w0 "/work" CONFIG_FILE_NAME) = false) as Hblocked
      by (vm_compute; reflexivity).
    destruct (Hfailed Hblocked) as (Hfs & _ & Hlog).
    split; [exact Hblocked|]. split; [exact Hreturns|].
    split; [exact Hfs|exact Hlog].
Defined.

Lemma find_venv_iff_marked_witness :
  let w0 := host 0 0 in
  (Pathlib.is_dir (fs (boot bare_venv)) "/work/.venv" = true
   ∧ Pathlib.exists_ (fs (boot bare_venv)) "/work/.venv/pyvenv.cfg" = true
   ∧ fst (find_venv w0 "/work" (boot bare_venv)) = Ok (Some "/work/.venv"))
  ∧ (Pathlib.is_dir (fs (boot unmarked_venv)) "/work/.venv" = true
     ∧ Pathlib.exists_ (fs (boot unmarked_venv)) "/work/.venv/pyvenv.cfg" = false
     ∧ find_venv w0 "/work" (boot unmarked_venv) = (Ok None, boot unmarked_venv)).
Proof.
  intros w0. split.
  - pose proof (find_venv_iff_marked w0 "/work" (boot bare_venv))
      as (Hiff & _ & _).
    assert (Pathlib.is_dir (fs (boot bare_venv)) "/work/.venv" = true) as Hdir
      by (vm_compute; reflexivity).
    assert (Pathlib.exists_ (fs (boot bare_venv)) "/work/.venv/pyvenv.cfg" = true)
      as Hcfg by (vm_compute; reflexivity).
    split; [exact Hdir|]. split; [exact Hcfg|].
    exact (proj2 (Hiff "/work/.venv") (conj eq_refl (conj Hdir Hcfg))).
  - pose proof (find_venv_iff_marked w0 "/work" (boot unmarked_venv))
      as (_ & Habsent & _).
    assert (Pathlib.is_dir (fs (boot unmarked_venv)) "/work/.venv" = true) as Hdir
      by (vm_compute; reflexivity).
    assert (Pathlib.exists_ (fs (boot unmarked_venv)) "/work/.venv/pyvenv.cfg"
            = false) as Hcfg by (vm_compute; reflexivity).
    split; [exact Hdir|]. split; [exact Hcfg|].
    exact (Habsent Hdir Hcfg).
Defined.

Lemma resolver_prefers_direct_executable_witness :
  let w0 := host 0 0 in
  let σ0 := boot venv_with_black in
  "/work/.venv/bin/black" ∈ direct_candidates w0 "/work/.venv" "black"
  ∧ Pathlib.exists_ (fs σ0) "/work/.venv/bin/black" = true
  ∧ ∃ p',
      first_existing (fs σ0) (direct_candidates w0 "/work/.venv" "black") = Some p'
      ∧ (win32 w0 = false → p' = "/work/.venv/bin/black")
      ∧ resolve_executable w0 (Some "/work/.venv") "black" σ0
        = (Ok (DirectPath p'), σ0)
      ∧ get_executable w0 (Some "/work/.venv") "black" σ0 = (Ok p', σ0).
Proof.
  intros w0 σ0.
  assert ("/work/.venv/bin/black" ∈ direct_candidates w0 "/work/.venv" "black")
    as Hin by (vm_compute; left).
  assert (Pathlib.exists_ (fs σ0) "/work/.venv/bin/black" = true) as Hex
    by (vm_compute; reflexivity).
  split; [exact Hin|]. split; [exact Hex|].
  exact (proj1 (resolver_prefers_direct_executable w0)
           "/work/.venv" "black" σ0 "/work/.venv/bin/black" Hin Hex).
Defined.

Lemma resolution_determined_by_observations_witness :
  let w0 := host 0 0 in
  let σ1 := boot bare_venv in
  let σ2 := boot (<[ "/work/README.md" := File "pippy" ]> bare_venv) in
  (∀ venv p, Some "/work/.venv" = Some venv →
     p ∈ venv_python w0 venv :: direct_candidates w0 venv "black" →
     Pathlib.exists_ (fs σ1) p = Pathlib.exists_ (fs σ2) p)
  ∧ shutil_which w0 (fs σ1) "black" = shutil_which w0 (fs σ2) "black"
  ∧ fst (resolve_executable w0 (Some "/work/.venv") "black" σ1)
    = fst (resolve_executable w0 (Some "/work/.venv") "black" σ2)
  ∧ fst (get_executable w0 (Some "/work/.venv") "black" σ1)
    = fst (get_executable w0 (Some "/work/.venv") "black" σ2).
Proof.
  intros w0 σ1 σ2.
  assert (∀ venv p, Some "/work/.venv" = Some venv →
            p ∈ venv_python w0 venv :: direct_candidates w0 venv "black" →
            Pathlib.exists_ (fs σ1) p = Pathlib.exists_ (fs σ2) p) as Hfiles.
  { intros venv p [= <-] Hin.
    apply elem_of_cons in Hin as [->|Hin]; [vm_compute; reflexivity|].
    apply list_elem_of_singleton in Hin as ->. vm_compute. reflexivity. }
  assert (shutil_which w0 (fs σ1) "black" = shutil_which w0 (fs σ2) "black")
    as Hwhich by (vm_compute; reflexivity).
  split; [exact Hfiles|]. split; [exact Hwhich|].
  exact (resolution_determined_by_observations w0 (Some "/work/.venv") "black"
           σ1 σ2 Hfiles Hwhich).
Defined.

Lemma ensure_tool_installed_idempotent_witness :
  let w0 := host 0 0 in
  let venv := Some "/work/.venv" in
  (fst (get_executable w0 venv "black" (boot venv_with_black))
   = Ok "/work/.venv/bin/black"
   ∧ Pathlib.is_file (fs (boot venv_with_black)) "/work/.venv/bin/black" = true
   ∧ fst (ensure_tool_installed w0 "black" "black" venv "/work"
            (Some ["black"]) None (boot venv_with_black)) = Ok tt
   ∧ launched (snd (ensure_tool_installed w0 "black" "black" venv "/work"
                      (Some ["black"]) None (boot venv_with_black))) = [])
  ∧ (fst (subprocess_run w0
            (probe_request w0 venv "/work" "build" (fs (boot bare_venv)))
            (fs (boot bare_venv))) = Completed 0 None None
     ∧ fst (ensure_tool_installed w0 "build" "build" venv "/work"
              None (Some "build") (boot bare_venv)) = Ok tt
     ∧ installer_calls
         (snd (ensure_tool_installed w0 "build" "build" venv "/work"
                 None (Some "build") (boot bare_venv))) = []).
Proof.
  intros w0 venv. split.
  - pose proof (ensure_tool_installed_idempotent w0 "black" "black" venv "/work"
                  (boot venv_with_black)) as (_ & Hfile & _).
    assert (fst (get_executable w0 venv "black" (boot venv_with_black))
            = Ok "/work/.venv/bin/black") as Hpath by (vm_compute; reflexivity).
    assert (Pathlib.is_file (fs (boot venv_with_black)) "/work/.venv/bin/black"
            = true) as Hisfile by (vm_compute; reflexivity).
    split; [exact Hpath|]. split; [exact Hisfile|].
    exact (Hfile "black" [] None "/work/.venv/bin/black" Hpath Hisfile).
  - pose proof (ensure_tool_installed_idempotent w0 "build" "build" venv "/work"
                  (boot bare_venv)) as (_ & _ & Himport).
    assert (subprocess_run w0
              (probe_request w0 venv "/work" "build" (fs (boot bare_venv)))
              (fs (boot bare_venv))
            = (Completed 0 None None, fs (boot bare_venv))) as Hrun
      by (vm_compute; reflexivity).
    split; [rewrite Hrun; reflexivity|].
    destruct (Himport "b"%char "uild" None None (fs (boot bare_venv)) Hrun)
      as (Hok & _ & Hcalls).
    split; [exact Hok|exact Hcalls].
Defined.

Lemma read_config_tolerant_witness :
  let w0 := host 0 0 in
  (fs (boot unmarked_venv) !! "/work/pippy.json" = None
   ∧ read_config w0 (codec := RefCodec.codec) "/work" (boot unmarked_venv)
     = (Ok empty_document, boot unmarked_venv))
  ∧ (fs (boot corrupted) !! "/work/pippy.json" = Some (File "{main")
     ∧ RefCodec.loads "{main" = None
     ∧ fst (read_config w0 (codec := RefCodec.codec) "/work" (boot corrupted))
       = Ok empty_document
     ∧ logs (snd (read_config w0 (codec := RefCodec.codec) "/work"
                    (boot corrupted)))
       = [(WARNING, Config_unparsable)])
  ∧ (fs (boot config_is_dir) !! "/work/pippy.json" = Some Dir
     ∧ fst (read_config w0 (codec := RefCodec.codec) "/work" (boot config_is_dir))
       = Ok empty_document
     ∧ logs (snd (read_config w0 (codec := RefCodec.codec) "/work"
                    (boot config_is_dir)))
       = [(WARNING, Config_unreadable IsADirectoryError)])
  ∧ (fs (boot configured) !! "/work/pippy.json"
     = Some (File (RefCodec.dumps main_document))
     ∧ RefCodec.loads (RefCodec.dumps main_document) = Some main_document
     ∧ read_config w0 (codec := RefCodec.codec) "/work" (boot configured)
       = (Ok main_document, boot configured)).
Proof.
  intros w0.
  split; [|split; [|split]].
  - pose proof (read_config_tolerant w0 (codec := RefCodec.codec) "/work"
                  (boot unmarked_venv)) as (Hmissing & _).
    assert (fs (boot unmarked_venv) !! "/work/pippy.json" = None) as Hnone
      by (vm_compute; reflexivity).
    split; [exact Hnone|exact (Hmissing Hnone)].
  - pose proof (read_config_tolerant w0 (codec := RefCodec.codec) "/work"
                  (boot corrupted)) as (_ & Hbad & _).
    assert (fs (boot corrupted) !! "/work/pippy.json" = Some (File "{main"))
      as Hfile by (vm_compute; reflexivity).
    assert (RefCodec.loads "{main" = None) as Hload by (vm_compute; reflexivity).
    split; [exact Hfile|]. split; [exact Hload|].
    exact (Hbad "{main" Hfile Hload).
  - pose proof (read_config_tolerant w0 (codec := RefCodec.codec) "/work"
                  (boot config_is_dir)) as (_ & _ & Hdir & _).
    assert (fs (boot config_is_dir) !! "/work/pippy.json" = Some Dir) as Hnode
      by (vm_compute; reflexivity).
    split; [exact Hnode|exact (Hdir Hnode)].
  - pose proof (read_config_tolerant w0 (codec := RefCodec.codec) "/work"
                  (boot configured)) as (_ & _ & _ & Hgood & _).
    assert (fs (boot configured) !! "/work/pippy.json"
            = Some (File (RefCodec.dumps main_document))) as Hfile
      by (vm_compute; reflexivity).
    assert (RefCodec.loads (RefCodec.dumps main_document) = Some main_document)
      as Hload by (vm_compute; reflexivity).
    split; [exact Hfile|]. split; [exact Hload|].
    exact (Hgood _ _ Hfile Hload).
Defined.

Lemma update_config_value_keeps_other_keys_witness :
  let w0 := host 0 0 in
  let σ0 := boot configured in
  "main" ≠ "use_env_key"
  ∧ json_wf (JBool true) = true
  ∧ fst (read_config w0 (codec := RefCodec.codec) "/work" σ0)
    = Ok (JObj [("main", JStr "app.py")])
  ∧ dict_get "main" [("main", JStr "app.py")] = Some (JStr "app.py")
  ∧ ∃ σ1 members',
      update_config_value w0 (codec := RefCodec.codec) "/work" "use_env_key"
        (JBool true) σ0 = (Ok tt, σ1)
      ∧ fst (read_config w0 (codec := RefCodec.codec) "/work" σ1)
        = Ok (JObj members')
      ∧ dict_get "main" members' = Some (JStr "app.py")
      ∧ dict_get "use_env_key" members' = Some (JBool true).
Proof.
  intros w0 σ0.
  assert ("main" ≠ "use_env_key") as Hne by discriminate.
  assert (fst (read_config w0 (codec := RefCodec.codec) "/work" σ0)
          = Ok (JObj [("main", JStr "app.py")])) as Hread
    by (vm_compute; reflexivity).
  split; [exact Hne|]. split; [reflexivity|]. split; [exact Hread|].
  split; [reflexivity|].
  exact (update_config_value_keeps_other_keys w0 (codec := RefCodec.codec)
           (laws := RefCodecFacts.laws) "/work" "main" (JStr "app.py")
           "use_env_key" (JBool true) σ0 [("main", JStr "app.py")]
           Hne eq_refl Hread eq_refl).
Defined.

(** The fourth scenario of the specification, evaluated: the document that
    names the entry script also has the new key after the update. *)
Example update_config_value_scenario :
  let w0 := host 0 0 in
  let σ1 := snd (update_config_value w0 (codec := RefCodec.codec) "/work"
                   "use_env_key" (JBool true) (boot configured)) in
  fst (read_config w0 (codec := RefCodec.codec) "/work" σ1)
  = Ok (JObj [("main", JStr "app.py"); ("use_env_key", JBool true)]).
Proof. vm_compute. reflexivity. Qed.

End Witnesses.


(** * Further properties of the helpers *)

(** ** The runner, beyond the claims *)

Section RunnerEdges.

Context (w : World).

(** X1. [run_cmd] ends in nothing but a triple, [Exit(1)], [Exit(127)] or
    [IndexError]; [Exit(127)] and [IndexError] both need the launcher to
    have raised [FileNotFoundError], and [IndexError] also a command that
    names no executable. *)
Theorem run_cmd_raises_only cmd_list cwd capture check env shell σ e :
  fst (run_cmd w cmd_list cwd capture check env shell σ) = Raise e →
  e = Exit 1
  ∨ (e = Exit 127
     ∧ fst (subprocess_run w (request_of w cmd_list cwd capture env shell) (fs σ))
       = SpawnError FileNotFoundError)
  ∨ (e = IndexError
     ∧ command_name (quoted cmd_list shell) = None
     ∧ fst (subprocess_run w (request_of w cmd_list cwd capture env shell) (fs σ))
       = SpawnError FileNotFoundError).
Proof.
  destruct (shell && is_list cmd_list) eqn:Hmode.
  - apply andb_prop in Hmode as [-> Hlist].
    destruct cmd_list as [args|line]; [|discriminate].
    rewrite run_cmd_shell_with_list. intros [= <-]. left. reflexivity.
  - destruct (subprocess_run w (request_of w cmd_list cwd capture env shell)
                (fs σ)) as [[rc out err|e0] fs'] eqn:Hrun.
    + rewrite (run_cmd_completed _ _ _ _ _ _ _ _ _ _ _ _ Hmode Hrun). simpl.
      destruct (failed check rc); [|discriminate].
      intros [= <-]. left. reflexivity.
    + rewrite (run_cmd_spawn_error _ _ _ _ _ _ _ _ _ _ Hmode Hrun).
      destruct e0; simpl; try (intros [= <-]; left; reflexivity).
      destruct (command_name (quoted cmd_list shell)); intros [= <-].
      * right. left. split; reflexivity.
      * right. right. repeat split.
Qed.

(** X2. A command line with no word in it, run outside the shell: when the
    launcher raises [FileNotFoundError], the handler fails on
    [cmd_list.split()[0]], so [IndexError] escapes instead of [Exit(127)],
    no "command not found" record is logged, and the process would end
    with 1. *)
Theorem run_cmd_blank_command_line line cwd capture check env σ fs' :
  Py.first_word line = None →
  subprocess_run w (request_of w (CmdLine line) cwd capture env false) (fs σ)
    = (SpawnError FileNotFoundError, fs') →
  fst (run_cmd w (CmdLine line) cwd capture check env false σ) = Raise IndexError
  ∧ process_exit_code
      (fst (run_cmd w (CmdLine line) cwd capture check env false σ)) = 1
  ∧ logs (snd (run_cmd w (CmdLine line) cwd capture check env false σ))
    = logs σ ++ [(DEBUG, Running_command (CmdLine line) (default (getcwd w) cwd))].
Proof.
  intros Hblank Hrun.
  rewrite (run_cmd_spawn_error w (CmdLine line) cwd capture check env false
             σ FileNotFoundError fs' eq_refl Hrun).
  simpl. rewrite Hblank. repeat split.
Qed.

Lemma escape_squotes_length s :
  (String.length s ≤ String.length (Py.escape_squotes s))%nat.
Proof.
  induction s as [|c s IH]; simpl; [lia|].
  destruct (Ascii.eqb c Py.squote); simpl; lia.
Qed.

Lemma shlex_quote_fixed s :
  Py.shlex_quote s = s ↔ plain_argument s = true.
Proof.
  unfold Py.shlex_quote, plain_argument.
  destruct (Py.nonempty s) eqn:Hne; simpl.
  - destruct (Py.all_safe s) eqn:Hsafe; [tauto|].
    split; [|discriminate]. intros Heq.
    apply (f_equal String.length) in Heq. simpl in Heq.
    rewrite RefCodecFacts.length_append in Heq. simpl in Heq.
    pose proof (escape_squotes_length s). lia.
  - destruct s; [|discriminate]. split; discriminate.
Qed.

Lemma map_shlex_quote_fixed args :
  map Py.shlex_quote args = args ↔ forallb plain_argument args = true.
Proof.
  induction args as [|a args IH]; simpl; [tauto|].
  rewrite andb_true_iff, <- IH, <- shlex_quote_fixed.
  split; [intros [= Ha Hargs]; auto|intros [-> ->]; reflexivity].
Qed.

(** X3. Outside the shell, the argument list reaches [subprocess.run]
    unchanged exactly when every argument is non-empty and made of the
    characters [shlex.quote] leaves alone.  Position by position, such an
    argument arrives as it is, and any other (one with a blank, a quote, a
    glob star, or the empty string) arrives wrapped in single quotes. *)
Theorem run_cmd_passes_plain_arguments args cwd capture check env σ :
  ∃ sent,
    req_cmd <$> last (launched (snd (run_cmd w (ArgList args) cwd capture check
                                       env false σ)))
    = Some (ArgList sent)
    ∧ (sent = args ↔ forallb plain_argument args = true)
    ∧ (∀ i a, args !! i = Some a → plain_argument a = true →
         sent !! i = Some a)
    ∧ (∀ i a, args !! i = Some a → plain_argument a = false →
         ∃ body, sent !! i
                 = Some (String Py.squote body +:+ String Py.squote EmptyString)).
Proof.
  exists (map Py.shlex_quote args).
  rewrite run_cmd_launches_once by reflexivity.
  rewrite last_snoc. split; [reflexivity|]. split; [|split].
  - apply map_shlex_quote_fixed.
  - intros i a Hi Hplain.
    change (map Py.shlex_quote args) with (Py.shlex_quote <$> args).
    rewrite list_lookup_fmap, Hi. simpl. f_equal.
    apply shlex_quote_fixed. exact Hplain.
  - intros i a Hi Hplain.
    exists (if Py.nonempty a then Py.escape_squotes a else EmptyString).
    change (map Py.shlex_quote args) with (Py.shlex_quote <$> args).
    rewrite list_lookup_fmap, Hi. simpl. f_equal.
    unfold plain_argument in Hplain. unfold Py.shlex_quote.
    destruct (Py.nonempty a); simpl in *; [rewrite Hplain|]; reflexivity.
Qed.

(** X4. The installer variant calls [subprocess.run] once, with the
    quoted list [<python> -m pip <args>], in the given directory and outside
    the shell.  The interpreter is the environment's when that file exists;
    when an environment is given but has no interpreter, a warning is logged
    and the interpreter of the current process is used instead. *)
Theorem run_pip_cmd_request args venv_path cwd capture check env σ :
  let σ' := snd (run_pip_cmd w args venv_path cwd capture check env σ) in
  (∃ python,
     launched σ'
     = launched σ ++
         [Request (ArgList (map Py.shlex_quote (python :: "-m" :: "pip" :: args)))
            cwd capture (effective_env w env) false]
     ∧ python = python_for w (fs σ) venv_path)
  ∧ (∀ venv, venv_path = Some venv →
       Pathlib.exists_ (fs σ) (venv_python w venv) = true →
       python_for w (fs σ) venv_path = venv_python w venv)
  ∧ (∀ venv, venv_path = Some venv →
       Pathlib.exists_ (fs σ) (venv_python w venv) = false →
       python_for w (fs σ) venv_path = sys_executable w
       ∧ (WARNING, Venv_python_missing venv) ∈ logs σ')
  ∧ (venv_path = None → python_for w (fs σ) venv_path = sys_executable w).
Proof.
  intros σ'. subst σ'. unfold run_pip_cmd.
  split; [|split; [|split]].
  - eexists. split; [|reflexivity].
    rewrite run_python_cmd_launches_once. reflexivity.
  - intros venv -> Hex. unfold python_for. rewrite Hex. reflexivity.
  - intros venv -> Hex. unfold python_for. rewrite Hex.
    split; [reflexivity|].
    rewrite run_python_cmd_unfold.
    assert (∀ cmd σ0, (WARNING, Venv_python_missing venv) ∈ logs σ0 →
              (WARNING, Venv_python_missing venv)
              ∈ logs (snd (run_cmd w (ArgList cmd) cwd capture check env false σ0)))
      as Hkeeps.
    { intros cmd σ0 Hin.
      destruct (subprocess_run w (request_of w (ArgList cmd) cwd capture env false)
                  (fs σ0)) as [[rc out err|e] fs'] eqn:Hrun.
      - rewrite (run_cmd_completed w (ArgList cmd) cwd capture check env false
                   σ0 rc out err fs' eq_refl Hrun).
        simpl. apply elem_of_app. left. exact Hin.
      - rewrite (run_cmd_spawn_error w (ArgList cmd) cwd capture check env false
                   σ0 e fs' eq_refl Hrun).
        destruct (is_FileNotFoundError e);
          [destruct (command_name _)|]; simpl; apply elem_of_app; left;
          exact Hin. }
    apply Hkeeps. unfold python_chosen. rewrite Hex. simpl.
    apply elem_of_app. right. left.
  - intros ->. reflexivity.
Qed.

End RunnerEdges.

(** ** The tool installer, beyond the claims *)

Section InstallerEdges.

Context (w : World).

(** Verification never raises: whatever its probe does, it answers. *)
Lemma verify_tool_returns venv_path project_dir check_command check_import σ :
  ∃ installed σ1,
    verify_tool w venv_path project_dir check_command check_import σ
    = (Ok installed, σ1).
Proof.
  assert (∀ module (h : exn → option (M bool)) σ0,
            (∀ e, ∃ k, h e = Some k ∧ ∀ σ1, ∃ b σ2, k σ1 = (Ok b, σ2)) →
            ∃ b σ2, try_except (probe w module venv_path project_dir) h σ0
                    = (Ok b, σ2)) as Htry.
  { intros module h σ0 Hh. unfold try_except.
    destruct (probe _ _ _ _ σ0) as [[b|e] σ']; [eauto|].
    destruct (Hh e) as (k & -> & Hk). apply Hk. }
  unfold verify_tool, bind.
  destruct (python_exe_lookup w venv_path σ) as [py ->].
  assert (∀ σ0, ∃ b σ2,
            (match check_import with
             | Some (String _ _ as module) =>
                 try_except (probe w module venv_path project_dir)
                   (λ e, Some (log DEBUG (Import_check_failed module e) ;;
                               ret false))
             | _ => ret false
             end) σ0 = (Ok b, σ2)) as Himport.
  { intros σ0. destruct check_import as [[|c module]|]; [eexists _, _; reflexivity| |eexists _, _; reflexivity].
    apply Htry. intros e. eexists. split; [reflexivity|].
    intros σ1. eexists _, _. reflexivity. }
  destruct check_command as [[|command rest]|]; [apply Himport| |apply Himport].
  rewrite get_executable_by_attempts. unfold get_fs. cbv beta iota.
  destruct (Pathlib.is_file _ _); [eexists _, _; reflexivity|].
  destruct (String.prefix _ _); [|eexists _, _; reflexivity].
  apply Htry. intros e. eexists. split; [reflexivity|].
  intros σ1. eexists _, _. reflexivity.
Qed.

(** How step 2 ends, by what the host answers to the installer request. *)
Lemma install_tool_outcome tool pkg venv_path project_dir σ :
  let σ' := snd (install_tool w tool pkg venv_path project_dir σ) in
  match fst (subprocess_run w (install_request w venv_path project_dir pkg (fs σ))
               (fs σ)) with
  | Completed rc _ _ =>
      if rc =? 0
      then fst (install_tool w tool pkg venv_path project_dir σ) = Ok tt
           ∧ last (logs σ') = Some (INFO, Tool_installed tool)
      else fst (install_tool w tool pkg venv_path project_dir σ) = Raise (Exit 1)
           ∧ last (logs σ') = Some (ERROR, Tool_install_failed tool pkg)
  | SpawnError e =>
      fst (install_tool w tool pkg venv_path project_dir σ)
      = Raise (Exit (if is_FileNotFoundError e then 127 else 1))
      ∧ last (logs σ') = Some (ERROR, Tool_install_failed tool pkg)
  end.
Proof.
  intros σ'. subst σ'.
  remember (install_tool w tool pkg venv_path project_dir σ) as res eqn:Hres.
  unfold install_tool, run_pip_cmd, try_except, bind in Hres.
  unfold log at 1 in Hres. cbv beta in Hres.
  fold (logged σ INFO (Tool_missing tool pkg)) in Hres.
  rewrite run_python_cmd_unfold in Hres.
  set (σa := python_chosen w venv_path (logged σ INFO (Tool_missing tool pkg)))
    in Hres.
  assert (fs σa = fs σ) as Hfs by (unfold σa; rewrite python_chosen_fs; reflexivity).
  change (fs (logged σ INFO (Tool_missing tool pkg))) with (fs σ) in Hres.
  unfold install_request.
  destruct (subprocess_run w _ (fs σ)) as [[rc out err|e] fs'] eqn:Hrun; simpl.
  - erewrite run_cmd_completed in Hres; [|reflexivity|rewrite Hfs; exact Hrun].
    unfold failed in Hres. simpl in Hres.
    destruct (rc =? 0); simpl in Hres; subst res; simpl;
      (split; [reflexivity|apply last_snoc]).
  - erewrite run_cmd_spawn_error in Hres; [|reflexivity|rewrite Hfs; exact Hrun].
    destruct (is_FileNotFoundError e); simpl in Hres; subst res; simpl;
      (split; [reflexivity|apply last_snoc]).
Qed.

(** X5. When verification answers that the tool is absent, the installer is
    launched, once, right after whatever verification launched.  In
    particular a call that gives neither a check command nor an import check
    launches the installer every time it is made. *)
Theorem ensure_tool_installed_installs_when_unverified tool pkg venv_path
    project_dir σ :
  (∀ check_command check_import σ1,
     verify_tool w venv_path project_dir check_command check_import σ
       = (Ok false, σ1) →
     launched (snd (ensure_tool_installed w tool pkg venv_path project_dir
                      check_command check_import σ))
     = launched σ1 ++ [install_request w venv_path project_dir pkg (fs σ1)])
  ∧ (∀ check_command check_import,
       check_command = None ∨ check_command = Some [] →
       check_import = None ∨ check_import = Some EmptyString →
       installer_calls
         (snd (ensure_tool_installed w tool pkg venv_path project_dir
                 check_command check_import σ))
       = installer_calls σ ++ [install_request w venv_path project_dir pkg (fs σ)]).
Proof.
  assert (∀ check_command check_import σ1,
            verify_tool w venv_path project_dir check_command check_import σ
              = (Ok false, σ1) →
            launched (snd (ensure_tool_installed w tool pkg venv_path project_dir
                             check_command check_import σ))
            = launched σ1 ++ [install_request w venv_path project_dir pkg (fs σ1)])
    as Hinstall.
  { intros check_command check_import σ1 Hverify.
    unfold ensure_tool_installed, bind. rewrite Hverify. cbn [negb].
    apply install_tool_launches. }
  split; [exact Hinstall|].
  intros check_command check_import Hcommand Himport.
  assert (verify_tool w venv_path project_dir check_command check_import σ
          = (Ok false, σ)) as Hverify.
  { unfold verify_tool, bind.
    destruct (python_exe_lookup w venv_path σ) as [py ->].
    destruct Hcommand as [-> | ->], Himport as [-> | ->]; reflexivity. }
  unfold installer_calls. rewrite (Hinstall _ _ _ Hverify), filter_app.
  rewrite filter_cons_True by apply install_request_is_installer.
  reflexivity.
Qed.

(** X6. [ensure_tool_installed] returns, or raises [Exit(1)] or
    [Exit(127)], and nothing else; when it raises, the last record of the
    log is the error that names the tool and its package. *)
Theorem ensure_tool_installed_raises_only tool pkg venv_path project_dir
    check_command check_import σ e :
  fst (ensure_tool_installed w tool pkg venv_path project_dir check_command
         check_import σ) = Raise e →
  (e = Exit 1 ∨ e = Exit 127)
  ∧ last (logs (snd (ensure_tool_installed w tool pkg venv_path project_dir
                       check_command check_import σ)))
    = Some (ERROR, Tool_install_failed tool pkg).
Proof.
  unfold ensure_tool_installed, bind.
  destruct (verify_tool_returns venv_path project_dir check_command check_import σ)
    as (installed & σ1 & ->).
  destruct installed; cbn [negb]; [discriminate|].
  pose proof (install_tool_outcome tool pkg venv_path project_dir σ1) as Hout.
  cbv zeta in Hout.
  destruct (fst (subprocess_run w _ (fs σ1))) as [rc out err|e0].
  - destruct (rc =? 0); destruct Hout as [-> Hlog]; [discriminate|].
    intros [= <-]. split; [left; reflexivity|exact Hlog].
  - destruct Hout as [-> Hlog]. intros [= <-]. split; [|exact Hlog].
    destruct (is_FileNotFoundError e0); [right|left]; reflexivity.
Qed.

End InstallerEdges.

(** ** The configuration store, beyond the claims *)

Section ConfigEdges.

Context (w : World) {codec : JsonCodec}.

Abbreviation config_path project_dir := (joinpath w project_dir CONFIG_FILE_NAME).

(** The state after a successful write of [text] to the configuration. *)
Lemma write_config_cases project_dir config_data σ :
  write_config w project_dir config_data σ
  = match fs σ !! config_path project_dir, fs σ !! project_dir with
    | Some Dir, _ =>
        (Ok tt, logged σ ERROR
                  (Config_write_failed (config_path project_dir) IsADirectoryError))
    | None, Some (File _) =>
        (Ok tt, logged σ ERROR
                  (Config_write_failed (config_path project_dir)
                     (OtherError "NotADirectoryError")))
    | None, None =>
        (Ok tt, logged σ ERROR
                  (Config_write_failed (config_path project_dir) FileNotFoundError))
    | _, _ =>
        (Ok tt,
         {| fs := <[config_path project_dir := File (json_dumps config_data)]> (fs σ);
            launched := launched σ;
            logs := logs σ ++ [(DEBUG, Config_saved (config_path project_dir))];
            echoed := echoed σ |})
    end.
Proof.
  unfold write_config, write_text, try_except, bind, log, logged.
  destruct (fs σ !! config_path project_dir) as [[|old]|]; try reflexivity.
  destruct (fs σ !! project_dir) as [[|other]|]; reflexivity.
Qed.

(** X7. A configuration write either replaces the content of the
    configuration file, changes no other path and logs that it saved, or
    leaves every file as it was and logs one error.  It launches nothing and
    prints nothing. *)
Theorem write_config_effect project_dir config_data σ :
  let σ' := snd (write_config w project_dir config_data σ) in
  ((fs σ' = <[config_path project_dir := File (json_dumps config_data)]> (fs σ)
    ∧ logs σ' = logs σ ++ [(DEBUG, Config_saved (config_path project_dir))])
   ∨ (fs σ' = fs σ
      ∧ ∃ e, logs σ'
             = logs σ ++ [(ERROR, Config_write_failed (config_path project_dir) e)]))
  ∧ launched σ' = launched σ
  ∧ echoed σ' = echoed σ.
Proof.
  intros σ'. subst σ'. rewrite write_config_cases.
  destruct (fs σ !! config_path project_dir) as [[|old]|];
    [|destruct (fs σ !! project_dir) as [[|other]|]..]; simpl;
    (split; [|split; reflexivity]); eauto.
Qed.

Context {laws : JsonLaws codec}.

(** X8. Writing a Python object and reading the configuration back gives
    that object, provided the write can happen: the configuration path is
    not a directory and, when the file is new, the project directory is
    one. *)
Theorem write_then_read_config project_dir config_data σ :
  json_wf config_data = true →
  fs σ !! config_path project_dir ≠ Some Dir →
  (fs σ !! config_path project_dir = None → fs σ !! project_dir = Some Dir) →
  fst (read_config w project_dir (snd (write_config w project_dir config_data σ)))
  = Ok config_data.
Proof.
  intros Hwf Hnodir Hparent.
  rewrite write_config_cases, read_config_cases.
  destruct (fs σ !! config_path project_dir) as [[|old]|] eqn:Hnode;
    [contradiction| |rewrite (Hparent eq_refl)]; simpl;
    rewrite lookup_insert_eq, (json_loads_dumps _ Hwf); reflexivity.
Qed.

(** What an update makes of a stored document. *)
Lemma update_config_value_stored project_dir key value σ text members :
  fs σ !! config_path project_dir = Some (File text) →
  json_loads text = Some (JObj members) →
  update_config_value w project_dir key value σ
  = (Ok tt,
     {| fs := <[config_path project_dir
                := File (json_dumps (JObj (dict_set key value members)))]> (fs σ);
        launched := launched σ;
        logs := logs σ ++ [(DEBUG, Config_saved (config_path project_dir))];
        echoed := echoed σ |}).
Proof.
  intros Hnode Hload. unfold update_config_value, bind.
  rewrite read_config_cases, Hnode, Hload. simpl.
  unfold ret. rewrite write_config_cases, Hnode. reflexivity.
Qed.

(** X9. Updating a key when the configuration file is missing, or holds a
    text that does not parse, leaves a file whose document has that one key:
    whatever the unparsable file held is discarded. *)
Theorem update_config_value_starts_afresh project_dir key value σ :
  (fs σ !! config_path project_dir = None ∧ fs σ !! project_dir = Some Dir)
  ∨ (∃ text, fs σ !! config_path project_dir = Some (File text)
             ∧ json_loads text = None) →
  fst (update_config_value w project_dir key value σ) = Ok tt
  ∧ fs (snd (update_config_value w project_dir key value σ))
    = <[config_path project_dir := File (json_dumps (JObj [(key, value)]))]> (fs σ)
  ∧ (json_wf value = true →
     fst (read_config w project_dir
            (snd (update_config_value w project_dir key value σ)))
     = Ok (JObj [(key, value)])).
Proof.
  intros Hstate.
  assert (json_wf value = true → json_wf (JObj [(key, value)]) = true) as Hwf.
  { intros Hv. apply (dict_set_wf key value [] eq_refl Hv). }
  unfold update_config_value, bind.
  rewrite read_config_cases.
  destruct Hstate as [[Hnone Hdir]|(text & Hfile & Hload)].
  - rewrite Hnone. simpl. rewrite write_config_cases, Hnone, Hdir. simpl.
    split; [reflexivity|]. split; [reflexivity|]. intros Hv.
    rewrite read_config_cases. simpl.
    rewrite lookup_insert_eq, (json_loads_dumps _ (Hwf Hv)). reflexivity.
  - rewrite Hfile, Hload. simpl. unfold logged.
    rewrite write_config_cases. simpl. rewrite Hfile. simpl.
    split; [reflexivity|]. split; [reflexivity|]. intros Hv.
    rewrite read_config_cases. simpl.
    rewrite lookup_insert_eq, (json_loads_dumps _ (Hwf Hv)). reflexivity.
Qed.

(** X10. When the configuration file holds a document that is not an
    object (a list, a string, a number, [null]), an update raises
    [TypeError] and changes nothing: no file, no log record. *)
Theorem update_config_value_needs_object project_dir key value σ text document :
  fs σ !! config_path project_dir = Some (File text) →
  json_loads text = Some document →
  (∀ members, document ≠ JObj members) →
  update_config_value w project_dir key value σ = (Raise TypeError, σ).
Proof.
  intros Hfile Hload Hshape. unfold update_config_value, bind.
  rewrite read_config_cases, Hfile, Hload.
  destruct document; try reflexivity. exfalso. eapply Hshape. reflexivity.
Qed.

(** X11. An update of a stored document keeps the keys in their order: a
    key that was there keeps its place and takes the new value, a new key
    goes after all the others. *)
Theorem update_config_value_keeps_order project_dir key value σ text members :
  json_wf value = true →
  fs σ !! config_path project_dir = Some (File text) →
  json_loads text = Some (JObj members) →
  ∃ members',
    fst (read_config w project_dir
           (snd (update_config_value w project_dir key value σ)))
    = Ok (JObj members')
    ∧ dict_get key members' = Some value
    ∧ (key ∈ members.*1 → members'.*1 = members.*1)
    ∧ (key ∉ members.*1 → members'.*1 = members.*1 ++ [key]).
Proof.
  intros Hv Hnode Hload.
  pose proof (dict_set_wf key value members (json_loads_wf _ _ Hload) Hv) as Hwf.
  rewrite (update_config_value_stored _ _ _ _ _ _ Hnode Hload).
  exists (dict_set key value members).
  rewrite read_config_cases. simpl.
  rewrite lookup_insert_eq, (json_loads_dumps _ Hwf).
  split; [reflexivity|]. split; [apply dict_get_set_eq|].
  split; [apply dict_set_keys_old|apply dict_set_keys_new].
Qed.

End ConfigEdges.

(** * Properties of the rest of [helpers.py] *)

Section Finder.

Context (w : World) (px : Paths).

(** The loop answers whether the first component of the item, taken from
    the project directory, is one of the excluded names. *)
Lemma is_excluded_spec exclude_dirs item project_dir :
  is_excluded px exclude_dirs item project_dir = true
  ↔ ∃ part0 rest,
      path_parts_from px item project_dir = Some (part0 :: rest)
      ∧ part0 ∈ exclude_dirs.
Proof.
  induction exclude_dirs as [|d dirs IH]; simpl.
  - split; [discriminate|]. intros (part0 & rest & _ & Hin). inversion Hin.
  - destruct (path_parts_from px item project_dir) as [[|part0 parts]|] eqn:Hparts.
    + rewrite IH. split; intros (p & r & Hp & _); discriminate.
    + destruct (String.eqb_spec part0 d) as [->|Hne].
      * split; [|reflexivity]. intros _. exists d, parts.
        split; [reflexivity|left].
      * rewrite IH. split; intros (p & r & [= <- <-] & Hin).
        -- exists part0, parts. split; [reflexivity|right; exact Hin].
        -- exists part0, parts. split; [reflexivity|].
           apply elem_of_cons in Hin as [?|?]; [contradiction|assumption].
    + rewrite IH. split; intros (p & r & Hp & _); discriminate.
Qed.

(** X12. [find_python_files] returns, in the order of the search, exactly
    the matches whose first component below the project directory is not an
    excluded name; deeper components are not looked at, so a file in a
    nested [__pycache__] or [.venv] is returned.  It changes nothing, and the
    order in which the excluded names are gone through does not matter. *)
Theorem find_python_files_top_level_only project_dir s :
  ∃ found,
    find_python_files px project_dir s = (Ok found, s)
    ∧ sublist found (path_rglob px (fs (core s)) project_dir "*.py")
    ∧ (∀ item,
         item ∈ found
         ↔ item ∈ path_rglob px (fs (core s)) project_dir "*.py"
           ∧ ¬ ∃ part0 rest,
                 path_parts_from px item project_dir = Some (part0 :: rest)
                 ∧ part0 ∈ EXCLUDE_DIRS)
    ∧ (∀ item part0 rest,
         item ∈ path_rglob px (fs (core s)) project_dir "*.py" →
         path_parts_from px item project_dir = Some (part0 :: rest) →
         part0 ∉ EXCLUDE_DIRS →
         item ∈ found)
    ∧ (∀ dirs item, dirs ≡ₚ EXCLUDE_DIRS →
         is_excluded px dirs item project_dir
         = is_excluded px EXCLUDE_DIRS item project_dir).
Proof.
  exists (filter (λ item, is_excluded px EXCLUDE_DIRS item project_dir = false)
            (path_rglob px (fs (core s)) project_dir "*.py")).
  split.
  { unfold find_python_files, cbind, lift, get_fs, cret.
    destruct s; reflexivity. }
  split; [apply sublist_filter|]. split; [|split].
  - intros item. rewrite list_elem_of_filter, <- is_excluded_spec.
    destruct (is_excluded px EXCLUDE_DIRS item project_dir); split;
      intros [Hleft Hright]; split; auto; try discriminate.
    exfalso. auto.
  - intros item part0 rest Hin Hparts Hout.
    apply list_elem_of_filter. split; [|exact Hin].
    destruct (is_excluded px EXCLUDE_DIRS item project_dir) eqn:Hex;
      [|reflexivity].
    apply is_excluded_spec in Hex as (p & r & Hp & Hin').
    rewrite Hparts in Hp. injection Hp as <- <-. contradiction.
  - intros dirs item Hperm.
    destruct (is_excluded px EXCLUDE_DIRS item project_dir) eqn:Hex.
    + apply is_excluded_spec in Hex as (p & r & Hp & Hin).
      apply is_excluded_spec. exists p, r. split; [exact Hp|].
      rewrite Hperm. exact Hin.
    + destruct (is_excluded px dirs item project_dir) eqn:Hex'; [|reflexivity].
      apply is_excluded_spec in Hex' as (p & r & Hp & Hin).
      rewrite Hperm in Hin.
      assert (is_excluded px EXCLUDE_DIRS item project_dir = true) as Hyes
        by (apply is_excluded_spec; eauto).
      congruence.
Qed.

(** X13. The excluded name [docs/_build] never excludes anything: a
    component of a path has no separator in it, so no first component equals
    it, and a file below [docs/_build] is returned like any other file below
    [docs]. *)
Theorem find_python_files_ignores_docs_build project_dir s item :
  (∀ parts, path_parts_from px item project_dir = Some parts →
            Forall (λ part, is_component part = true) parts) →
  is_excluded px EXCLUDE_DIRS item project_dir
  = is_excluded px [".venv"; "venv"; "__pycache__"; ".git"; ".hg"; "dist"; "build"]
      item project_dir
  ∧ (∀ rest,
       item ∈ path_rglob px (fs (core s)) project_dir "*.py" →
       path_parts_from px item project_dir = Some ("docs" :: "_build" :: rest) →
       ∃ found, find_python_files px project_dir s = (Ok found, s)
                ∧ item ∈ found).
Proof.
  intros Hcomponents. split.
  - unfold EXCLUDE_DIRS. simpl.
    destruct (path_parts_from px item project_dir) as [[|part0 parts]|] eqn:Hparts;
      try reflexivity.
    specialize (Hcomponents _ eq_refl). inversion Hcomponents as [|? ? Hpart _].
    repeat (destruct (String.eqb part0 _); [reflexivity|]).
    destruct (String.eqb_spec part0 "docs/_build") as [->|]; [|reflexivity].
    discriminate Hpart.
  - intros rest Hin Hparts.
    exists (filter (λ item, is_excluded px EXCLUDE_DIRS item project_dir = false)
              (path_rglob px (fs (core s)) project_dir "*.py")).
    split.
    { unfold find_python_files, cbind, lift, get_fs, cret.
      destruct s; reflexivity. }
    apply list_elem_of_filter. split; [|exact Hin].
    unfold EXCLUDE_DIRS. simpl. rewrite Hparts. reflexivity.
Qed.

End Finder.

Section MainBlock.

Lemma prefix_spec needle hay :
  String.prefix needle hay = true ↔ ∃ post, hay = needle +:+ post.
Proof.
  revert hay. induction needle as [|c needle IH]; intros hay.
  - destruct hay; split; eauto.
  - destruct hay as [|c' hay].
    + split; [discriminate|]. intros [post Hpost]. discriminate.
    + cbn [String.prefix]. destruct (ascii_dec c c') as [->|Hne].
      * split.
        -- intros Hprefix. apply IH in Hprefix as [post ->]. exists post.
           reflexivity.
        -- intros [post Hpost]. apply IH. exists post.
           rewrite RefCodecFacts.append_cons in Hpost. congruence.
      * split; [discriminate|]. intros [post Hpost].
        rewrite RefCodecFacts.append_cons in Hpost. congruence.
Qed.

(** [needle in hay] holds exactly when [hay] is some text, the needle, some
    text. *)
Lemma contains_spec needle hay :
  PyText.contains needle hay = true
  ↔ ∃ pre post, hay = pre +:+ needle +:+ post.
Proof.
  induction hay as [|c hay IH]; cbn [PyText.contains].
  - rewrite orb_false_r, prefix_spec. split.
    + intros [post Hpost]. exists EmptyString, post. exact Hpost.
    + intros (pre & post & Heq). destruct pre; [eauto|discriminate].
  - rewrite orb_true_iff, prefix_spec, IH. split.
    + intros [[post Hpost]|(pre & post & Heq)].
      * exists EmptyString, post. exact Hpost.
      * exists (String c pre), post. rewrite RefCodecFacts.append_cons, Heq.
        reflexivity.
    + intros (pre & post & Heq). destruct pre as [|c' pre].
      * left. exists post. exact Heq.
      * right. rewrite RefCodecFacts.append_cons in Heq.
        injection Heq as _ Heq. eauto.
Qed.

(** X14. [check_for_main_block] never raises.  It answers true exactly when
    the path is a regular file whose text has one of the two spellings of
    the main test somewhere in it, and then changes nothing; when the file
    cannot be read it answers false and logs one warning. *)
Theorem check_for_main_block_spec file_path s :
  (fst (check_for_main_block file_path s) = Ok true
   ↔ ∃ content pre post marker,
       fs (core s) !! file_path = Some (File content)
       ∧ (marker = main_block_double ∨ marker = main_block_single)
       ∧ content = pre +:+ marker +:+ post)
  ∧ (∀ content, fs (core s) !! file_path = Some (File content) →
       snd (check_for_main_block file_path s) = s)
  ∧ ((∀ content, fs (core s) !! file_path ≠ Some (File content)) →
       fst (check_for_main_block file_path s) = Ok false
       ∧ ∃ e, notes (snd (check_for_main_block file_path s))
              = notes s ++ [(WARNING, Main_block_unreadable file_path e)])
  ∧ (∃ answer, fst (check_for_main_block file_path s) = Ok answer).
Proof.
  unfold check_for_main_block, ctry_except, cbind, lift, read_text, bind,
    get_fs, cnote, cret, raise, ret.
  destruct s as [σ ns lines shown]. simpl.
  destruct (fs σ !! file_path) as [[|content]|] eqn:Hnode; simpl.
  - split; [|split; [|split]]; eauto; try discriminate.
    split; [discriminate|]. intros (c & _ & _ & _ & Hc & _). discriminate.
  - split; [|split; [|split]]; eauto.
    + split.
      * intros [= Hc]. apply orb_true_iff in Hc.
        rewrite !contains_spec in Hc.
        destruct Hc as [(pre & post & Heq)|(pre & post & Heq)].
        -- exists content, pre, post, main_block_double. auto.
        -- exists content, pre, post, main_block_single. auto.
      * intros (c & pre & post & marker & [= <-] & Hmarker & Heq).
        f_equal. apply orb_true_iff. rewrite !contains_spec.
        destruct Hmarker as [-> | ->]; eauto.
    + intros Hnot. exfalso. exact (Hnot content eq_refl).
  - split; [|split; [|split]]; eauto; try discriminate.
    split; [discriminate|]. intros (c & _ & _ & _ & Hc & _). discriminate.
Qed.

End MainBlock.

Section Prompt.

Lemma prompt_loop_step prompt default_yes line rest shown :
  prompt_loop prompt default_yes (line :: rest) shown
  = match answer_of default_yes line with
    | Some answer => (Ok answer, rest, shown ++ [Prompted prompt])
    | None =>
        prompt_loop prompt default_yes rest (shown ++ asked_again prompt)
    end.
Proof.
  unfold answer_of, asked_again. simpl.
  destruct (Py.nonempty _); simpl; [|reflexivity].
  destruct (_ || _); [reflexivity|].
  destruct (_ || _); [reflexivity|].
  rewrite <- app_assoc. reflexivity.
Qed.

Lemma prompt_loop_skips prompt default_yes bad lines shown :
  Forall (λ line, answer_of default_yes line = None) bad →
  prompt_loop prompt default_yes (bad ++ lines) shown
  = prompt_loop prompt default_yes lines
      (shown ++ concat (map (λ _, asked_again prompt) bad)).
Proof.
  intros Hbad. revert shown.
  induction Hbad as [|line bad Hline _ IH]; intros shown.
  - simpl. rewrite app_nil_r. reflexivity.
  - rewrite <- app_comm_cons, prompt_loop_step, Hline, IH, <- app_assoc.
    reflexivity.
Qed.

(** X15. [prompt_yes_no] is decided by the first line of the standard input
    that is an answer (blank for the default, or y, yes, n, no in any case
    and with blanks around): it returns that answer, leaves the lines after
    it unread, and has shown the prompt once more than the reminder, one
    reminder for each line it passed over. *)
Theorem prompt_yes_no_first_answer question default_yes s bad good rest answer :
  stdin s = bad ++ good :: rest →
  Forall (λ line, answer_of default_yes line = None) bad →
  answer_of default_yes good = Some answer →
  prompt_yes_no question default_yes s
  = (Ok answer,
     {| core := core s; notes := notes s; stdin := rest;
        terminal :=
          terminal s
          ++ concat (map (λ _, asked_again (yes_no_prompt question default_yes)) bad)
          ++ [Prompted (yes_no_prompt question default_yes)] |}).
Proof.
  intros Hstdin Hbad Hgood.
  unfold prompt_yes_no. fold (yes_no_prompt question default_yes).
  rewrite Hstdin, (prompt_loop_skips _ _ _ _ _ Hbad), prompt_loop_step, Hgood.
  rewrite <- app_assoc. reflexivity.
Qed.

(** X16. When no line of the standard input is an answer, [prompt_yes_no]
    reads them all and ends in the [EOFError] of [input], after one reminder
    for each line. *)
Theorem prompt_yes_no_runs_out question default_yes s :
  Forall (λ line, answer_of default_yes line = None) (stdin s) →
  prompt_yes_no question default_yes s
  = (Raise (OtherError "EOFError"),
     {| core := core s; notes := notes s; stdin := [];
        terminal :=
          terminal s
          ++ concat (map (λ _, asked_again (yes_no_prompt question default_yes))
                       (stdin s))
          ++ [Prompted (yes_no_prompt question default_yes)] |}).
Proof.
  intros Hbad.
  unfold prompt_yes_no. fold (yes_no_prompt question default_yes).
  rewrite <- (app_nil_r (stdin s)) at 1.
  rewrite (prompt_loop_skips _ _ _ _ _ Hbad). simpl.
  rewrite <- app_assoc. reflexivity.
Qed.

Example answer_of_shouted_yes : answer_of false "  YES " = Some true.
Proof. reflexivity. Qed.

Example answer_of_blank_line : answer_of true "   " = Some true.
Proof. reflexivity. Qed.

Example answer_of_other_word : answer_of true "maybe" = None.
Proof. reflexivity. Qed.

End Prompt.

(** * Properties of the commands *)

Section EnsureVenv.

Context (w : World).

Lemma find_venv_answer project_dir σ :
  ∃ found, find_venv w project_dir σ = (Ok found, σ).
Proof.
  unfold find_venv, bind, get_fs, ret.
  destruct (_ && _); eauto.
Qed.

Lemma _ensure_venv_found project_dir create_if_missing s venv :
  fst (find_venv w project_dir (core s)) = Ok (Some venv) →
  _ensure_venv w project_dir create_if_missing s
  = (Ok venv, noted s INFO (Found_venv venv)).
Proof.
  destruct (find_venv_answer project_dir (core s)) as [found Hfound].
  rewrite Hfound. intros [= ->].
  unfold _ensure_venv, cbind, lift, cnote, cret, noted.
  rewrite Hfound. reflexivity.
Qed.

Lemma _ensure_venv_required project_dir s :
  fst (find_venv w project_dir (core s)) = Ok None →
  _ensure_venv w project_dir false s
  = (Raise (Exit 1),
     noted (noted s ERROR (No_venv project_dir)) INFO Run_init_hint).
Proof.
  destruct (find_venv_answer project_dir (core s)) as [found Hfound].
  rewrite Hfound. intros [= ->].
  unfold _ensure_venv, cbind, lift, cnote, cret, craise, noted.
  rewrite Hfound. reflexivity.
Qed.

(** X17. [_ensure_venv] raises nothing but [Exit(1)]: also when the
    interpreter that should create the environment cannot be found, where
    the runner raised [Exit(127)].  An environment that is there is returned
    with one record logged and nothing else touched; and when creation is
    not asked for, an absent environment ends the call without any process
    being launched. *)
Theorem ensure_venv_raises_only project_dir create_if_missing s :
  (∀ e, fst (_ensure_venv w project_dir create_if_missing s) = Raise e →
        e = Exit 1)
  ∧ (∀ venv,
       fst (find_venv w project_dir (core s)) = Ok (Some venv) →
       _ensure_venv w project_dir create_if_missing s
       = (Ok venv, noted s INFO (Found_venv venv)))
  ∧ (fst (find_venv w project_dir (core s)) = Ok None →
     create_if_missing = false →
     fst (_ensure_venv w project_dir create_if_missing s) = Raise (Exit 1)
     ∧ core (snd (_ensure_venv w project_dir create_if_missing s)) = core s).
Proof.
  split; [|split].
  - destruct (find_venv_answer project_dir (core s)) as [found Hfound].
    unfold _ensure_venv, cbind, ctry_except, lift, cnote, cret, craise.
    rewrite Hfound. simpl.
    intros e. destruct found as [venv|]; [discriminate|].
    destruct create_if_missing; simpl; [|intros [= <-]; reflexivity].
    destruct (run_cmd w _ _ _ _ _ _ (core s)) as [[[[rc out] err]|e0] σ'];
      simpl; [|intros [= <-]; reflexivity].
    destruct (rc =? 0); simpl; [discriminate|].
    destruct (Py.nonempty err); simpl; intros [= <-]; reflexivity.
  - apply _ensure_venv_found.
  - intros Hnone ->. rewrite (_ensure_venv_required _ _ Hnone).
    split; reflexivity.
Qed.

(** X18. When the environment is absent and creation is asked for,
    [_ensure_venv] calls [subprocess.run] once, with the interpreter of
    the current process, [-m venv] and the path of the environment.  When
    that process exits with 0 the path is returned at once, without looking
    for the marker again; when the launcher cannot find the interpreter the
    call ends in [Exit(1)]. *)
Theorem ensure_venv_creates project_dir s :
  fst (find_venv w project_dir (core s)) = Ok None →
  launched (core (snd (_ensure_venv w project_dir true s)))
  = launched (core s) ++ [venv_request w project_dir]
  ∧ (∀ out err fs',
       subprocess_run w (venv_request w project_dir) (fs (core s))
         = (Completed 0 out err, fs') →
       fst (_ensure_venv w project_dir true s)
       = Ok (joinpath w project_dir VENV_DIR_NAME)
       ∧ fs (core (snd (_ensure_venv w project_dir true s))) = fs')
  ∧ (∀ fs',
       subprocess_run w (venv_request w project_dir) (fs (core s))
         = (SpawnError FileNotFoundError, fs') →
       fst (_ensure_venv w project_dir true s) = Raise (Exit 1)).
Proof.
  intros Hnone.
  destruct (find_venv_answer project_dir (core s)) as [found Hfound].
  rewrite Hfound in Hnone. injection Hnone as ->.
  unfold _ensure_venv, cbind, ctry_except, lift, cnote, cret, craise.
  rewrite Hfound. simpl.
  pose proof (run_cmd_launches_once w
                (ArgList [sys_executable w; "-m"; "venv";
                          joinpath w project_dir VENV_DIR_NAME])
                (Some project_dir) false false None false (core s) eq_refl)
    as Hlaunch.
  fold (venv_request w project_dir) in Hlaunch.
  split; [|split].
  - destruct (run_cmd w _ _ _ _ _ _ (core s)) as [[[[rc out] err]|e0] σ'];
      simpl in *; [|exact Hlaunch].
    destruct (rc =? 0); simpl; [exact Hlaunch|].
    destruct (Py.nonempty err); simpl; exact Hlaunch.
  - intros out err fs' Hrun. unfold venv_request in Hrun.
    rewrite (run_cmd_completed w _ (Some project_dir) false false None false
               (core s) 0 out err fs' eq_refl Hrun).
    simpl. split; reflexivity.
  - intros fs' Hrun. unfold venv_request in Hrun.
    rewrite (run_cmd_spawn_error w _ (Some project_dir) false false None false
               (core s) FileNotFoundError fs' eq_refl Hrun).
    reflexivity.
Qed.

End EnsureVenv.

Section InterpreterRuns.

Context (w : World).

(** The interpreter variant, once the process has exited. *)
Lemma run_python_cmd_completed args venv_path cwd capture check env σ
    rc out err fs' :
  subprocess_run w
    (request_of w (ArgList (python_for w (fs σ) venv_path :: args))
       cwd capture env false) (fs σ)
    = (Completed rc out err, fs') →
  ∃ σ',
    run_python_cmd w args venv_path cwd capture check env σ
    = (if failed check rc then Raise (Exit 1)
       else Ok (rc, stripped out, stripped err), σ')
    ∧ fs σ' = fs'
    ∧ launched σ'
      = launched σ ++
          [request_of w (ArgList (python_for w (fs σ) venv_path :: args))
             cwd capture env false].
Proof.
  intros Hrun. rewrite run_python_cmd_unfold.
  rewrite <- (python_chosen_fs w venv_path σ) in Hrun at 2.
  rewrite (run_cmd_completed w _ cwd capture check env false _ rc out err fs'
             eq_refl Hrun).
  eexists. split; [reflexivity|]. simpl.
  rewrite python_chosen_launched. split; reflexivity.
Qed.

(** The interpreter variant, when the launcher does not find the
    interpreter. *)
Lemma run_python_cmd_not_found args venv_path cwd capture check env σ fs' :
  subprocess_run w
    (request_of w (ArgList (python_for w (fs σ) venv_path :: args))
       cwd capture env false) (fs σ)
    = (SpawnError FileNotFoundError, fs') →
  ∃ σ',
    run_python_cmd w args venv_path cwd capture check env σ
    = (Raise (Exit 127), σ')
    ∧ fs σ' = fs'
    ∧ launched σ'
      = launched σ ++
          [request_of w (ArgList (python_for w (fs σ) venv_path :: args))
             cwd capture env false].
Proof.
  intros Hrun. rewrite run_python_cmd_unfold.
  rewrite <- (python_chosen_fs w venv_path σ) in Hrun at 2.
  rewrite (run_cmd_spawn_error w _ cwd capture check env false _
             FileNotFoundError fs' eq_refl Hrun).
  eexists. split; [reflexivity|]. simpl.
  rewrite python_chosen_launched. split; reflexivity.
Qed.

Lemma write_text_cases parent path text σ :
  write_text parent path text σ
  = if writable (fs σ) parent path
    then (Ok tt, {| fs := <[path := File text]> (fs σ);
                    launched := launched σ; logs := logs σ;
                    echoed := echoed σ |})
    else (Raise match fs σ !! path, fs σ !! parent with
                | Some Dir, _ => IsADirectoryError
                | _, Some (File _) => OtherError "NotADirectoryError"
                | _, _ => FileNotFoundError
                end, σ).
Proof.
  unfold write_text, writable, Pathlib.is_dir.
  destruct (fs σ !! path) as [[|content]|]; try reflexivity.
  destruct (fs σ !! parent) as [[|content]|]; reflexivity.
Qed.

End InterpreterRuns.

Section LockDeps.

Context (w : World) (px : Paths).

Lemma get_project_dir_cases dir_arg s :
  get_project_dir w px dir_arg s
  = match dir_arg with
    | Some dir =>
        if Pathlib.is_dir (fs (core s)) (path_resolve px (fs (core s)) dir)
        then (Ok (path_resolve px (fs (core s)) dir), s)
        else (Raise (Exit 1), noted s ERROR (Directory_not_found dir))
    | None => (Ok (path_resolve px (fs (core s)) (getcwd w)), s)
    end.
Proof.
  unfold get_project_dir, cbind, lift, get_fs, cnote, cret, craise, noted.
  destruct s as [σ ns ls ts]. simpl.
  destruct dir_arg as [dir|]; [|reflexivity].
  destruct (Pathlib.is_dir _ _); reflexivity.
Qed.

Lemma get_project_dir_returns dir_arg s project_dir :
  fst (get_project_dir w px dir_arg s) = Ok project_dir →
  get_project_dir w px dir_arg s = (Ok project_dir, s).
Proof.
  rewrite get_project_dir_cases.
  destruct dir_arg as [dir|]; [destruct (Pathlib.is_dir _ _)|];
    simpl; intros [= <-]; reflexivity.
Qed.

(** What [lock_deps] does once the directory and its environment are
    found and [pip freeze] has exited. *)
Lemma lock_deps_frozen dir output_file s project_dir venv rc out err fs' :
  fst (get_project_dir w px dir s) = Ok project_dir →
  fst (find_venv w project_dir (core s)) = Ok (Some venv) →
  subprocess_run w (freeze_request w (fs (core s)) venv project_dir)
    (fs (core s)) = (Completed rc out err, fs') →
  ∃ s',
    lock_deps w px dir output_file s
    = (if (rc =? 0)
          && writable fs'
               (path_parent px (lock_path w project_dir output_file))
               (lock_path w project_dir output_file)
       then Ok tt else Raise (Exit 1), s')
    ∧ launched (core s')
      = launched (core s) ++ [freeze_request w (fs (core s)) venv project_dir]
    ∧ fs (core s')
      = (if (rc =? 0)
            && writable fs'
                 (path_parent px (lock_path w project_dir output_file))
                 (lock_path w project_dir output_file)
         then <[lock_path w project_dir output_file := File (stripped out)]> fs'
         else fs')
    ∧ ((rc =? 0)
       && writable fs'
            (path_parent px (lock_path w project_dir output_file))
            (lock_path w project_dir output_file) = true →
       last (notes s')
       = Some (INFO, Wrote_pins (PyText.count_lines (stripped out))
                       (lock_path w project_dir output_file))).
Proof.
  intros Hdir Hvenv Hrun.
  unfold lock_deps. unfold cbind at 1.
  rewrite (get_project_dir_returns _ _ _ Hdir).
  unfold cbind at 1. rewrite (_ensure_venv_found w _ false _ _ Hvenv).
  fold (lock_path w project_dir output_file).
  unfold freeze_request in Hrun.
  destruct (run_python_cmd_completed w ["-m"; "pip"; "freeze"] (Some venv)
              (Some project_dir) true false None (core s) rc out err fs' Hrun)
    as (σ' & Hpip & Hfs & Hlaunched).
  unfold cbind at 1, cnote at 1. unfold ctry_except, cbind at 1, lift at 1.
  unfold run_pip_cmd. cbn [core noted]. simpl app. rewrite Hpip.
  unfold failed. simpl andb. cbv iota.
  destruct (rc =? 0); simpl negb; cbv iota.
  - unfold cbind, cret, lift, cnote. cbn [core notes stdin terminal].
    rewrite write_text_cases, Hfs.
    destruct (writable fs' _ _); simpl.
    + eexists. split; [reflexivity|]. simpl.
      split; [exact Hlaunched|]. split; [reflexivity|].
      intros _. apply last_snoc.
    + eexists. split; [reflexivity|]. simpl.
      split; [exact Hlaunched|]. split; [exact Hfs|]. discriminate.
  - unfold cbind, cret, lift, cnote, craise, echo.
    cbn [core notes stdin terminal].
    destruct (Py.nonempty (stripped err)); simpl;
      (eexists; split; [reflexivity|]; simpl;
       split; [exact Hlaunched|]; split; [exact Hfs|]; discriminate).
Qed.

(** X19. With the directory and its environment found, [lock_deps] calls
    [subprocess.run] once, with [<python> -m pip freeze] of the
    environment and with capture.  When that process exits with 0 and the
    lock file can be opened, the file holds exactly the stripped output, the
    number of its lines is logged, and the command returns; the file is
    [requirements.lock] in the project unless another name is given. *)
Theorem lock_deps_writes_frozen_output dir output_file s project_dir venv
    out err fs' :
  fst (get_project_dir w px dir s) = Ok project_dir →
  fst (find_venv w project_dir (core s)) = Ok (Some venv) →
  subprocess_run w (freeze_request w (fs (core s)) venv project_dir)
    (fs (core s)) = (Completed 0 out err, fs') →
  writable fs' (path_parent px (lock_path w project_dir output_file))
    (lock_path w project_dir output_file) = true →
  fst (lock_deps w px dir output_file s) = Ok tt
  ∧ launched (core (snd (lock_deps w px dir output_file s)))
    = launched (core s) ++ [freeze_request w (fs (core s)) venv project_dir]
  ∧ fs (core (snd (lock_deps w px dir output_file s)))
    = <[lock_path w project_dir output_file := File (stripped out)]> fs'
  ∧ last (notes (snd (lock_deps w px dir output_file s)))
    = Some (INFO, Wrote_pins (PyText.count_lines (stripped out))
                    (lock_path w project_dir output_file))
  ∧ lock_path w project_dir None = joinpath w project_dir "requirements.lock".
Proof.
  intros Hdir Hvenv Hrun Hopen.
  destruct (lock_deps_frozen dir output_file s project_dir venv 0 out err fs'
              Hdir Hvenv Hrun) as (s' & -> & Hlaunched & Hfs & Hnote).
  rewrite Hopen in *. simpl in *.
  repeat split; auto.
Qed.

(** X20. [lock_deps] raises nothing but [Exit(1)].  Without an environment
    in the project it ends so with no process launched and no file
    touched; and when [pip freeze] exits with another status than 0, or
    the lock file cannot be opened, it ends so with the files as the
    process left them: no lock file is written. *)
Theorem lock_deps_raises_only dir output_file s :
  (∀ e, fst (lock_deps w px dir output_file s) = Raise e → e = Exit 1)
  ∧ (∀ project_dir,
       fst (get_project_dir w px dir s) = Ok project_dir →
       fst (find_venv w project_dir (core s)) = Ok None →
       fst (lock_deps w px dir output_file s) = Raise (Exit 1)
       ∧ core (snd (lock_deps w px dir output_file s)) = core s)
  ∧ (∀ project_dir venv rc out err fs',
       fst (get_project_dir w px dir s) = Ok project_dir →
       fst (find_venv w project_dir (core s)) = Ok (Some venv) →
       subprocess_run w (freeze_request w (fs (core s)) venv project_dir)
         (fs (core s)) = (Completed rc out err, fs') →
       rc ≠ 0
       ∨ writable fs' (path_parent px (lock_path w project_dir output_file))
           (lock_path w project_dir output_file) = false →
       fst (lock_deps w px dir output_file s) = Raise (Exit 1)
       ∧ fs (core (snd (lock_deps w px dir output_file s))) = fs').
Proof.
  split; [|split].
  - intros e. unfold lock_deps. unfold cbind at 1.
    rewrite get_project_dir_cases.
    destruct dir as [d|]; [destruct (Pathlib.is_dir _ _)|];
      [| simpl; intros [= <-]; reflexivity |];
      unfold cbind at 1;
      match goal with
      | |- context [_ensure_venv w ?project_dir false s] =>
          destruct (find_venv_answer w project_dir (core s))
            as [[venv|] Hfound];
          [ rewrite (_ensure_venv_found w project_dir false s venv)
              by (rewrite Hfound; reflexivity);
            unfold cbind at 1, cnote at 1; unfold ctry_except;
            match goal with
            | |- fst (match ?body ?s0 with _ => _ end) = _ → _ =>
                destruct (body s0) as [[[]|e0] s1]
            end; simpl; [discriminate|]; intros [= <-]; reflexivity
          | rewrite (_ensure_venv_required w project_dir s)
              by (rewrite Hfound; reflexivity);
            simpl; intros [= <-]; reflexivity ]
      end.
  - intros project_dir Hdir Hnone.
    assert (lock_deps w px dir output_file s
            = (Raise (Exit 1),
               noted (noted s ERROR (No_venv project_dir)) INFO Run_init_hint))
      as ->.
    { unfold lock_deps. unfold cbind at 1.
      rewrite (get_project_dir_returns _ _ _ Hdir).
      unfold cbind at 1. rewrite (_ensure_venv_required w _ _ Hnone).
      reflexivity. }
    split; reflexivity.
  - intros project_dir venv rc out err fs' Hdir Hvenv Hrun Hwhy.
    destruct (lock_deps_frozen dir output_file s project_dir venv rc out err
                fs' Hdir Hvenv Hrun) as (s' & -> & _ & Hfs & _).
    assert ((rc =? 0)
            && writable fs'
                 (path_parent px (lock_path w project_dir output_file))
                 (lock_path w project_dir output_file) = false) as Hno.
    { destruct Hwhy as [Hrc| ->]; [|apply andb_false_r].
      apply Z.eqb_neq in Hrc. rewrite Hrc. reflexivity. }
    rewrite Hno in *. simpl. split; [reflexivity|exact Hfs].
Qed.

End LockDeps.

Section RunScript.

Context (w : World) (px : Paths) {codec : JsonCodec}.

Lemma is_dir_not_file files p :
  Pathlib.is_dir files p = true → Pathlib.is_file files p = false.
Proof.
  unfold Pathlib.is_dir, Pathlib.is_file.
  destruct (files !! p) as [[|content]|]; [reflexivity|discriminate..].
Qed.

Lemma read_config_keeps project_dir σ :
  fs (snd (read_config w project_dir σ)) = fs σ
  ∧ launched (snd (read_config w project_dir σ)) = launched σ.
Proof.
  rewrite read_config_cases.
  destruct (fs σ !! _) as [[|text]|]; [| destruct (json_loads text) |];
    split; reflexivity.
Qed.

(** X21. Given a Python file, [run_script] runs it once with the
    interpreter of the environment beside it (or of the current process),
    in the directory of the file, outside the shell and without check.
    Whatever status the script exits with, the command returns normally:
    another status than 0 is only logged as a warning. *)
Theorem run_script_ignores_script_status target args s venv_path rc out err fs' :
  let script := script_target px s target in
  let project_dir := path_parent px script in
  let request :=
    script_request w (fs (core s)) venv_path project_dir script (default [] args) in
  Pathlib.is_file (fs (core s)) script = true →
  path_suffix px script = ".py" →
  fst (find_venv w project_dir (core s)) = Ok venv_path →
  subprocess_run w request (fs (core s)) = (Completed rc out err, fs') →
  fst (run_script w px target args s) = Ok tt
  ∧ launched (core (snd (run_script w px target args s)))
    = launched (core s) ++ [request]
  ∧ (rc ≠ 0 →
     last (notes (snd (run_script w px target args s)))
     = Some (WARNING, Script_status rc)).
Proof.
  intros script project_dir request Hfile Hsuffix Hvenv Hrun.
  subst request. unfold script_request in Hrun.
  destruct (find_venv_answer w project_dir (core s)) as [found Hfound].
  rewrite Hfound in Hvenv. injection Hvenv as ->.
  destruct (run_python_cmd_completed w (script :: default [] args) venv_path
              (Some project_dir) false false None (core s) rc out err fs' Hrun)
    as (σ' & Hpy & Hfs & Hlaunched).
  unfold run_script, run_target, cbind, ctry_except, lift, get_fs, cnote, cret.
  cbn [core notes stdin terminal].
  fold (script_target px s target). fold script.
  rewrite Hfile, Hsuffix. cbn [String.eqb Ascii.eqb Bool.eqb andb].
  cbn [core notes stdin terminal]. fold project_dir. rewrite Hfound.
  cbn [core notes stdin terminal].
  unfold failed in Hpy. simpl in Hpy.
  destruct venv_path as [venv|];
    [|destruct (os_environ w !! "VIRTUAL_ENV") as [[|c active]|]];
    cbn [core notes stdin terminal]; rewrite Hpy;
    cbn [core notes stdin terminal].
  all: destruct (Z.eqb_spec rc 0) as [Hrc|Hrc]; simpl;
    (split; [reflexivity|]; split; [exact Hlaunched|]);
    intros Hnot; [contradiction | apply last_snoc].
Qed.

(** X22. When the launcher does not find the interpreter, [run_script]
    ends in [Exit(127)], the code the runner raised, after logging that
    the script was not executed. *)
Theorem run_script_interpreter_not_found target args s venv_path fs' :
  let script := script_target px s target in
  let project_dir := path_parent px script in
  let request :=
    script_request w (fs (core s)) venv_path project_dir script (default [] args) in
  Pathlib.is_file (fs (core s)) script = true →
  path_suffix px script = ".py" →
  fst (find_venv w project_dir (core s)) = Ok venv_path →
  subprocess_run w request (fs (core s)) = (SpawnError FileNotFoundError, fs') →
  fst (run_script w px target args s) = Raise (Exit 127)
  ∧ last (notes (snd (run_script w px target args s)))
    = Some (ERROR, Script_not_executed).
Proof.
  intros script project_dir request Hfile Hsuffix Hvenv Hrun.
  subst request. unfold script_request in Hrun.
  destruct (find_venv_answer w project_dir (core s)) as [found Hfound].
  rewrite Hfound in Hvenv. injection Hvenv as ->.
  destruct (run_python_cmd_not_found w (script :: default [] args) venv_path
              (Some project_dir) false false None (core s) fs' Hrun)
    as (σ' & Hpy & Hfs & Hlaunched).
  unfold run_script, run_target, cbind, ctry_except, lift, get_fs, cnote, cret.
  cbn [core notes stdin terminal].
  fold (script_target px s target). fold script.
  rewrite Hfile, Hsuffix. cbn [String.eqb Ascii.eqb Bool.eqb andb].
  cbn [core notes stdin terminal]. fold project_dir. rewrite Hfound.
  cbn [core notes stdin terminal].
  destruct venv_path as [venv|];
    [|destruct (os_environ w !! "VIRTUAL_ENV") as [[|c active]|]];
    cbn [core notes stdin terminal]; rewrite Hpy; simpl;
    (split; [reflexivity | apply last_snoc]).
Qed.

(** X23. Given a directory whose configuration has no [main], or a
    [main] that counts as false, [run_script] ends in [Exit(1)] after
    logging the error, and launches nothing. *)
Theorem run_script_directory_without_main target args s members :
  let project_dir := script_target px s target in
  Pathlib.is_dir (fs (core s)) project_dir = true →
  fst (read_config w project_dir (core s)) = Ok (JObj members) →
  from_option truthy false (dict_get "main" members) = false →
  fst (run_script w px target args s) = Raise (Exit 1)
  ∧ launched (core (snd (run_script w px target args s))) = launched (core s)
  ∧ (ERROR, No_main_configured project_dir)
    ∈ notes (snd (run_script w px target args s)).
Proof.
  intros project_dir Hdir Hconfig Hmain.
  pose proof (read_config_keeps project_dir (core s)) as [_ Hkept].
  unfold run_script, run_target, cbind, ctry_except, lift, get_fs, cnote, cret,
    craise, config_get.
  cbn [core notes stdin terminal].
  fold (script_target px s target). fold project_dir.
  rewrite (is_dir_not_file _ _ Hdir), Hdir. cbn [andb].
  cbn [core notes stdin terminal].
  destruct (read_config w project_dir (core s)) as [r σ'].
  simpl in Hconfig, Hkept. subst r. cbn [core notes stdin terminal].
  unfold cret. cbn [core notes stdin terminal].
  destruct (dict_get "main" members) as [main|]; simpl in Hmain;
    [rewrite Hmain|]; simpl;
    (split; [reflexivity|]; split; [exact Hkept|]);
    apply elem_of_app; left; apply elem_of_app; right; left.
Qed.

End RunScript.

Section ModuleArgv.

Lemma rev_app_append s t u :
  String.rev_app s (t +:+ u) = String.rev_app s t +:+ u.
Proof.
  revert t. induction s as [|c s IH]; intros t; simpl; [reflexivity|].
  rewrite <- RefCodecFacts.append_cons. apply IH.
Qed.

Lemma rev_cons c s :
  String.rev (String c s) = String.rev s +:+ String c EmptyString.
Proof. apply (rev_app_append s EmptyString (String c EmptyString)). Qed.

Lemma rev_append s t : String.rev (s +:+ t) = String.rev t +:+ String.rev s.
Proof.
  induction s as [|c s IH].
  - change (String.rev EmptyString) with EmptyString.
    rewrite RefCodecFacts.append_nil_r. reflexivity.
  - rewrite RefCodecFacts.append_cons, !rev_cons, IH,
      RefCodecFacts.append_assoc. reflexivity.
Qed.

Lemma rev_involutive s : String.rev (String.rev s) = s.
Proof.
  induction s as [|c s IH]; [reflexivity|].
  rewrite rev_cons, rev_append, IH. reflexivity.
Qed.

Lemma length_rev s : String.length (String.rev s) = String.length s.
Proof.
  induction s as [|c s IH]; [reflexivity|].
  rewrite rev_cons, RefCodecFacts.length_append, IH. simpl. lia.
Qed.

Lemma lstrip_char_length c s :
  (String.length (PyText.lstrip_char c s) <= String.length s)%nat.
Proof.
  induction s as [|a s IH]; simpl; [lia|].
  destruct (Ascii.eqb a c); simpl; lia.
Qed.

Lemma lstrip_char_fixed c s :
  String.length (PyText.lstrip_char c s) = String.length s →
  PyText.lstrip_char c s = s.
Proof.
  destruct s as [|a s]; simpl; [reflexivity|].
  destruct (Ascii.eqb a c); [|reflexivity].
  pose proof (lstrip_char_length c s). lia.
Qed.

Lemma strip_char_length c s :
  (String.length (PyText.strip_char c s) <= String.length s)%nat.
Proof.
  unfold PyText.strip_char. rewrite length_rev.
  pose proof (lstrip_char_length c (String.rev (PyText.lstrip_char c s))).
  pose proof (lstrip_char_length c s).
  rewrite length_rev in *. lia.
Qed.

(** A text that [strip] leaves alone neither begins nor ends with the
    character. *)
Lemma strip_char_fixed c s :
  PyText.strip_char c s = s →
  PyText.lstrip_char c s = s
  ∧ PyText.lstrip_char c (String.rev s) = String.rev s.
Proof.
  intros Hfixed.
  assert (String.length (PyText.strip_char c s) = String.length s) as Hlen
    by (rewrite Hfixed; reflexivity).
  unfold PyText.strip_char in Hlen. rewrite length_rev in Hlen.
  pose proof (lstrip_char_length c (String.rev (PyText.lstrip_char c s))) as H1.
  pose proof (lstrip_char_length c s) as H2.
  rewrite length_rev in H1.
  assert (PyText.lstrip_char c s = s) as Hleft
    by (apply lstrip_char_fixed; lia).
  split; [exact Hleft|].
  rewrite Hleft in Hlen. apply lstrip_char_fixed.
  rewrite Hlen, length_rev. reflexivity.
Qed.

Lemma cut_at_blank_none_append s t :
  PyText.cut_at_blank s = None →
  PyText.cut_at_blank (s +:+ t)
  = match PyText.cut_at_blank t with
    | Some (before, after) => Some (s +:+ before, after)
    | None => None
    end.
Proof.
  induction s as [|c s IH].
  - intros _. change (EmptyString +:+ t) with t.
    destruct (PyText.cut_at_blank t) as [[before after]|]; reflexivity.
  - rewrite RefCodecFacts.append_cons. cbn [PyText.cut_at_blank].
    destruct (Ascii.eqb c " "); [discriminate|].
    destruct (PyText.cut_at_blank s) as [[before after]|] eqn:Hcut;
      [discriminate|].
    intros _. rewrite IH by reflexivity.
    destruct (PyText.cut_at_blank t) as [[before after]|]; reflexivity.
Qed.

Lemma cut_at_blank_some_append s t before after :
  PyText.cut_at_blank s = Some (before, after) →
  PyText.cut_at_blank (s +:+ t) = Some (before, after +:+ t).
Proof.
  revert before. induction s as [|c s IH]; intros before.
  - discriminate.
  - rewrite RefCodecFacts.append_cons. cbn [PyText.cut_at_blank].
    destruct (Ascii.eqb c " "); [intros [= <- <-]; reflexivity|].
    destruct (PyText.cut_at_blank s) as [[before' after']|]; [|discriminate].
    intros [= <- <-]. rewrite (IH before') by reflexivity. reflexivity.
Qed.

Lemma cut_at_blank_length s before after :
  PyText.cut_at_blank s = Some (before, after) →
  String.length s = (String.length before + 1 + String.length after)%nat.
Proof.
  revert before. induction s as [|c s IH]; simpl; intros before.
  - discriminate.
  - destruct (Ascii.eqb c " "); [intros [= <- <-]; simpl; lia|].
    destruct (PyText.cut_at_blank s) as [[before' after']|]; [|discriminate].
    intros [= <- <-]. simpl. rewrite (IH before') by reflexivity. lia.
Qed.

Lemma render_has_module_flag py m :
  PyText.contains " -m " (render (ModuleInvocation py m)) = true.
Proof.
  apply contains_spec.
  exists (String Py.dquote py +:+ String Py.dquote EmptyString), m.
  unfold render. rewrite !RefCodecFacts.append_cons.
  rewrite RefCodecFacts.append_assoc. reflexivity.
Qed.

(** X24. Taking a module invocation apart gives back what it was rendered
    from: when the interpreter's path has no blank in it and no double
    quote at either end, the string of [get_executable] for
    [(interpreter, module)] becomes the three arguments
    [interpreter, -m, module] in place of the first element of the
    command, and the other elements stay. *)
Theorem module_argv_of_rendered py m first args :
  PyText.cut_at_blank py = None →
  PyText.strip_char Py.dquote py = py →
  module_argv (render (ModuleInvocation py m)) (first :: args)
  = py :: "-m" :: m :: args.
Proof.
  intros Hblank Hquote.
  apply strip_char_fixed in Hquote as [Hleft Hright].
  unfold module_argv. rewrite render_has_module_flag.
  assert (render (ModuleInvocation py m)
          = (String Py.dquote py +:+ String Py.dquote EmptyString)
            +:+ String " " ("-m " +:+ m)) as ->.
  { unfold render. rewrite !RefCodecFacts.append_cons.
    rewrite RefCodecFacts.append_assoc. reflexivity. }
  cbn [PyText.split_blank].
  rewrite cut_at_blank_none_append.
  2:{ rewrite RefCodecFacts.append_cons. cbn [PyText.cut_at_blank].
      replace (Ascii.eqb Py.dquote " ") with false by reflexivity.
      rewrite cut_at_blank_none_append by exact Hblank. reflexivity. }
  cbn [PyText.cut_at_blank Ascii.eqb Bool.eqb].
  rewrite RefCodecFacts.append_nil_r.
  simpl PyText.cut_at_blank. cbn [tail app].
  f_equal.
  unfold PyText.strip_char. rewrite RefCodecFacts.append_cons.
  cbn [PyText.lstrip_char].
  replace (Ascii.eqb Py.dquote Py.dquote) with true by reflexivity.
  destruct py as [|c py].
  - reflexivity.
  - rewrite RefCodecFacts.append_cons.
    cbn [PyText.lstrip_char] in Hleft |- *.
    destruct (Ascii.eqb c Py.dquote) eqn:Hc.
    + pose proof (lstrip_char_length Py.dquote py) as Hlen.
      rewrite Hleft in Hlen. simpl in Hlen. lia.
    + rewrite <- RefCodecFacts.append_cons, rev_append.
      change (String.rev (String Py.dquote EmptyString))
        with (String Py.dquote EmptyString).
      rewrite RefCodecFacts.append_cons.
      change (EmptyString +:+ String.rev (String c py))
        with (String.rev (String c py)).
      cbn [PyText.lstrip_char].
      replace (Ascii.eqb Py.dquote Py.dquote) with true by reflexivity.
      rewrite Hright. apply rev_involutive.
Qed.

(** X25. An interpreter's path with a blank in it does not survive: the
    string is split at its first two blanks, so the first argument of the
    rebuilt command is only the text before the path's first blank, which
    is shorter than the path. *)
Theorem module_argv_cuts_path_at_blank py m cmd before after :
  PyText.cut_at_blank py = Some (before, after) →
  ∃ rest,
    module_argv (render (ModuleInvocation py m)) cmd
    = PyText.strip_char Py.dquote before :: rest
    ∧ (String.length (PyText.strip_char Py.dquote before) < String.length py)%nat.
Proof.
  intros Hcut.
  unfold module_argv. rewrite render_has_module_flag.
  assert (PyText.cut_at_blank (render (ModuleInvocation py m))
          = Some (String Py.dquote before,
                  after +:+ String Py.dquote (" -m " +:+ m))) as Hfirst.
  { unfold render. rewrite RefCodecFacts.append_cons.
    cbn [PyText.cut_at_blank].
    replace (Ascii.eqb Py.dquote " ") with false by reflexivity.
    rewrite (cut_at_blank_some_append _ _ _ _ Hcut). reflexivity. }
  cbn [PyText.split_blank]. rewrite Hfirst.
  eexists. split.
  - unfold PyText.strip_char at 1. cbn [PyText.lstrip_char].
    replace (Ascii.eqb Py.dquote Py.dquote) with true by reflexivity.
    reflexivity.
  - pose proof (strip_char_length Py.dquote before).
    rewrite (cut_at_blank_length _ _ _ Hcut). lia.
Qed.

End ModuleArgv.

(** * The further properties on the concrete hosts *)

Module EdgeWitnesses.

Import Demo.

Lemma run_cmd_raises_only_witness :
  let w0 := host 1 1 in
  let σ0 := boot bare_venv in
  let cmd := ArgList ["twine"; "upload"] in
  fst (run_cmd w0 cmd None false true None false σ0) = Raise (Exit 127)
  ∧ (Exit 127 = Exit 1
     ∨ (Exit 127 = Exit 127
        ∧ fst (subprocess_run w0 (request_of w0 cmd None false None false) (fs σ0))
          = SpawnError FileNotFoundError)
     ∨ (Exit 127 = IndexError
        ∧ command_name (quoted cmd false) = None
        ∧ fst (subprocess_run w0 (request_of w0 cmd None false None false) (fs σ0))
          = SpawnError FileNotFoundError)).
Proof.
  intros w0 σ0 cmd.
  assert (fst (run_cmd w0 cmd None false true None false σ0) = Raise (Exit 127))
    as Hraise by (vm_compute; reflexivity).
  split; [exact Hraise|].
  exact (run_cmd_raises_only w0 cmd None false true None false σ0 (Exit 127)
           Hraise).
Defined.

Lemma run_cmd_blank_command_line_witness :
  let w0 := host 1 1 in
  let σ0 := boot bare_venv in
  Py.first_word " " = None
  ∧ fst (run_cmd w0 (CmdLine " ") None false true None false σ0) = Raise IndexError
  ∧ process_exit_code
      (fst (run_cmd w0 (CmdLine " ") None false true None false σ0)) = 1
  ∧ logs (snd (run_cmd w0 (CmdLine " ") None false true None false σ0))
    = logs σ0 ++ [(DEBUG, Running_command (CmdLine " ") (default (getcwd w0) None))].
Proof.
  intros w0 σ0. split; [reflexivity|].
  apply (run_cmd_blank_command_line w0 " " None false true None σ0 (fs σ0));
    vm_compute; reflexivity.
Defined.

Lemma run_cmd_passes_plain_arguments_witness :
  let w0 := host 1 1 in
  let args := ["twine"; "upload"; "dist/*"] in
  ∃ sent,
    req_cmd <$> last (launched (snd (run_cmd w0 (ArgList args) None false true
                                       None false (boot bare_venv))))
    = Some (ArgList sent)
    ∧ sent !! 0%nat = Some "twine"
    ∧ ∃ body, sent !! 2%nat
              = Some (String Py.squote body +:+ String Py.squote EmptyString).
Proof.
  intros w0 args.
  destruct (run_cmd_passes_plain_arguments w0 args None false true None
              (boot bare_venv)) as (sent & Hsent & _ & Hplain & Hquoted).
  exists sent. split; [exact Hsent|]. split.
  - exact (Hplain 0%nat "twine" eq_refl eq_refl).
  - exact (Hquoted 2%nat "dist/*" eq_refl eq_refl).
Defined.

Lemma run_pip_cmd_request_witness :
  let w0 := host 1 0 in
  let σ0 := boot unmarked_venv in
  Pathlib.exists_ (fs σ0) (venv_python w0 "/work/.venv") = false
  ∧ python_for w0 (fs σ0) (Some "/work/.venv") = sys_executable w0
  ∧ (WARNING, Venv_python_missing "/work/.venv")
    ∈ logs (snd (run_pip_cmd w0 ["freeze"] (Some "/work/.venv") (Some "/work")
                   true false None σ0)).
Proof.
  intros w0 σ0.
  assert (Pathlib.exists_ (fs σ0) (venv_python w0 "/work/.venv") = false)
    as Hmissing by (vm_compute; reflexivity).
  split; [exact Hmissing|].
  pose proof (run_pip_cmd_request w0 ["freeze"] (Some "/work/.venv")
                (Some "/work") true false None σ0) as (_ & _ & Hwarn & _).
  exact (Hwarn "/work/.venv" eq_refl Hmissing).
Defined.

Lemma ensure_tool_installed_installs_when_unverified_witness :
  let w0 := host 1 0 in
  let σ0 := boot bare_venv in
  installer_calls
    (snd (ensure_tool_installed w0 "build" "build" (Some "/work/.venv") "/work"
            None None σ0))
  = installer_calls σ0
    ++ [install_request w0 (Some "/work/.venv") "/work" "build" (fs σ0)].
Proof.
  intros w0 σ0.
  pose proof (ensure_tool_installed_installs_when_unverified w0 "build" "build"
                (Some "/work/.venv") "/work" σ0) as [_ Halways].
  exact (Halways None None (or_introl eq_refl) (or_introl eq_refl)).
Defined.

Lemma ensure_tool_installed_raises_only_witness :
  let w0 := host 1 1 in
  let σ0 := boot bare_venv in
  let call :=
    ensure_tool_installed w0 "black" "black" (Some "/work/.venv") "/work"
      (Some ["black"]) None σ0 in
  fst call = Raise (Exit 1)
  ∧ (Exit 1 = Exit 1 ∨ Exit 1 = Exit 127)
  ∧ last (logs (snd call)) = Some (ERROR, Tool_install_failed "black" "black").
Proof.
  intros w0 σ0 call.
  assert (fst call = Raise (Exit 1)) as Hraise by (vm_compute; reflexivity).
  split; [exact Hraise|].
  exact (ensure_tool_installed_raises_only w0 "black" "black"
           (Some "/work/.venv") "/work" (Some ["black"]) None σ0 (Exit 1) Hraise).
Defined.

Lemma write_then_read_config_witness :
  let w0 := host 0 0 in
  let σ0 := boot unmarked_venv in
  json_wf main_document = true
  ∧ fs σ0 !! joinpath w0 "/work" CONFIG_FILE_NAME = None
  ∧ fs σ0 !! "/work" = Some Dir
  ∧ fst (read_config w0 (codec := RefCodec.codec) "/work"
           (snd (write_config w0 (codec := RefCodec.codec) "/work"
                   main_document σ0)))
    = Ok main_document.
Proof.
  intros w0 σ0.
  assert (fs σ0 !! joinpath w0 "/work" CONFIG_FILE_NAME = None) as Hnew
    by (vm_compute; reflexivity).
  assert (fs σ0 !! "/work" = Some Dir) as Hdir by (vm_compute; reflexivity).
  split; [reflexivity|]. split; [exact Hnew|]. split; [exact Hdir|].
  apply (write_then_read_config w0 (laws := RefCodecFacts.laws) "/work"
           main_document σ0).
  - reflexivity.
  - rewrite Hnew. discriminate.
  - intros _. exact Hdir.
Defined.

Lemma update_config_value_starts_afresh_witness :
  let w0 := host 0 0 in
  let σ0 := boot corrupted in
  let call :=
    update_config_value w0 (codec := RefCodec.codec) "/work" "use_env_key"
      (JBool true) σ0 in
  (∃ text, fs σ0 !! joinpath w0 "/work" CONFIG_FILE_NAME = Some (File text)
           ∧ RefCodec.loads text = None)
  ∧ fst call = Ok tt
  ∧ fs (snd call)
    = <[joinpath w0 "/work" CONFIG_FILE_NAME
        := File (RefCodec.dumps (JObj [("use_env_key", JBool true)]))]> (fs σ0)
  ∧ fst (read_config w0 (codec := RefCodec.codec) "/work" (snd call))
    = Ok (JObj [("use_env_key", JBool true)]).
Proof.
  intros w0 σ0 call.
  assert (∃ text, fs σ0 !! joinpath w0 "/work" CONFIG_FILE_NAME = Some (File text)
                  ∧ RefCodec.loads text = None) as Hbroken.
  { exists "{main". split; vm_compute; reflexivity. }
  split; [exact Hbroken|].
  destruct (update_config_value_starts_afresh w0 (laws := RefCodecFacts.laws)
              "/work" "use_env_key" (JBool true) σ0 (or_intror Hbroken))
    as (Hok & Hfs & Hread).
  split; [exact Hok|]. split; [exact Hfs|]. exact (Hread eq_refl).
Defined.

Lemma update_config_value_needs_object_witness :
  let w0 := host 0 0 in
  let σ0 := boot DemoRuns.list_document in
  fs σ0 !! joinpath w0 "/work" CONFIG_FILE_NAME
  = Some (File (RefCodec.dumps (JArr [])))
  ∧ RefCodec.loads (RefCodec.dumps (JArr [])) = Some (JArr [])
  ∧ update_config_value w0 (codec := RefCodec.codec) "/work" "main"
      (JStr "app.py") σ0
    = (Raise TypeError, σ0).
Proof.
  intros w0 σ0.
  assert (fs σ0 !! joinpath w0 "/work" CONFIG_FILE_NAME
          = Some (File (RefCodec.dumps (JArr [])))) as Hfile
    by (vm_compute; reflexivity).
  assert (RefCodec.loads (RefCodec.dumps (JArr [])) = Some (JArr [])) as Hloads
    by (vm_compute; reflexivity).
  split; [exact Hfile|]. split; [exact Hloads|].
  apply (update_config_value_needs_object w0 (codec := RefCodec.codec) "/work"
           "main" (JStr "app.py") σ0 _ (JArr []) Hfile Hloads).
  intros members. discriminate.
Defined.

Lemma update_config_value_keeps_order_witness :
  let w0 := host 0 0 in
  let σ0 := boot configured in
  let call :=
    update_config_value w0 (codec := RefCodec.codec) "/work" "use_env_key"
      (JBool true) σ0 in
  fs σ0 !! joinpath w0 "/work" CONFIG_FILE_NAME
  = Some (File (RefCodec.dumps main_document))
  ∧ ∃ members',
      fst (read_config w0 (codec := RefCodec.codec) "/work" (snd call))
      = Ok (JObj members')
      ∧ dict_get "use_env_key" members' = Some (JBool true)
      ∧ members'.*1 = ["main"; "use_env_key"].
Proof.
  intros w0 σ0 call.
  assert (fs σ0 !! joinpath w0 "/work" CONFIG_FILE_NAME
          = Some (File (RefCodec.dumps main_document))) as Hfile
    by (vm_compute; reflexivity).
  split; [exact Hfile|].
  destruct (update_config_value_keeps_order w0 (laws := RefCodecFacts.laws)
              "/work" "use_env_key" (JBool true) σ0 _ [("main", JStr "app.py")]
              eq_refl Hfile (RefCodecFacts.loads_dumps main_document eq_refl))
    as (members' & Hread & Hget & _ & Hnew).
  exists members'. split; [exact Hread|]. split; [exact Hget|].
  apply Hnew. intros Hin. apply list_elem_of_singleton in Hin. discriminate.
Defined.

Lemma find_python_files_top_level_only_witness :
  let s0 := DemoPaths.session DemoPaths.sources [] in
  ∃ found,
    find_python_files DemoPaths.paths "/work" s0 = (Ok found, s0)
    ∧ "/work/pkg/__pycache__/util.py" ∈ found
    ∧ "/work/build/lib/app.py" ∉ found.
Proof.
  intros s0.
  destruct (find_python_files_top_level_only DemoPaths.paths "/work" s0)
    as (found & Hfound & _ & Hiff & Hkept & _).
  exists found. split; [exact Hfound|]. split.
  - apply (Hkept "/work/pkg/__pycache__/util.py" "pkg" ["__pycache__"; "util.py"]).
    + vm_compute. repeat constructor.
    + vm_compute. reflexivity.
    + intros Hin. vm_compute in Hin.
      repeat (apply elem_of_cons in Hin as [Hin|Hin]; [discriminate|]).
      inversion Hin.
  - intros Hin. apply Hiff in Hin as [_ Hnot]. apply Hnot.
    exists "build", ["lib"; "app.py"]. split.
    + vm_compute. reflexivity.
    + vm_compute. repeat constructor.
Defined.

Lemma find_python_files_ignores_docs_build_witness :
  let s0 := DemoPaths.session DemoPaths.sources [] in
  let item := "/work/docs/_build/conf.py" in
  path_parts_from DemoPaths.paths item "/work" = Some ["docs"; "_build"; "conf.py"]
  ∧ ∃ found, find_python_files DemoPaths.paths "/work" s0 = (Ok found, s0)
             ∧ item ∈ found.
Proof.
  intros s0 item.
  assert (path_parts_from DemoPaths.paths item "/work"
          = Some ["docs"; "_build"; "conf.py"]) as Hparts
    by (vm_compute; reflexivity).
  split; [exact Hparts|].
  refine (proj2 (find_python_files_ignores_docs_build DemoPaths.paths "/work" s0
                   item _) ["conf.py"] _ Hparts).
  - intros parts. rewrite Hparts. intros [= <-].
    repeat constructor.
  - vm_compute. repeat constructor.
Defined.

Lemma check_for_main_block_spec_witness :
  let s0 := DemoPaths.session DemoPaths.sources [] in
  fs (core s0) !! "/work/app.py" = Some (File main_block_double)
  ∧ fst (check_for_main_block "/work/app.py" s0) = Ok true
  ∧ snd (check_for_main_block "/work/app.py" s0) = s0
  ∧ fst (check_for_main_block "/work/missing.py" s0) = Ok false.
Proof.
  intros s0.
  assert (fs (core s0) !! "/work/app.py" = Some (File main_block_double))
    as Hfile by (vm_compute; reflexivity).
  split; [exact Hfile|].
  destruct (check_for_main_block_spec "/work/app.py" s0) as (Htrue & Hsame & _).
  destruct (check_for_main_block_spec "/work/missing.py" s0)
    as (_ & _ & Hfalse & _).
  split; [|split].
  - apply Htrue.
    exists main_block_double, EmptyString, EmptyString, main_block_double.
    split; [exact Hfile|]. split; [left; reflexivity|reflexivity].
  - exact (Hsame _ Hfile).
  - apply Hfalse. intros content. vm_compute. discriminate.
Defined.

Lemma prompt_yes_no_first_answer_witness :
  let s0 := DemoPaths.session ∅ ["maybe"; "  YES "; "n"] in
  answer_of false "maybe" = None
  ∧ answer_of false "  YES " = Some true
  ∧ prompt_yes_no "Proceed?" false s0
    = (Ok true,
       {| core := core s0; notes := notes s0; stdin := ["n"];
          terminal :=
            terminal s0
            ++ concat (map (λ _, asked_again (yes_no_prompt "Proceed?" false))
                         ["maybe"])
            ++ [Prompted (yes_no_prompt "Proceed?" false)] |}).
Proof.
  intros s0. split; [reflexivity|]. split; [reflexivity|].
  apply (prompt_yes_no_first_answer "Proceed?" false s0 ["maybe"] "  YES " ["n"]
           true).
  - reflexivity.
  - repeat constructor.
  - reflexivity.
Defined.

Lemma prompt_yes_no_runs_out_witness :
  let s0 := DemoPaths.session ∅ ["maybe"; "what"] in
  Forall (λ line, answer_of true line = None) (stdin s0)
  ∧ fst (prompt_yes_no "Proceed?" true s0) = Raise (OtherError "EOFError").
Proof.
  intros s0.
  assert (Forall (λ line, answer_of true line = None) (stdin s0)) as Hnone
    by (repeat constructor).
  split; [exact Hnone|].
  rewrite (prompt_yes_no_runs_out "Proceed?" true s0 Hnone). reflexivity.
Defined.

Lemma ensure_venv_raises_only_witness :
  let w0 := DemoRuns.host false 0 in
  let s0 := DemoPaths.session unmarked_venv [] in
  fst (_ensure_venv w0 "/work" true s0) = Raise (Exit 1)
  ∧ Exit 1 = Exit 1
  ∧ fst (find_venv w0 "/work" (core s0)) = Ok None
  ∧ fst (_ensure_venv w0 "/work" false s0) = Raise (Exit 1)
  ∧ core (snd (_ensure_venv w0 "/work" false s0)) = core s0.
Proof.
  intros w0 s0.
  assert (fst (_ensure_venv w0 "/work" true s0) = Raise (Exit 1)) as Hraise
    by (vm_compute; reflexivity).
  assert (fst (find_venv w0 "/work" (core s0)) = Ok None) as Habsent
    by (vm_compute; reflexivity).
  split; [exact Hraise|].
  split; [exact (proj1 (ensure_venv_raises_only w0 "/work" true s0) _ Hraise)|].
  split; [exact Habsent|].
  exact (proj2 (proj2 (ensure_venv_raises_only w0 "/work" false s0))
           Habsent eq_refl).
Defined.

Lemma ensure_venv_creates_witness :
  let w0 := DemoRuns.host true 0 in
  let s0 := DemoPaths.session unmarked_venv [] in
  fst (find_venv w0 "/work" (core s0)) = Ok None
  ∧ launched (core (snd (_ensure_venv w0 "/work" true s0)))
    = launched (core s0) ++ [venv_request w0 "/work"]
  ∧ fst (_ensure_venv w0 "/work" true s0) = Ok "/work/.venv"
  ∧ fst (find_venv w0 "/work" (core (snd (_ensure_venv w0 "/work" true s0))))
    = Ok (Some "/work/.venv").
Proof.
  intros w0 s0.
  assert (fst (find_venv w0 "/work" (core s0)) = Ok None) as Habsent
    by (vm_compute; reflexivity).
  split; [exact Habsent|].
  destruct (ensure_venv_creates w0 "/work" s0 Habsent) as (Hone & Hdone & _).
  split; [exact Hone|].
  split; [|vm_compute; reflexivity].
  refine (proj1 (Hdone None None _ _)). vm_compute. reflexivity.
Defined.

Lemma lock_deps_writes_frozen_output_witness :
  let w0 := DemoRuns.host true 0 in
  let s0 := DemoPaths.session DemoRuns.project [] in
  let s1 := snd (lock_deps w0 DemoPaths.paths None None s0) in
  fst (get_project_dir w0 DemoPaths.paths None s0) = Ok "/work"
  ∧ fst (find_venv w0 "/work" (core s0)) = Ok (Some "/work/.venv")
  ∧ fst (lock_deps w0 DemoPaths.paths None None s0) = Ok tt
  ∧ fs (core s1) !! "/work/requirements.lock"
    = Some (File ("requests==2.31.0" +:+ newline +:+ "urllib3==2.0.7"))
  ∧ last (notes s1) = Some (INFO, Wrote_pins 2 "/work/requirements.lock").
Proof.
  intros w0 s0 s1.
  assert (fst (get_project_dir w0 DemoPaths.paths None s0) = Ok "/work") as Hdir
    by (vm_compute; reflexivity).
  assert (fst (find_venv w0 "/work" (core s0)) = Ok (Some "/work/.venv"))
    as Hvenv by (vm_compute; reflexivity).
  split; [exact Hdir|]. split; [exact Hvenv|].
  destruct (lock_deps_writes_frozen_output w0 DemoPaths.paths None None s0
              "/work" "/work/.venv" (Some DemoRuns.pins) (Some EmptyString)
              (fs (core s0)) Hdir Hvenv)
    as (Hok & _ & Hfs & Hnote & _).
  - vm_compute. reflexivity.
  - vm_compute. reflexivity.
  - split; [exact Hok|]. split.
    + subst s1. rewrite Hfs. vm_compute. reflexivity.
    + subst s1. rewrite Hnote. vm_compute. reflexivity.
Defined.

Lemma lock_deps_raises_only_witness :
  let w0 := DemoRuns.host true 2 in
  let s0 := DemoPaths.session DemoRuns.project [] in
  let bare := DemoPaths.session unmarked_venv [] in
  fst (lock_deps w0 DemoPaths.paths None None s0) = Raise (Exit 1)
  ∧ fs (core (snd (lock_deps w0 DemoPaths.paths None None s0))) = fs (core s0)
  ∧ fst (lock_deps w0 DemoPaths.paths None None bare) = Raise (Exit 1)
  ∧ core (snd (lock_deps w0 DemoPaths.paths None None bare)) = core bare.
Proof.
  intros w0 s0 bare.
  destruct (lock_deps_raises_only w0 DemoPaths.paths None None s0)
    as (_ & _ & Hfailed).
  destruct (lock_deps_raises_only w0 DemoPaths.paths None None bare)
    as (_ & Hnone & _).
  split; [|split].
  - refine (proj1 (Hfailed "/work" "/work/.venv" 2 (Some DemoRuns.pins)
                     (Some EmptyString) (fs (core s0)) _ _ _ (or_introl _)));
      [vm_compute; reflexivity..|discriminate].
  - refine (proj2 (Hfailed "/work" "/work/.venv" 2 (Some DemoRuns.pins)
                     (Some EmptyString) (fs (core s0)) _ _ _ (or_introl _)));
      [vm_compute; reflexivity..|discriminate].
  - refine (Hnone "/work" _ _); vm_compute; reflexivity.
Defined.

Lemma run_script_ignores_script_status_witness :
  let w0 := DemoRuns.host true 3 in
  let s0 := DemoPaths.session DemoRuns.project [] in
  let call :=
    run_script w0 DemoPaths.paths (codec := RefCodec.codec) "/work/app.py"
      (Some ["--fast"]) s0 in
  Pathlib.is_file (fs (core s0)) "/work/app.py" = true
  ∧ fst call = Ok tt
  ∧ launched (core (snd call))
    = [script_request w0 (fs (core s0)) (Some "/work/.venv") "/work"
         "/work/app.py" ["--fast"]]
  ∧ last (notes (snd call)) = Some (WARNING, Script_status 3).
Proof.
  intros w0 s0 call.
  assert (Pathlib.is_file (fs (core s0)) "/work/app.py" = true) as Hfile
    by (vm_compute; reflexivity).
  split; [exact Hfile|].
  destruct (run_script_ignores_script_status w0 DemoPaths.paths
              (codec := RefCodec.codec) "/work/app.py" (Some ["--fast"]) s0
              (Some "/work/.venv") 3 None None (fs (core s0)))
    as (Hok & Hone & Hwarned).
  - exact Hfile.
  - vm_compute. reflexivity.
  - vm_compute. reflexivity.
  - vm_compute. reflexivity.
  - split; [exact Hok|]. split; [exact Hone|]. apply Hwarned. discriminate.
Defined.

Lemma run_script_interpreter_not_found_witness :
  let w0 := DemoRuns.host false 0 in
  let s0 := DemoPaths.session DemoRuns.project [] in
  let call :=
    run_script w0 DemoPaths.paths (codec := RefCodec.codec) "/work/app.py"
      None s0 in
  fst call = Raise (Exit 127)
  ∧ last (notes (snd call)) = Some (ERROR, Script_not_executed).
Proof.
  intros w0 s0 call.
  apply (run_script_interpreter_not_found w0 DemoPaths.paths
           (codec := RefCodec.codec) "/work/app.py" None s0
           (Some "/work/.venv") (fs (core s0)));
    vm_compute; reflexivity.
Defined.

Lemma run_script_directory_without_main_witness :
  let w0 := DemoRuns.host true 0 in
  let s0 := DemoPaths.session unmarked_venv [] in
  let call :=
    run_script w0 DemoPaths.paths (codec := RefCodec.codec) "/work" None s0 in
  Pathlib.is_dir (fs (core s0)) "/work" = true
  ∧ fst call = Raise (Exit 1)
  ∧ launched (core (snd call)) = launched (core s0)
  ∧ (ERROR, No_main_configured "/work") ∈ notes (snd call).
Proof.
  intros w0 s0 call.
  assert (Pathlib.is_dir (fs (core s0)) "/work" = true) as Hdir
    by (vm_compute; reflexivity).
  split; [exact Hdir|].
  apply (run_script_directory_without_main w0 DemoPaths.paths
           (codec := RefCodec.codec) "/work" None s0 []).
  - exact Hdir.
  - vm_compute. reflexivity.
  - reflexivity.
Defined.

Lemma module_argv_of_rendered_witness :
  PyText.cut_at_blank "/work/.venv/bin/python" = None
  ∧ module_argv (render (ModuleInvocation "/work/.venv/bin/python" "twine"))
      ["ignored"; "upload"; "dist/*"]
    = ["/work/.venv/bin/python"; "-m"; "twine"; "upload"; "dist/*"].
Proof.
  split; [reflexivity|].
  apply (module_argv_of_rendered "/work/.venv/bin/python" "twine" "ignored"
           ["upload"; "dist/*"]); vm_compute; reflexivity.
Defined.

Lemma module_argv_cuts_path_at_blank_witness :
  PyText.cut_at_blank "/my projects/.venv/bin/python"
  = Some ("/my", "projects/.venv/bin/python")
  ∧ ∃ rest,
      module_argv (render (ModuleInvocation "/my projects/.venv/bin/python" "twine"))
        ["ignored"; "upload"]
      = PyText.strip_char Py.dquote "/my" :: rest
      ∧ (String.length (PyText.strip_char Py.dquote "/my")
         < String.length "/my projects/.venv/bin/python")%nat.
Proof.
  assert (PyText.cut_at_blank "/my projects/.venv/bin/python"
          = Some ("/my", "projects/.venv/bin/python")) as Hcut by reflexivity.
  split; [exact Hcut|].
  exact (module_argv_cuts_path_at_blank "/my projects/.venv/bin/python" "twine"
           ["ignored"; "upload"] "/my" "projects/.venv/bin/python" Hcut).
Defined.

End EdgeWitnesses.
